(** * BRITIMP consolidator: normaliser, gate, extractors and writer

    A shallow embedding of the three consolidator scripts of the repository
    ([consolidado_v3.py], [consolidado_v4.py], [britimp_consolidado_v4.py])
    and the properties their specification states about them.

    Conventions of the embedding.
    - A Python [str] is held as the bytes of its UTF-8 encoding (a Rocq
      [string]).  Substring tests and replacements commute with the
      encoding.  Case mapping, accent removal and white space are exact on
      U+0000..U+00FF (with the exceptions named at each definition);
      characters beyond that range are carried unchanged.
    - A Python [float] is held as the exact decimal it denotes (a [Q]);
      the rounding to binary64 and overflow past 1e308 are outside the
      model.  Beyond parsing, the program negates such values, compares
      them, tests them for zero and rounds them to integers: on a decimal
      binary64 holds exactly (a whole number below 2^53 in size, among
      others) the model and the program agree; on a longer decimal the
      program works on the nearest binary64, and [int(round(x))] raises
      for [inf].
    - A spreadsheet cell is one of the Python values named at [cell]. *)

From Stdlib Require Import ZArith QArith Qround String Ascii List Bool Lia.
From Stdlib Require Import DecimalString.
From stdpp Require Import gmap strings list fin_maps.

#[local] Open Scope string_scope.
#[local] Open Scope bool_scope.

(** ** Python strings *)

Module PyStr.

Definition chr (n : nat) : ascii := ascii_of_nat n.
Definition ord (c : ascii) : nat := nat_of_ascii c.

Definition between (lo hi : nat) (c : ascii) : bool :=
  (lo <=? ord c)%nat && (ord c <=? hi)%nat.

(** [\d] on the ASCII range. *)
Definition is_digit (c : ascii) : bool := between 48 57 c.
Definition is_upper (c : ascii) : bool := between 65 90 c.
Definition is_lower (c : ascii) : bool := between 97 122 c.
Definition is_alnum (c : ascii) : bool := is_digit c || is_upper c || is_lower c.

(** ASCII white space as [str.isspace] has it: TAB..CR, FS..US and SPACE. *)
Definition is_space (c : ascii) : bool := between 9 13 c || between 28 32 c.

(** Lead byte of U+0080..U+00BF and the second bytes of NEL and NBSP. *)
Definition xC2 : ascii := "194"%char.
Definition xC3 : ascii := "195"%char.
Definition x85 : ascii := "133"%char.
Definition xA0 : ascii := "160"%char.
Definition NBSP : string := String xC2 (String xA0 "").

(** A continuation byte of a multi-byte character. *)
Definition is_cont (c : ascii) : bool := between 128 191 c.

(** [not s] *)
Definition is_empty (s : string) : bool :=
  match s with "" => true | _ => false end.

(** [needle in s] *)
Fixpoint contains (needle s : string) : bool :=
  String.prefix needle s ||
  match s with
  | "" => false
  | String _ t => contains needle t
  end.

(** [s.startswith(p)] and [s.endswith(p)] *)
Definition startswith (p s : string) : bool := String.prefix p s.

Fixpoint endswith (p s : string) : bool :=
  String.eqb p s ||
  match s with
  | "" => false
  | String _ t => endswith p t
  end.

(** [s.replace(old, new)] for a non-empty [old]: the scan is left to right
    and [skip] counts the characters of a match still to be dropped. *)
Fixpoint replace_go (old new : string) (skip : nat) (s : string) : string :=
  match s with
  | "" => ""
  | String c t =>
      match skip with
      | S k => replace_go old new k t
      | O =>
          if String.prefix old s
          then new ++ replace_go old new (String.length old - 1) t
          else String c (replace_go old new 0 t)
      end
  end.

(** With an empty [old] Python puts [new] before every character and at the
    end. *)
Fixpoint intersperse (new s : string) : string :=
  match s with
  | "" => new
  | String c t => new ++ String c (intersperse new t)
  end.

Definition replace (old new s : string) : string :=
  if is_empty old then intersperse new s else replace_go old new 0 s.

(** One-character patterns, the shape every replacement of [parse_numeric]
    has; [replace_char] is proved equal to [replace] below. *)
Fixpoint replace_char (c : ascii) (new : string) (s : string) : string :=
  match s with
  | "" => ""
  | String d t =>
      if Ascii.eqb d c then new ++ replace_char c new t
      else String d (replace_char c new t)
  end.

(** [s.split(sep)] for a one-character separator. *)
Fixpoint split (sep : ascii) (s : string) : list string :=
  match s with
  | "" => [""]
  | String c t =>
      if Ascii.eqb c sep then "" :: split sep t
      else match split sep t with
           | [] => [String c ""]
           | p :: ps => String c p :: ps
           end
  end.

(** [s.rfind(c)], as an index from the left, [-1] when [c] does not occur. *)
Fixpoint rfind_from (c : ascii) (i : Z) (s : string) (found : Z) : Z :=
  match s with
  | "" => found
  | String d t => rfind_from c (i + 1) t (if Ascii.eqb d c then i else found)
  end.

Definition rfind (c : ascii) (s : string) : Z := rfind_from c 0 s (-1).

(** [s[1:-1]] *)
Fixpoint drop_last (s : string) : string :=
  match s with
  | "" => ""
  | String _ "" => ""
  | String c t => String c (drop_last t)
  end.

Definition slice_1_m1 (s : string) : string :=
  match s with
  | "" => ""
  | String _ t => drop_last t
  end.

(** [s.strip()]: white space is the ASCII white space and, of the
    multi-byte characters, U+0085 and U+00A0; the white space beyond
    U+00FF (U+1680, U+2000..U+200A, ...) is not recognised. *)
Fixpoint lstrip (s : string) : string :=
  match s with
  | "" => ""
  | String c t =>
      if is_space c then lstrip t
      else if Ascii.eqb c xC2 then
        match t with
        | String d t' =>
            if Ascii.eqb d xA0 || Ascii.eqb d x85 then lstrip t' else s
        | "" => s
        end
      else s
  end.

Definition all_space (s : string) : bool := is_empty (lstrip s).

Fixpoint rstrip (s : string) : string :=
  match s with
  | "" => ""
  | String c t => if all_space s then "" else String c (rstrip t)
  end.

Definition strip (s : string) : string := rstrip (lstrip s).

(** [str.upper()]: ASCII letters and, in the Latin-1 supplement, the letters
    U+00E0..U+00FE other than the division sign.  The three characters whose
    upper case leaves the range (U+00B5, U+00DF, U+00FF) are left as they
    are. *)
Definition upper_ascii (c : ascii) : ascii :=
  if is_lower c then chr (ord c - 32) else c.

Definition upper_latin1 (d : ascii) : ascii :=
  if between 160 190 d && negb (ord d =? 183)%nat then chr (ord d - 32) else d.

Fixpoint upper (s : string) : string :=
  match s with
  | "" => ""
  | String c t =>
      if Ascii.eqb c xC3 then
        match t with
        | String d t' => String c (String (upper_latin1 d) (upper t'))
        | "" => s
        end
      else String (upper_ascii c) (upper t)
  end.

(** [re.sub(r"\D", "", s)] *)
Fixpoint only_digits (s : string) : string :=
  match s with
  | "" => ""
  | String c t => if is_digit c then String c (only_digits t) else only_digits t
  end.

Fixpoint all_chars (p : ascii -> bool) (s : string) : bool :=
  match s with
  | "" => true
  | String c t => p c && all_chars p t
  end.

(** [c in s] and [s.count(c)] for one character. *)
Fixpoint has_char (c : ascii) (s : string) : bool :=
  match s with
  | "" => false
  | String d t => Ascii.eqb d c || has_char c t
  end.

Fixpoint count_char (c : ascii) (s : string) : nat :=
  match s with
  | "" => 0
  | String d t => (if Ascii.eqb d c then 1 else 0) + count_char c t
  end%nat.

(** [" ".join(parts)] and friends. *)
Definition join (sep : string) (parts : list string) : string :=
  String.concat sep parts.

End PyStr.

(** ** Normaliser: numbers *)

Module Normalizer.
Import PyStr.

(** [float(s)] on the strings [parse_numeric] can hand to it.  The
    sanitiser leaves only digits, [,], [.], [-], [(], [)] and spaces, so
    no exponent, underscore, [inf] or [nan] reaches [float]; on what is
    left Python accepts an optional sign followed by digits with at most
    one point and at least one digit.  The value kept is the decimal
    written, not the binary64 nearest to it, and never [inf]. *)
Fixpoint Z_of_digits_from (acc : Z) (s : string) : Z :=
  match s with
  | "" => acc
  | String c t => Z_of_digits_from (acc * 10 + Z.of_nat (ord c - 48)) t
  end.

Definition Z_of_digits (s : string) : Z := Z_of_digits_from 0 s.

Fixpoint pow10 (n : nat) : positive :=
  match n with
  | O => 1%positive
  | S k => (10 * pow10 k)%positive
  end.

(** The text before the first point, and the text after it if there is
    one. *)
Fixpoint cut_point (s : string) : string * option string :=
  match s with
  | "" => ("", None)
  | String c t =>
      if Ascii.eqb c "." then ("", Some t)
      else let (i, f) := cut_point t in (String c i, f)
  end.

Definition unsigned_float (s : string) : option Q :=
  match cut_point s with
  | (i, None) =>
      if all_chars is_digit i && negb (is_empty i)
      then Some (Z_of_digits i # 1) else None
  | (i, Some f) =>
      if all_chars is_digit i && all_chars is_digit f
         && negb (is_empty i && is_empty f)
      then Some (Z_of_digits (i ++ f) # pow10 (String.length f)) else None
  end.

Definition float (s : string) : option Q :=
  match s with
  | String "-" t => option_map Qopp (unsigned_float t)
  | String "+" t => unsigned_float t
  | _ => unsigned_float s
  end.

(** [NUM_SANITIZER.sub("", val)]: every character outside
    [[\d,.\-()  ]] goes.  U+00A0 is the byte pair C2 A0; the bytes of any
    other multi-byte character are all dropped. *)
Definition num_char (c : ascii) : bool :=
  is_digit c || Ascii.eqb c "," || Ascii.eqb c "." || Ascii.eqb c "-"
  || Ascii.eqb c "(" || Ascii.eqb c ")" || Ascii.eqb c " ".

Fixpoint NUM_SANITIZER_sub (s : string) : string :=
  match s with
  | "" => ""
  | String c t =>
      if num_char c then String c (NUM_SANITIZER_sub t)
      else if Ascii.eqb c xC2 then
        match t with
        | String d t' =>
            if Ascii.eqb d xA0 then String c (String d (NUM_SANITIZER_sub t'))
            else NUM_SANITIZER_sub t
        | "" => ""
        end
      else NUM_SANITIZER_sub t
  end.

(** [-x if neg else x] *)
Definition signed (neg : bool) (x : Q) : Q := if neg then Qopp x else x.

(** The string branch of [parse_numeric] in [consolidado_v3.py]; the one of
    [consolidado_v4.py] is the same text. *)
Definition parse_numeric_str (val : string) : option Q :=
  let s := strip (replace NBSP " " (NUM_SANITIZER_sub val)) in
  if is_empty s then None else
  let neg := startswith "(" s && endswith ")" s in
  let s := if neg then strip (slice_1_m1 s) else s in
  let s := replace " " "" s in
  let s :=
    if contains "," s && contains "." s then
      if (rfind "." s >? rfind "," s)%Z then replace "," "" s
      else replace "," "." (replace "." "" s)
    else if contains "," s then
      let parts := split "," s in
      if (2 <=? List.length parts)%nat
         && (String.length (List.last parts "") <=? 2)%nat
      then replace "," "." s
      else replace "," "" s
    else s in
  option_map (signed neg) (float s).

(** The same branch in [britimp_consolidado_v4.py], whose two-separator
    case is written as a conditional expression followed by a second
    replacement. *)
Definition parse_numeric_str_britimp (val : string) : option Q :=
  let s := strip (replace NBSP " " (NUM_SANITIZER_sub val)) in
  if is_empty s then None else
  let neg := startswith "(" s && endswith ")" s in
  let s := if neg then strip (slice_1_m1 s) else s in
  let s := replace " " "" s in
  let s :=
    if contains "," s && contains "." s then
      let s := if (rfind "." s <? rfind "," s)%Z
               then replace "." "" s else replace "," "" s in
      replace "," "." s
    else if contains "," s then
      let parts := split "," s in
      if (2 <=? List.length parts)%nat
         && (String.length (List.last parts "") <=? 2)%nat
      then replace "," "." s
      else replace "," "" s
    else s in
  option_map (signed neg) (float s).


(** ** Normaliser: cells and dates *)

(** The values met in a row of [pd.read_excel(..., header=None)] turned
    into a list when the sheet has columns of text: a missing value, a
    Python [bool], [int] or [float], a string, a [datetime].  A float and
    a timestamp carry the text [str()] prints for them (the shortest
    round-trip decimal, [YYYY-MM-DD HH:MM:SS]); nothing below looks inside
    that text except to search it.  Left out: the [numpy.int64] a sheet
    of whole numbers only hands out (it passes none of the [isinstance]
    tests, so [parse_numeric] and [to_ddmmyyyy] of [consolidado_v3.py]
    give [None] for it), the missing time stamp [pd.NaT] (its [strftime]
    raises), and the floats [inf] and [nan] other than the missing
    value. *)
Inductive cell : Type :=
  | NaN
  | PyBool (b : bool)
  | PyInt (z : Z)
  | PyFloat (q : Q) (repr : string)
  | PyStr (s : string)
  | PyDatetime (year month day : Z) (repr : string).

Definition row : Type := list cell.

(** [pd.isna(x)] *)
Definition isna (x : cell) : bool :=
  match x with NaN => true | _ => false end.

Definition string_of_Z (z : Z) : string := NilZero.string_of_int (Z.to_int z).

(** [str(x)] *)
Definition str (x : cell) : string :=
  match x with
  | NaN => "nan"
  | PyBool true => "True"
  | PyBool false => "False"
  | PyInt z => string_of_Z z
  | PyFloat _ repr => repr
  | PyStr s => s
  | PyDatetime _ _ _ repr => repr
  end.

(** [float(x)] of a number. *)
Definition number (x : cell) : option Q :=
  match x with
  | PyBool b => Some (if b then 1 else 0)%Q
  | PyInt z => Some (z # 1)
  | PyFloat q _ => Some q
  | _ => None
  end.

(** [parse_numeric] of [consolidado_v3.py] and [britimp_consolidado_v4.py]:
    missing values give [None], numbers themselves, strings go through the
    string branch, anything else gives [None]. *)
Definition parse_numeric (val : cell) : option Q :=
  match val with
  | NaN => None
  | PyStr s => parse_numeric_str s
  | PyDatetime _ _ _ _ => None
  | _ => number val
  end.

Definition parse_numeric_britimp (val : cell) : option Q :=
  match val with
  | NaN => None
  | PyStr s => parse_numeric_str_britimp s
  | PyDatetime _ _ _ _ => None
  | _ => number val
  end.

(** [parse_numeric] of [consolidado_v4.py], which sends every value that is
    not a number through [str]. *)
Definition parse_numeric_v4 (val : cell) : option Q :=
  match val with
  | NaN => None
  | PyBool _ | PyInt _ | PyFloat _ _ => number val
  | _ => parse_numeric_str (str val)
  end.

(** [clean_digits] *)
Definition clean_digits (val : cell) : string :=
  if isna val then "" else only_digits (str val).

(** [float(x).is_integer()] and [int(x)] *)
Definition is_integer (q : Q) : bool := (Qnum q mod Zpos (Qden q) =? 0)%Z.
Definition int_of (q : Q) : Z := Z.quot (Qnum q) (Zpos (Qden q)).

(** *** Calendar *)

Definition is_leap (y : Z) : bool :=
  ((y mod 4 =? 0) && (negb (y mod 100 =? 0) || (y mod 400 =? 0)))%Z.

Definition days_in_month (y m : Z) : Z :=
  if (m =? 2)%Z then (if is_leap y then 29 else 28)
  else if ((m =? 4) || (m =? 6) || (m =? 9) || (m =? 11))%Z then 30 else 31.

Definition valid_date (y m d : Z) : bool :=
  ((1 <=? y) && (y <=? 9999) && (1 <=? m) && (m <=? 12)
   && (1 <=? d) && (d <=? days_in_month y m))%Z.

(** Year, month and day of the day [z] days after 1970-01-01 in the
    proleptic Gregorian calendar. *)
Definition civil_from_days (z : Z) : Z * Z * Z :=
  let z := (z + 719468)%Z in
  let era := (z / 146097)%Z in
  let doe := (z - era * 146097)%Z in
  let yoe := ((doe - doe / 1460 + doe / 36524 - doe / 146096) / 365)%Z in
  let doy := (doe - (365 * yoe + yoe / 4 - yoe / 100))%Z in
  let mp := ((5 * doy + 2) / 153)%Z in
  let d := (doy - (153 * mp + 2) / 5 + 1)%Z in
  let m := (if (mp <? 10)%Z then mp + 3 else mp - 9)%Z in
  let y := (yoe + era * 400 + (if (m <=? 2)%Z then 1 else 0))%Z in
  (y, m, d).

Fixpoint zeros (n : nat) : string :=
  match n with
  | O => ""
  | S k => String "0" (zeros k)
  end.

Definition zfill (width : nat) (s : string) : string :=
  zeros (width - String.length s) ++ s.

(** [strftime("%d/%m/%Y")]: day and month on two digits; the year is
    printed by the C library, which on Linux does not pad it, so a year
    before 1000 comes out on fewer than four digits
    ([datetime(804,10,31)] gives [31/10/804]). *)
Definition strftime_dmY (y m d : Z) : string :=
  zfill 2 (string_of_Z d) ++ "/" ++ zfill 2 (string_of_Z m) ++ "/"
  ++ string_of_Z y.

(** [round()] of a rational, halves to the even side. *)
Definition round_half_even (q : Q) : Z :=
  let n := (2 * Qnum q)%Z in
  let d := (2 * Zpos (Qden q))%Z in
  let f := (Qnum q / Zpos (Qden q))%Z in
  let r := (n - f * d)%Z in
  if (r <? Zpos (Qden q))%Z then f
  else if (Zpos (Qden q) <? r)%Z then (f + 1)%Z
  else if Z.even f then f else (f + 1)%Z.

(** [excel_serial_to_ddmmyyyy]: [datetime(1899,12,30) + timedelta(days=val)],
    then the date.  [timedelta] rounds to the microsecond and refuses more
    than 999999999 days; [datetime] covers the years 1 to 9999; the
    [OverflowError] of either is swallowed and gives [None]. *)
Definition us_per_day : Z := 86400000000.

Definition excel_serial_to_ddmmyyyy (val : Q) : option string :=
  let us := round_half_even (val * (us_per_day # 1)) in
  let days := (us / us_per_day)%Z in
  if ((-999999999 <=? days) && (days <=? 999999999)
      && (-693593 <=? days) && (days <=? 2958465))%Z
  then let '(y, m, d) := civil_from_days (days - 25569) in
       Some (strftime_dmY y m d)
  else None.

(** *** Date strings *)

(** [DATE_RE.match(s)]: two digits, a slash, two digits, a slash, four
    digits, with white space allowed around. *)
Definition digits_n (n : nat) (s : string) : bool :=
  (String.length s =? n)%nat && all_chars is_digit s.

Definition date_shape (dlo dhi : nat) (s : string) : bool :=
  match split "/" s with
  | [d; m; y] =>
      (dlo <=? String.length d)%nat && (String.length d <=? dhi)%nat
      && all_chars is_digit d
      && (dlo <=? String.length m)%nat && (String.length m <=? dhi)%nat
      && all_chars is_digit m
      && digits_n 4 y
  | _ => false
  end.

Definition DATE_RE_match (s : string) : bool := date_shape 2 2 (strip s).

(** [DATE_RE] of [britimp_consolidado_v4.py] takes one or two digits for
    day and month. *)
Definition DATE_RE_match_britimp (s : string) : bool := date_shape 1 2 (strip s).

(** The directives of [strptime].  [%d] is one of [3[01]], [[12]\d],
    [0[1-9]], [[1-9]] or a space and [[1-9]]; [%m] one of [1[0-2]],
    [0[1-9]], [[1-9]]; [%Y] four digits; [%y] two digits, 69..99 read in
    the 1900s and 00..68 in the 2000s. *)
Definition directive_d (s : string) : option Z :=
  let s' := match s with String " " t => (if digits_n 1 t then t else "") | _ => s end in
  if all_chars is_digit s' && negb (is_empty s') && (String.length s' <=? 2)%nat
     && (1 <=? Z_of_digits s')%Z && (Z_of_digits s' <=? 31)%Z
  then Some (Z_of_digits s') else None.

Definition directive_m (s : string) : option Z :=
  if all_chars is_digit s && negb (is_empty s) && (String.length s <=? 2)%nat
     && (1 <=? Z_of_digits s)%Z && (Z_of_digits s <=? 12)%Z
  then Some (Z_of_digits s) else None.

Definition directive_Y (s : string) : option Z :=
  if digits_n 4 s then Some (Z_of_digits s) else None.

Definition directive_y (s : string) : option Z :=
  if digits_n 2 s
  then Some (if (Z_of_digits s <=? 68)%Z then 2000 + Z_of_digits s
             else 1900 + Z_of_digits s)%Z
  else None.

Definition checked_date (y m d : option Z) : option string :=
  match y, m, d with
  | Some y, Some m, Some d =>
      if valid_date y m d then Some (strftime_dmY y m d) else None
  | _, _, _ => None
  end.

(** [datetime.strptime(s, fmt).strftime("%d/%m/%Y")], [None] standing for
    the [ValueError] the caller swallows. *)
Definition strptime_Ymd (s : string) : option string :=
  match split "-" s with
  | [y; m; d] => checked_date (directive_Y y) (directive_m m) (directive_d d)
  | _ => None
  end.

Definition strptime_dmY_dash (s : string) : option string :=
  match split "-" s with
  | [d; m; y] => checked_date (directive_Y y) (directive_m m) (directive_d d)
  | _ => None
  end.

Definition strptime_dmy_slash (s : string) : option string :=
  match split "/" s with
  | [d; m; y] => checked_date (directive_y y) (directive_m m) (directive_d d)
  | _ => None
  end.

Definition first_some {A} (a b : option A) : option A :=
  match a with Some _ => a | None => b end.

Definition date_of_str (date_re : string -> bool) (val : string) : option string :=
  let s := strip val in
  if date_re s then Some s
  else first_some (strptime_Ymd s)
         (first_some (strptime_dmY_dash s) (strptime_dmy_slash s)).

(** A result that is [None] or the empty string is false in a Python
    condition. *)
Definition truthy (o : option string) : option string :=
  match o with
  | Some s => if is_empty s then None else Some s
  | None => None
  end.

(** [to_ddmmyyyy] of [consolidado_v3.py]. *)
Definition to_ddmmyyyy_with (date_re : string -> bool) (val : cell) : option string :=
  match val with
  | NaN => None
  | PyDatetime y m d _ => Some (strftime_dmY y m d)
  | PyStr s => date_of_str date_re s
  | _ => match number val with
         | Some q => truthy (excel_serial_to_ddmmyyyy q)
         | None => None
         end
  end.

Definition to_ddmmyyyy : cell -> option string := to_ddmmyyyy_with DATE_RE_match.

(** [to_ddmmyyyy] of [britimp_consolidado_v4.py]: the same text over its
    own [DATE_RE]. *)
Definition to_ddmmyyyy_britimp : cell -> option string :=
  to_ddmmyyyy_with DATE_RE_match_britimp.


(** *** Character classes used to state the properties *)

(** Characters that are neither white space nor the lead byte of a
    multi-byte white space. *)
Definition plain_char (c : ascii) : bool := negb (is_space c) && negb (Ascii.eqb c xC2).

(** A digit or a comma. *)
Definition digit_or_comma (c : ascii) : bool := is_digit c || Ascii.eqb c ",".

(** The two separators. *)
Definition separator (c : ascii) : bool := Ascii.eqb c "." || Ascii.eqb c ",".

(** The string [parse_numeric] has in hand when it looks for the
    separators. *)
Definition cleaned (val : string) : string :=
  let s := strip (replace NBSP " " (NUM_SANITIZER_sub val)) in
  let neg := startswith "(" s && endswith ")" s in
  replace " " "" (if neg then strip (slice_1_m1 s) else s).

End Normalizer.


(** ** Text normalisation *)

Module Text.
Import PyStr.

(** [remove_accents]: canonical decomposition, then the combining marks
    dropped.  Of U+0000..U+00FF only the accented letters of the Latin-1
    supplement decompose; [base_letter] maps the second byte of each to its
    base letter. *)
Definition base_letter (d : ascii) : option ascii :=
  let n := ord d in
  if between 128 133 d then Some "A"%char
  else if (n =? 135)%nat then Some "C"%char
  else if between 136 139 d then Some "E"%char
  else if between 140 143 d then Some "I"%char
  else if (n =? 145)%nat then Some "N"%char
  else if between 146 150 d then Some "O"%char
  else if between 153 156 d then Some "U"%char
  else if (n =? 157)%nat then Some "Y"%char
  else if between 160 165 d then Some "a"%char
  else if (n =? 167)%nat then Some "c"%char
  else if between 168 171 d then Some "e"%char
  else if between 172 175 d then Some "i"%char
  else if (n =? 177)%nat then Some "n"%char
  else if between 178 182 d then Some "o"%char
  else if between 185 188 d then Some "u"%char
  else if (n =? 189)%nat || (n =? 191)%nat then Some "y"%char
  else None.

Fixpoint remove_accents (s : string) : string :=
  match s with
  | "" => ""
  | String c t =>
      if Ascii.eqb c xC3 then
        match t with
        | String d t' =>
            match base_letter d with
            | Some b => String b (remove_accents t')
            | None => String c (String d (remove_accents t'))
            end
        | "" => s
        end
      else String c (remove_accents t)
  end.

Fixpoint drop (n : nat) (s : string) : string :=
  match n, s with
  | S k, String _ t => drop k t
  | _, _ => s
  end.

(** [[A-ZÁÉÍÓÚÑ]]: the bytes one such letter takes at the head of [s], 0
    when there is none. *)
Definition letter_len (s : string) : nat :=
  match s with
  | String c t =>
      if is_upper c then 1
      else if Ascii.eqb c xC3 then
        match t with
        | String d _ =>
            let n := ord d in
            if ((n =? 129) || (n =? 137) || (n =? 141) || (n =? 147)
                || (n =? 154) || (n =? 145))%nat then 2 else 0
        | "" => 0
        end
      else 0
  | "" => 0
  end%nat.

(** [\s+]: the bytes of the white space at the head of [s]. *)
Definition ws_len (s : string) : nat := String.length s - String.length (lstrip s).

(** [\w] for the character that starts with byte [c] and goes on in [t];
    [prev] answers for a continuation byte, which belongs to the character
    before it.  Beyond U+00FF every character counts as a word. *)
Definition is_word (prev : bool) (c : ascii) (t : string) : bool :=
  if (ord c <? 128)%nat then is_alnum c || Ascii.eqb c "_"
  else if is_cont c then prev
  else if Ascii.eqb c xC2 then
    match t with
    | String d _ =>
        let n := ord d in
        ((n =? 170) || (n =? 178) || (n =? 179) || (n =? 181) || (n =? 185)
         || (n =? 186) || (n =? 188) || (n =? 189) || (n =? 190))%nat
    | "" => false
    end
  else if Ascii.eqb c xC3 then
    match t with
    | String d _ => negb ((ord d =? 151) || (ord d =? 183))%nat
    | "" => false
    end
  else true.

(** [\b] after a letter: the end of the text or a character that is not a
    word character. *)
Definition boundary (s : string) : bool :=
  match s with
  | "" => true
  | String c t => negb (is_word false c t)
  end.

(** [(?:\s+[A-ZÁÉÍÓÚÑ])+\b] from [s]: the bytes of the longest run of
    groups after which the boundary holds, the repetition giving back one
    group at a time. *)
Fixpoint groups_len (fuel : nat) (s : string) : option nat :=
  match fuel with
  | O => None
  | S k =>
      let w := ws_len s in
      let l := letter_len (drop w s) in
      if (0 <? w)%nat && (0 <? l)%nat then
        let s' := drop (w + l) s in
        match groups_len k s' with
        | Some n => Some (w + l + n)%nat
        | None => if boundary s' then Some (w + l)%nat else None
        end
      else None
  end.

Definition match_len (s : string) : nat :=
  let l := letter_len s in
  if (0 <? l)%nat then
    match groups_len (String.length s) (drop l s) with
    | Some n => (l + n)%nat
    | None => 0%nat
    end
  else 0%nat.

(** [re.sub(pattern, lambda m: m.group(0).replace(" ", ""), texto)]: [skip]
    counts the bytes of the current match still to come, [prev] tells
    whether the character before is a word character. *)
Fixpoint unir_go (prev : bool) (skip : nat) (s : string) : string :=
  match s with
  | "" => ""
  | String c t =>
      match skip with
      | S k =>
          if Ascii.eqb c " " then unir_go true k t
          else String c (unir_go true k t)
      | O =>
          let n := match_len s in
          if negb prev && (0 <? n)%nat then String c (unir_go true (n - 1) t)
          else String c (unir_go (is_word prev c t) 0 t)
      end
  end.

Definition unir_letras_separadas (texto : string) : string :=
  if is_empty texto then texto else unir_go false 0 texto.

(** [name_matches] *)
Definition name_matches (fname : string) (required_groups : list (list string)) : bool :=
  let target := upper (remove_accents fname) in
  forallb (fun group =>
             existsb (fun opt => contains (upper (remove_accents opt)) target) group)
          required_groups.

(** [re.search(r"CLIENTE[^A-Z0-9]{0,10}ITAU", txt)]: after [CLIENTE], at
    most ten characters none of which is a capital or a digit, then
    [ITAU]. *)
Fixpoint drop_cont (s : string) : string :=
  match s with
  | String c t => if is_cont c then drop_cont t else s
  | "" => ""
  end.

Fixpoint gap_then (n : nat) (needle s : string) : bool :=
  String.prefix needle s ||
  match n, s with
  | S k, String c t =>
      if is_upper c || is_digit c then false
      else gap_then k needle (drop_cont t)
  | _, _ => false
  end.

Fixpoint search_CLIENTE_ITAU (s : string) : bool :=
  (String.prefix "CLIENTE" s && gap_then 10 "ITAU" (drop 7 s)) ||
  match s with
  | "" => false
  | String _ t => search_CLIENTE_ITAU t
  end.

End Text.

(** ** Authenticity gate and dispatcher *)

Module Gate.
Import PyStr Text.

Definition NEGATIVE_BANKS : list string :=
  ["CONTINENTAL"; "BBVA"; "GNB"; "REGIONAL"; "BASA"; "VISION"; "ATLAS";
   "SUDAMERIS"; "FAMILIAR"; "ITAPUA"; "AMAMBAY"].

(** A source document as the gate sees it: the file name ([path.name]) and
    the text [file_text_preview(path)] returned for it. *)
Record document : Type := { name : string; preview : string }.

(** [any(b in txt for b in NEGATIVE_BANKS)] *)
Definition mentions_bank (txt : string) : bool :=
  existsb (fun b => contains b txt) NEGATIVE_BANKS.

Definition pipeline_groups : list (list string) :=
  [["INV"; "EC"; "CTA"; "ESTADO"; "PLANILLA"];
   ["ATM"; "BCO"; "BANCO"; "BULTO"; "EFECT"];
   ["BILLETE"; "BILLETES"; "EFECTIVO"]].

(** [detect_cliente_itau] of [consolidado_v3.py]. *)
Definition detect_cliente_itau_v3 (doc : document)
    (filename_tokens_hint : option (list (list string))) : bool :=
  let txt := upper (unir_letras_separadas (preview doc)) in
  if mentions_bank txt then false
  else if search_CLIENTE_ITAU txt then true
  else if contains "BANCO ITAU" txt then true
  else if contains "CLIENTE: BANCO ITAU" txt then true
  else
    let up := upper (remove_accents (name doc)) in
    let groups :=
      match filename_tokens_hint with
      | Some (g :: gs) => g :: gs
      | _ => pipeline_groups
      end in
    let looks_pipeline := name_matches up groups in
    let mentions_others := mentions_bank up in
    looks_pipeline && negb mentions_others.

(** [detect_itau] of [consolidado_v4.py]. *)
Definition detect_itau_v4 (doc : document) : bool :=
  let txt := upper (unir_letras_separadas (preview doc)) in
  if mentions_bank txt then false
  else if search_CLIENTE_ITAU txt then true
  else if contains "BANCO ITAU" txt || contains "CLIENTE: BANCO ITAU" txt then true
  else
    let up := upper (remove_accents (name doc)) in
    let looks :=
      forallb (fun grp => existsb (fun tok => contains tok up) grp)
              pipeline_groups in
    looks.

(** [detect_cliente_itau] of [britimp_consolidado_v4.py], which is given
    the type the dispatcher found. *)
Definition detect_cliente_itau (doc : document) (tipo_documento : option string) : bool :=
  let txt := upper (unir_letras_separadas (preview doc)) in
  let fname_upper := upper (remove_accents (name doc)) in
  if existsb (fun b => contains b txt || contains b fname_upper) NEGATIVE_BANKS
  then false
  else if contains "ITAU" txt || contains "ITAU" fname_upper then true
  else if match tipo_documento with
          | Some t =>
              contains "EC_" t
              && name_matches (name doc)
                   [["EC"]; ["ATM"; "BCO"; "BANCO"; "BULTO"]; ["EFECTIVO"; "BILLETE"]]
          | None => false
          end
  then false
  else if match tipo_documento with
          | Some t =>
              contains "INV_" t
              && name_matches (name doc)
                   [["INV"]; ["BILLETE"]; ["ATM"; "BCO"; "BANCO"]]
          | None => false
          end
  then true
  else false.

(** [dispatch_tipo] of [britimp_consolidado_v4.py]. *)
Definition dispatch_tipo (fname text_content : string) : option string :=
  let up := upper (remove_accents fname) in
  let up_text := upper text_content in
  if name_matches up [["EC"]; ["BULTO"]; ["ATM"]] then Some "EC_BULTO_ATM"
  else if name_matches up [["EC"]; ["EFECT"]; ["ATM"]] then Some "EC_EFECT_ATM"
  else if name_matches up [["EC"]; ["EFECT"]; ["BCO"; "BANCO"]] then Some "EC_EFECT_BCO"
  else if name_matches up [["INV"]; ["BILLETE"]; ["ATM"]] then Some "INV_BILLETES_ATM"
  else if name_matches up [["INV"]; ["BILLETE"]; ["BCO"; "BANCO"]] then Some "INV_BILLETES_BCO"
  else if contains "INV" up then
    if contains "INVENTARIO DE BILLETES DE ATM" up_text then Some "INV_BILLETES_ATM"
    else if contains "INVENTARIO DE BILLETES DE BANCO" up_text then Some "INV_BILLETES_BCO"
    else Some "INV_BILLETES_UNKNOWN"
  else None.

(** [dispatch_tipo] of [consolidado_v3.py]. *)
Definition dispatch_tipo_v3 (fname : string) : option string :=
  let up := upper (remove_accents fname) in
  if contains "INV" up && contains "ATM" up then Some "INV_BILLETES_ATM"
  else if contains "INV" up
          && existsb (fun tok => contains tok up)
               ["BANCO"; "BCO"; "DOLAR"; "DÓLAR"; "USD"]
  then Some "INV_BILLETES_BCO"
  else if name_matches up [["EC"; "CTA"; "ESTADO"]; ["EFECT"; "EFECTIVO"]; ["BCO"; "BANCO"]]
  then Some "EC_EFECT_BCO"
  else if name_matches up [["EC"; "CTA"; "ESTADO"]; ["EFECT"; "EFECTIVO"]; ["ATM"]]
  then Some "EC_EFECT_ATM"
  else if name_matches up [["EC"; "CTA"; "ESTADO"]; ["BULTO"; "BULTOS"]; ["ATM"]]
  then Some "EC_BULTO_ATM"
  else if name_matches up [["INV"]; ["BILLETE"; "BILLETES"]; ["ATM"]]
  then Some "INV_BILLETES_ATM"
  else if name_matches up [["INV"]; ["BILLETE"; "BILLETES"]; ["BCO"; "BANCO"; "DOLAR"; "DÓLAR"]]
  then Some "INV_BILLETES_BCO"
  else if name_matches up [["INV"]] then Some "INV_BILLETES_UNKNOWN"
  else None.

(** [dispatch_tipo] of [consolidado_v4.py]. *)
Definition dispatch_tipo_v4 (fname : string) : option string :=
  let up := upper (remove_accents fname) in
  if contains "INV" up && contains "ATM" up then Some "INV_BILLETES_ATM"
  else if contains "INV" up
          && existsb (fun t => contains t up)
               ["BANCO"; "BCO"; "DOLAR"; "DÓLAR"; "USD"]
  then Some "INV_BILLETES_BCO"
  else if contains "EC" up && contains "EFECT" up && contains "ATM" up
  then Some "EC_EFECT_ATM"
  else if contains "EC" up && contains "EFECT" up
          && existsb (fun t => contains t up) ["BCO"; "BANCO"]
  then Some "EC_EFECT_BCO"
  else if contains "EC" up && contains "BULTO" up && contains "ATM" up
  then Some "EC_BULTO_ATM"
  else if contains "INV" up then Some "INV_BILLETES_UNKNOWN"
  else None.

(** The gate as [process_file] of [britimp_consolidado_v4.py] calls it:
    on the type [dispatch_tipo] finds from the same name and preview. *)
Definition gate (doc : document) : bool :=
  detect_cliente_itau doc (dispatch_tipo (name doc) (preview doc)).

(** A type of the statement family and of the inventory family. *)
Definition is_statement_tipo (t : option string) : bool :=
  match t with Some s => contains "EC_" s | None => false end.

Definition is_inventory_tipo (t : option string) : bool :=
  match t with Some s => contains "INV_" s | None => false end.

Definition inventory_groups : list (list string) :=
  [["INV"]; ["BILLETE"]; ["ATM"; "BCO"; "BANCO"]].

(** A document mentions the institution, or a competing one, in its text or
    in its name. *)
Definition mentions_itau (doc : document) : bool :=
  contains "ITAU" (upper (unir_letras_separadas (preview doc)))
  || contains "ITAU" (upper (remove_accents (name doc))).

(** The explicit mention [detect_cliente_itau] of [consolidado_v3.py] looks
    for in the text. *)
Definition explicit_itau_text (doc : document) : bool :=
  let txt := upper (unir_letras_separadas (preview doc)) in
  search_CLIENTE_ITAU txt || contains "BANCO ITAU" txt
  || contains "CLIENTE: BANCO ITAU" txt.

Definition mentions_competitor (doc : document) : bool :=
  mentions_bank (upper (unir_letras_separadas (preview doc)))
  || mentions_bank (upper (remove_accents (name doc))).

End Gate.

(** ** Exceptions *)

Module Exc.

(** The outcome of a call that can raise. *)
Inductive result (A : Type) : Type :=
  | Ok (a : A)
  | Raise.

Arguments Ok {A} a.
Arguments Raise {A}.

Definition bind {A B} (m : result A) (k : A -> result B) : result B :=
  match m with
  | Ok a => k a
  | Raise => Raise
  end.

(** [try: m except Exception: h] *)
Definition try_except {A} (m : result A) (h : result A) : result A :=
  match m with
  | Ok a => Ok a
  | Raise => h
  end.

Fixpoint mapM {A B} (f : A -> result B) (l : list A) : result (list B) :=
  match l with
  | [] => Ok []
  | a :: rest =>
      bind (f a) (fun b => bind (mapM f rest) (fun bs => Ok (b :: bs)))
  end.

Definition raises {A} (m : result A) : bool :=
  match m with Raise => true | Ok _ => false end.

End Exc.

Notation "'let!' x ':=' m 'in' k" := (Exc.bind m (fun x => k))
  (at level 10, x name, m at level 100, k at level 200).

(** ** Statement extractors: the ledger-row state machine *)

Module Extract.
Import PyStr Normalizer Text.

Inductive section : Type := INGRESOS | EGRESOS.

Definition section_name (s : section) : string :=
  match s with INGRESOS => "INGRESOS" | EGRESOS => "EGRESOS" end.

(** ["IN" if section=="INGRESOS" else "OUT"] *)
Definition ing_egr (s : section) : string :=
  match s with INGRESOS => "IN" | EGRESOS => "OUT" end.

(** One dictionary appended to [registros]. *)
Record registro : Type := {
  FECHA_OPERACION : string;
  SUCURSAL : string;
  RECIBO : string;
  BULTOS : option Z;
  MONTO : Q;
  MONEDA : string;
  ING_EGR : string;
  CLASIFICACION : string;
  FECHA_ARCHIVO : option string;
  MOTIVO_MOVIMIENTO : string;
  AGENCIA : string;
  ARCHIVO_ORIGEN : string
}.

(** What the searches over the whole text of a sheet give before its rows
    are visited ([parse_agencia_from_text], the [ESTADO DE CUENTA ... DEL:]
    date), with the rows themselves. *)
Record sheet : Type := {
  sh_agencia : string;
  sh_fecha_archivo : option string;
  sh_rows : list row
}.

(** The loop variables [section], [motivo] and [started]. *)
Record scan : Type := {
  sc_section : option section;
  sc_motivo : option string;
  sc_started : bool
}.

Definition scan0 : scan :=
  {| sc_section := None; sc_motivo := None; sc_started := false |}.

(** The effect of one pass through the loop body: go on with a new state
    and the records appended, or [break]. *)
Inductive step : Type :=
  | Next (st : scan) (out : list registro)
  | Break.

(** [row_text(row)] of [consolidado_v3.py]. *)
Definition nonblank (x : cell) : bool := negb (is_empty (strip (str x))).

Definition row_text (r : row) : string :=
  strip (join " " (map str (List.filter (fun x => negb (isna x) && nonblank x) r))).

(** [motivo or section] *)
Definition motivo_or_section (motivo : option string) (sec : section) : string :=
  match truthy motivo with
  | Some m => m
  | None => section_name sec
  end.

(** The first loop over the cells: the first cell with a date, and the
    cells after it. *)
Fixpoint find_fecha (to_date : cell -> option string) (r : row) : option (string * row) :=
  match r with
  | [] => None
  | c :: rest =>
      match truthy (to_date c) with
      | Some f => Some (f, rest)
      | None => find_fecha to_date rest
      end
  end.

(** The second loop: the first cell whose text is not blank. *)
Fixpoint find_sucursal (r : row) : option (string * row) :=
  match r with
  | [] => None
  | c :: rest =>
      let sval := strip (str c) in
      if is_empty sval then find_sucursal rest else Some (sval, rest)
  end.

(** The third loop: the first cell with five digits or more. *)
Fixpoint find_recibo (r : row) : option (string * row) :=
  match r with
  | [] => None
  | c :: rest =>
      let digits := clean_digits c in
      if (5 <=? String.length digits)%nat then Some (digits, rest)
      else find_recibo rest
  end.

(** The last loop: every cell that parses as a number, in order. *)
Definition collect_nums (parse : cell -> option Q) (r : row) : list Q :=
  omap parse r.

(** [any(to_ddmmyyyy(c) for c in row)] *)
Definition has_date (to_date : cell -> option string) (r : row) : bool :=
  existsb (fun c => match truthy (to_date c) with Some _ => true | None => false end) r.

(** [normalize_divisa_to_iso] of [consolidado_v3.py], on a string. *)
Fixpoint only_A_Z_0_9 (s : string) : string :=
  match s with
  | "" => ""
  | String c t =>
      if is_upper c || is_digit c then String c (only_A_Z_0_9 t)
      else only_A_Z_0_9 t
  end.

Definition normalize_divisa_to_iso (value : string) : string :=
  let u := remove_accents (upper (strip value)) in
  let u := replace "U$D" "USD" (replace "U$S" "USD"
             (replace "US$" "USD" (replace "₲" "GS" u))) in
  let canon := only_A_Z_0_9 u in
  if startswith "GUAR" canon
     || existsb (String.eqb canon) ["PYG"; "PYGS"; "GS"; "GUARANI"; "GUARANIES"]
  then "PYG"
  else if startswith "DOL" canon || contains "USD" canon
          || existsb (String.eqb canon) ["US"; "USS"]
  then "USD"
  else "".

(** The currency guess of the generic parser: the last string cell that
    names a currency, [PYG] when none does. *)
Definition guess_moneda (r : row) : string :=
  fold_left (fun guess c =>
               match c with
               | PyStr s =>
                   let iso := normalize_divisa_to_iso s in
                   if String.eqb iso "PYG" || String.eqb iso "USD" then iso else guess
               | _ => guess
               end) r "PYG".

(** [nums[-1] if nums else 0.0] and the bundle count read from [nums[-2]]. *)
Definition last_or_zero (nums : list Q) : Q := List.last nums 0%Q.

Definition bultos_of (nums : list Q) : option Z :=
  match rev nums with
  | _ :: bn :: _ => if is_integer bn then Some (int_of bn) else None
  | _ => None
  end.

(** A row that none of the tests at the head of the loop body takes: no
    section word, no report sentinel, and not a [TOTAL] line without a
    date. *)
Definition plain_row (r : row) : bool :=
  let txt := upper (row_text r) in
  negb (contains "SALDO ANTERIOR" txt)
  && negb (contains "INGRESOS" txt) && negb (contains "EGRESOS" txt)
  && negb (contains "INFORME DE PROCESOS" txt || contains "INFORME DE ERRORES" txt)
  && negb (contains "TOTAL" txt && negb (has_date to_ddmmyyyy r)).

(** The five-row sheet of the specification, as [read_excel] hands it
    over: four columns, the short rows filled with missing values. *)
Definition five_rows : list row :=
  [ [PyStr "INGRESOS"; NaN; NaN; NaN];
    [PyStr "01/01/2024"; PyStr "ASU"; PyStr "123456"; PyStr "1.000.000"];
    [PyStr "MOTIVO X"; NaN; NaN; NaN];
    [PyStr "02/01/2024"; PyStr "ASU"; PyStr "654321"; PyStr "2.000.000"];
    [PyStr "TOTAL"; NaN; NaN; NaN] ].

(** The same sheet with the receipts and amounts stored as numbers. *)
Definition five_rows_numeric : list row :=
  [ [PyStr "INGRESOS"; NaN; NaN; NaN];
    [PyStr "01/01/2024"; PyStr "ASU"; PyInt 123456; PyInt 1000000];
    [PyStr "MOTIVO X"; NaN; NaN; NaN];
    [PyStr "02/01/2024"; PyStr "ASU"; PyInt 654321; PyInt 2000000];
    [PyStr "TOTAL"; NaN; NaN; NaN] ].

(** The loop state inside an [INGRESOS] block, a sheet without header
    values, and data rows whose cells after the receipt hold two numbers:
    500 then 3, and 3 then 1000. *)
Definition in_ingresos : scan :=
  {| sc_section := Some INGRESOS; sc_motivo := None; sc_started := true |}.

Definition bare_sheet (rows : list row) : sheet :=
  {| sh_agencia := ""; sh_fecha_archivo := None; sh_rows := rows |}.

Definition row_500_3 : row :=
  [PyStr "01/01/2024"; PyStr "ASU"; PyStr "123456"; PyInt 500; PyInt 3].

Definition row_3_1000 : row :=
  [PyStr "01/01/2024"; PyStr "ASU"; PyStr "123456"; PyInt 3; PyInt 1000].

(** *** [parse_ec_efect_xlsx_generic] of [consolidado_v3.py] *)

Section Generic.
Variables (clasificacion archivo_origen : string) (sh : sheet).

Definition generic_record (st_motivo : option string) (sec : section)
    (fecha sucursal recibo : string) (tail : row) : registro :=
  let nums := collect_nums parse_numeric tail in
  {| FECHA_OPERACION := fecha;
     SUCURSAL := sucursal;
     RECIBO := recibo;
     BULTOS := bultos_of nums;
     MONTO := last_or_zero nums;
     MONEDA := guess_moneda tail;
     ING_EGR := ing_egr sec;
     CLASIFICACION := clasificacion;
     FECHA_ARCHIVO := sh_fecha_archivo sh;
     MOTIVO_MOVIMIENTO := motivo_or_section st_motivo sec;
     AGENCIA := sh_agencia sh;
     ARCHIVO_ORIGEN := archivo_origen |}.

(** The cells of a data row, once the section is open: date, branch,
    receipt, and what is left for the numbers. *)
Definition data_cells (to_date : cell -> option string) (r : row)
    : option (string * string * string * row) :=
  match find_fecha to_date r with
  | None => None
  | Some (fecha, r1) =>
      match find_sucursal r1 with
      | None => None
      | Some (sucursal, r2) =>
          match find_recibo r2 with
          | None => None
          | Some (recibo, r3) => Some (fecha, sucursal, recibo, r3)
          end
      end
  end.

Definition generic_step (st : scan) (r : row) : step :=
  let txt := upper (row_text r) in
  if contains "SALDO ANTERIOR" txt then Next scan0 []
  else if contains "INGRESOS" txt && negb (contains "EGRESOS" txt) then
    Next {| sc_section := Some INGRESOS; sc_motivo := None; sc_started := true |} []
  else if contains "EGRESOS" txt then
    Next {| sc_section := Some EGRESOS; sc_motivo := None; sc_started := true |} []
  else if contains "INFORME DE PROCESOS" txt || contains "INFORME DE ERRORES" txt
  then Break
  else
    match sc_started st, sc_section st with
    | true, Some sec =>
        if contains "TOTAL" txt && negb (has_date to_ddmmyyyy r) then
          Next {| sc_section := sc_section st; sc_motivo := None;
                  sc_started := sc_started st |} []
        else
          match data_cells to_ddmmyyyy r with
          | Some (fecha, sucursal, recibo, tail) =>
              Next st [generic_record (sc_motivo st) sec fecha sucursal recibo tail]
          | None => Next st []
          end
    | _, _ => Next st []
    end.

End Generic.

(** The [for ridx in range(len(df_raw))] loop, for any loop body. *)
Fixpoint scan_rows (body : scan -> row -> step) (st : scan) (rows : list row)
    : list registro :=
  match rows with
  | [] => []
  | r :: rest =>
      match body st r with
      | Next st' out => out ++ scan_rows body st' rest
      | Break => []
      end
  end.

Definition parse_ec_efect_xlsx_generic (archivo_origen clasificacion : string)
    (sheets : list sheet) : list registro :=
  flat_map (fun sh => scan_rows (generic_step clasificacion archivo_origen sh)
                                scan0 (sh_rows sh)) sheets.

(** *** [parse_ec_bultos_atm_xlsx] of [consolidado_v3.py] *)

(** [while len(nums)<4: nums.append(0.0)] and the unpacking of the first
    four. *)
Definition pad4 (nums : list Q) : Q * Q * Q * Q :=
  (nth 0 nums 0%Q, nth 1 nums 0%Q, nth 2 nums 0%Q, nth 3 nums 0%Q).

Definition nonzero (q : Q) : bool := negb (Qeq_bool q 0).

Section Bultos.
Variables (archivo_origen : string) (sh : sheet).

(** [add_row(moneda, b if b else None, m if m else 0.0)] *)
Definition add_row (st_motivo : option string) (sec : section)
    (fecha sucursal recibo moneda : string) (b m : Q) : registro :=
  {| FECHA_OPERACION := fecha;
     SUCURSAL := sucursal;
     RECIBO := recibo;
     BULTOS := if nonzero b && is_integer b then Some (int_of b) else None;
     MONTO := if nonzero m then m else 0%Q;
     MONEDA := moneda;
     ING_EGR := ing_egr sec;
     CLASIFICACION := "ATM";
     FECHA_ARCHIVO := sh_fecha_archivo sh;
     MOTIVO_MOVIMIENTO := motivo_or_section st_motivo sec;
     AGENCIA := sh_agencia sh;
     ARCHIVO_ORIGEN := archivo_origen |}.

Definition bultos_records (st_motivo : option string) (sec : section)
    (fecha sucursal recibo : string) (tail : row) : list registro :=
  let '(bgs, mgs, busd, musd) := pad4 (collect_nums parse_numeric tail) in
  let has_gs := nonzero bgs || nonzero mgs in
  let has_usd := nonzero busd || nonzero musd in
  let pyg := add_row st_motivo sec fecha sucursal recibo "PYG" bgs mgs in
  let usd := add_row st_motivo sec fecha sucursal recibo "USD" busd musd in
  if has_gs && negb has_usd then [pyg]
  else if has_usd && negb has_gs then [usd]
  else if has_gs && has_usd then [pyg; usd]
  else [].

(** [nonempty = [x for x in row if str(x).strip() and not pd.isna(x)]] *)
Definition nonempty (r : row) : list cell :=
  List.filter (fun x => nonblank x && negb (isna x)) r.

(** A row with exactly one such cell, not itself a date: the new sticky
    reason. *)
Definition motivo_cell (r : row) : option string :=
  match nonempty r with
  | [x] => if DATE_RE_match (strip (str x)) then None else Some (strip (str x))
  | _ => None
  end.

Definition bultos_step (st : scan) (r : row) : step :=
  let txt := upper (row_text r) in
  if contains "SALDO ANTERIOR" txt then Next scan0 []
  else if contains "INGRESOS" txt && negb (contains "EGRESOS" txt) then
    Next {| sc_section := Some INGRESOS; sc_motivo := None; sc_started := true |} []
  else if contains "EGRESOS" txt then
    Next {| sc_section := Some EGRESOS; sc_motivo := None; sc_started := true |} []
  else if contains "INFORME DE PROCESOS" txt || contains "INFORME DE ERRORES" txt
  then Break
  else
    match sc_started st, sc_section st with
    | true, Some sec =>
        if contains "TOTAL" txt && negb (has_date to_ddmmyyyy r) then
          Next {| sc_section := sc_section st; sc_motivo := None;
                  sc_started := sc_started st |} []
        else
          match motivo_cell r with
          | Some m =>
              Next {| sc_section := sc_section st; sc_motivo := Some m;
                      sc_started := sc_started st |} []
          | None =>
              match data_cells to_ddmmyyyy r with
              | Some (fecha, sucursal, recibo, tail) =>
                  Next st (bultos_records (sc_motivo st) sec fecha sucursal recibo tail)
              | None => Next st []
              end
          end
    | _, _ => Next st []
    end.

End Bultos.

Definition parse_ec_bultos_atm_xlsx (archivo_origen : string) (sheets : list sheet)
    : list registro :=
  flat_map (fun sh => scan_rows (bultos_step archivo_origen sh) scan0 (sh_rows sh))
           sheets.


(** *** [parse_ec_efect_bco_xlsx] of [britimp_consolidado_v4.py] *)

(** Its dictionaries have [IMPORTE] where the others have [MONTO]. *)
Record registro_bco : Type := {
  bco_FECHA_OPERACION : string;
  bco_SUCURSAL : string;
  bco_RECIBO : string;
  bco_BULTOS : option Z;
  bco_IMPORTE : Q;
  bco_MONEDA : string;
  bco_ING_EGR : string;
  bco_CLASIFICACION : string;
  bco_FECHA_ARCHIVO : option string;
  bco_MOTIVO_MOVIMIENTO : string;
  bco_AGENCIA : string;
  bco_ARCHIVO_ORIGEN : string
}.

(** What is read off the whole text of the sheet: currency, branch, file
    date and the suffix added to the reason for the DOCUMENTA client. *)
Record sheet_bco : Type := {
  shb_moneda : string;
  shb_agencia : string;
  shb_fecha_archivo : option string;
  shb_extra_cliente : string;
  shb_rows : list row
}.

Record scan_bco : Type := {
  current_section : option section;
  current_motivo : option string
}.

Inductive step_bco : Type :=
  | NextBco (st : scan_bco) (out : list registro_bco)
  | BreakBco.

(** [max(xs)] of a non-empty list: the first of the largest. *)
Definition max_list (x : Q) (xs : list Q) : Q :=
  fold_left (fun m y => if Qle_bool y m then m else y) xs x.

Definition notna_nonblank (x : cell) : bool := negb (isna x) && nonblank x.

Definition row_text_bco (r : row) : string :=
  join " " (map str (List.filter notna_nonblank r)).

(** A row with exactly one cell that is there and not blank, that cell not
    a date: the new sticky reason. *)
Definition motivo_cell_bco (r : row) : option string :=
  match List.filter notna_nonblank r with
  | [x] =>
      match truthy (to_ddmmyyyy_britimp x) with
      | None => Some (strip (str x))
      | Some _ => None
      end
  | _ => None
  end.

Section Bco.
Variables (archivo_origen : string) (sh : sheet_bco).

Definition bco_step (st : scan_bco) (r : row) : step_bco :=
  let txt := upper (row_text_bco r) in
  if contains "INFORME DE PROCESOS" txt then BreakBco
  else if contains "INGRESOS" txt && negb (contains "EGRESOS" txt) then
    NextBco {| current_section := Some INGRESOS; current_motivo := None |} []
  else if contains "EGRESOS" txt then
    NextBco {| current_section := Some EGRESOS; current_motivo := None |} []
  else
    match current_section st with
    | None => NextBco st []
    | Some sec =>
        if startswith "TOTAL" txt || startswith "SUBTOTAL" txt then
          NextBco {| current_section := Some sec; current_motivo := None |} []
        else
          match motivo_cell_bco r with
          | Some m =>
              NextBco {| current_section := Some sec; current_motivo := Some m |} []
          | None =>
              match find_fecha to_ddmmyyyy_britimp r with
              | None => NextBco st []
              | Some (fecha, r1) =>
                  match find_sucursal r1 with
                  | None => NextBco st []
                  | Some (sucursal, r2) =>
                      let '(recibo, r3) :=
                        match find_recibo r2 with
                        | Some p => p
                        | None => ("", [])
                        end in
                      match collect_nums parse_numeric_britimp r3 with
                      | [] => NextBco st []
                      | x :: xs =>
                          NextBco st
                            [{| bco_FECHA_OPERACION := fecha;
                                bco_SUCURSAL := sucursal;
                                bco_RECIBO := recibo;
                                bco_BULTOS := None;
                                bco_IMPORTE := max_list x xs;
                                bco_MONEDA := shb_moneda sh;
                                bco_ING_EGR := ing_egr sec;
                                bco_CLASIFICACION := "BCO";
                                bco_FECHA_ARCHIVO := shb_fecha_archivo sh;
                                bco_MOTIVO_MOVIMIENTO :=
                                  motivo_or_section (current_motivo st) sec
                                  ++ shb_extra_cliente sh;
                                bco_AGENCIA := shb_agencia sh;
                                bco_ARCHIVO_ORIGEN := archivo_origen |}]
                      end
                  end
              end
          end
    end.

End Bco.

Fixpoint scan_rows_bco (body : scan_bco -> row -> step_bco) (st : scan_bco)
    (rows : list row) : list registro_bco :=
  match rows with
  | [] => []
  | r :: rest =>
      match body st r with
      | NextBco st' out => out ++ scan_rows_bco body st' rest
      | BreakBco => []
      end
  end.

Definition parse_ec_efect_bco_xlsx (archivo_origen : string) (sheets : list sheet_bco)
    : list registro_bco :=
  flat_map (fun sh =>
              scan_rows_bco (bco_step archivo_origen sh)
                {| current_section := None; current_motivo := None |}
                (shb_rows sh)) sheets.


(** *** [parse_ec_xlsx_generic] of [consolidado_v4.py] *)

Import Exc.

(** The two further formats [to_ddmmyyyy] of [consolidado_v4.py] tries. *)
Definition strptime_dmY_slash (s : string) : option string :=
  match split "/" s with
  | [d; m; y] => checked_date (directive_Y y) (directive_m m) (directive_d d)
  | _ => None
  end.

Definition strptime_mdY_slash (s : string) : option string :=
  match split "/" s with
  | [m; d; y] => checked_date (directive_Y y) (directive_m m) (directive_d d)
  | _ => None
  end.

(** [to_ddmmyyyy] of [consolidado_v4.py]: a number outside the calendar
    raises, and everything that is not a number or a timestamp goes through
    [str]. *)
Definition to_ddmmyyyy_v4 (v : cell) : result (option string) :=
  match v with
  | NaN => Ok None
  | PyDatetime y m d _ => Ok (Some (strftime_dmY y m d))
  | PyStr s0 =>
      let s := strip s0 in
      if is_empty s then Ok None
      else if DATE_RE_match s then Ok (Some s)
      else Ok (first_some (strptime_Ymd s)
                 (first_some (strptime_dmY_dash s)
                    (first_some (strptime_dmy_slash s)
                       (first_some (strptime_dmY_slash s) (strptime_mdY_slash s)))))
  | _ =>
      match number v with
      | Some q =>
          match excel_serial_to_ddmmyyyy q with
          | Some d => Ok (Some d)
          | None => Raise
          end
      | None => Ok None
      end
  end.

(** [as_int] on a number already parsed: [int(round(n or 0))]. *)
Definition as_int (n : Q) : Z := round_half_even n.

Fixpoint find_fecha_v4 (r : row) : result (option (string * row)) :=
  match r with
  | [] => Ok None
  | c :: rest =>
      let! f := to_ddmmyyyy_v4 c in
      match truthy f with
      | Some f => Ok (Some (f, rest))
      | None => find_fecha_v4 rest
      end
  end.

(** [row_text] of [consolidado_v4.py] keeps the text [nan] of a missing
    cell. *)
Definition row_text_v4 (r : row) : string :=
  join " " (map str (List.filter nonblank r)).

(** The receipt loop without the missing-value test of [clean_digits]. *)
Fixpoint find_recibo_v4 (r : row) : string * row :=
  match r with
  | [] => ("", [])
  | c :: rest =>
      let dig := only_digits (str c) in
      if (5 <=? String.length dig)%nat then (dig, rest) else find_recibo_v4 rest
  end.

Inductive step_v4 : Type :=
  | NextV4 (section : option section) (started : bool) (out : list registro).

(** The cells of a data row in [consolidado_v4.py]: only the date is
    required; branch and receipt stay empty when the row runs out. *)
Definition data_cells_v4 (r : row) : result (option (string * string * string * row)) :=
  let! found := find_fecha_v4 r in
  match found with
  | None => Ok None
  | Some (fecha, r1) =>
      let '(suc, r2) :=
        match find_sucursal r1 with
        | Some p => p
        | None => ("", [])
        end in
      let '(rec, r3) := find_recibo_v4 r2 in
      Ok (Some (fecha, suc, rec, r3))
  end.

Section GenericV4.
Variables (clasif archivo_origen : string) (sh : sheet).

Definition generic_record_v4 (s : section) (fecha suc rec : string) (tail : row)
    : registro :=
  let nums := collect_nums parse_numeric_v4 tail in
  {| FECHA_OPERACION := fecha;
     SUCURSAL := suc;
     RECIBO := rec;
     BULTOS := Some (match rev nums with
                     | _ :: bn :: _ => as_int bn
                     | _ => 0%Z
                     end);
     MONTO := inject_Z (as_int (last_or_zero nums));
     MONEDA := "PYG";
     ING_EGR := ing_egr s;
     CLASIFICACION := clasif;
     FECHA_ARCHIVO := sh_fecha_archivo sh;
     MOTIVO_MOVIMIENTO := section_name s;
     AGENCIA := sh_agencia sh;
     ARCHIVO_ORIGEN := archivo_origen |}.

Definition generic_step_v4 (sec : option section) (started : bool) (r : row)
    : result step_v4 :=
  let txt := upper (row_text_v4 r) in
  if contains "SALDO ANTERIOR" txt then Ok (NextV4 None false [])
  else if contains "INGRESOS" txt && negb (contains "EGRESOS" txt) then
    Ok (NextV4 (Some INGRESOS) true [])
  else if contains "EGRESOS" txt then Ok (NextV4 (Some EGRESOS) true [])
  else
    match started, sec with
    | true, Some s =>
        let! cells := data_cells_v4 r in
        match cells with
        | None => Ok (NextV4 sec started [])
        | Some (fecha, suc, rec, tail) =>
            Ok (NextV4 sec started [generic_record_v4 s fecha suc rec tail])
        end
    | _, _ => Ok (NextV4 sec started [])
    end.

Fixpoint scan_rows_v4 (sec : option section) (started : bool) (rows : list row)
    : result (list registro) :=
  match rows with
  | [] => Ok []
  | r :: rest =>
      let! st := generic_step_v4 sec started r in
      match st with
      | NextV4 sec' started' out =>
          let! more := scan_rows_v4 sec' started' rest in
          Ok (out ++ more)%list
      end
  end.

End GenericV4.

(** An exception leaves the function and is caught by [process_file], which
    keeps an empty frame: [Raise] here. *)
Definition parse_ec_xlsx_generic_v4 (archivo_origen clasif : string)
    (sheets : list sheet) : result (list registro) :=
  let! per_sheet :=
    mapM (fun sh => scan_rows_v4 clasif archivo_origen sh None false (sh_rows sh))
         sheets in
  Ok (concat per_sheet).

End Extract.
(** ** Consolidated writer *)

Module Writer.
Import PyStr Normalizer.

(** [OUTPUT_FILES], the same dictionary in the three scripts. *)
Definition OUTPUT_FILES : list (string * string) :=
  [("EC_EFECT_BCO", "BRITIMP_EFECTBANCO.csv");
   ("EC_EFECT_ATM", "BRITIMP_EFECTATM.csv");
   ("INV_BILLETES_BCO", "BRITIMP_INVENTARIO_BANCO.csv");
   ("INV_BILLETES_ATM", "BRITIMP_INVENTARIO_ATM.csv");
   ("EC_BULTO_ATM", "BRITIMP_BULTOS_ATM.csv")].

(** [d[k]] when [k in d]. *)
Fixpoint dict_get {V} (d : list (string * V)) (k : string) : option V :=
  match d with
  | [] => None
  | (k', v) :: rest => if String.eqb k k' then Some v else dict_get rest k
  end.

(** A data frame at the point where it is written: its column names and
    its rows, each row holding the text of one field per column. *)
Record dataframe : Type := {
  columns : list string;
  data : list (list string)
}.

(** [df.empty]: no row or no column. *)
Definition empty (df : dataframe) : bool :=
  match columns df, data df with
  | _ :: _, _ :: _ => false
  | _, _ => true
  end.

(** What [to_csv] puts into the file: one line of column names when
    [header] is set, one line per row. *)
Inductive csv_line : Type :=
  | HeaderLine (names : list string)
  | DataLine (fields : list string).

Definition is_header (l : csv_line) : bool :=
  match l with HeaderLine _ => true | DataLine _ => false end.

(** The position of a column, and [df[cols]] for one row. *)
Fixpoint index_of (c : string) (cols : list string) : option nat :=
  match cols with
  | [] => None
  | c' :: rest =>
      if String.eqb c c' then Some 0%nat else option_map S (index_of c rest)
  end.

Definition field (df : dataframe) (r : list string) (c : string) : string :=
  match index_of c (columns df) with
  | Some i => nth i r ""
  | None => ""
  end.

Definition data_lines (cols : list string) (df : dataframe) : list csv_line :=
  map (fun r => DataLine (map (field df r) cols)) (data df).

Definition to_csv (cols : list string) (header : bool) (df : dataframe) : list csv_line :=
  ((if header then [HeaderLine cols] else []) ++ data_lines cols df)%list.

Definition mem (c : string) (l : list string) : bool := existsb (String.eqb c) l.

Definition EC_COLS : list string :=
  ["FECHA_OPERACION"; "SUCURSAL"; "RECIBO"; "BULTOS"; "MONTO"; "MONEDA";
   "ING_EGR"; "CLASIFICACION"; "FECHA_ARCHIVO"; "MOTIVO_MOVIMIENTO"; "AGENCIA";
   "ARCHIVO_ORIGEN"].

Definition INV_COLS : list string :=
  ["FECHA_INVENTARIO"; "DIVISA"; "AGENCIA"; "AGRUPACION_EFECTIVO"; "TIPO_VALOR";
   "DENOMINACION"; "CALIDAD_DEPOSITO"; "CJE_DEP"; "CALIDAD_CANJE"; "MONEDA";
   "IMPORTE_TOTAL"; "ARCHIVO_ORIGEN"].

(** [wanted_cols_by_tipo] (and [orders] of [consolidado_v4.py]). *)
Definition wanted_cols_by_tipo : list (string * list string) :=
  [("EC_EFECT_BCO", EC_COLS); ("EC_EFECT_ATM", EC_COLS);
   ("INV_BILLETES_BCO", INV_COLS); ("INV_BILLETES_ATM", INV_COLS);
   ("EC_BULTO_ATM", EC_COLS)].

(** The column order of [consolidado_v3.py]: the wanted ones the frame has,
    then the others. *)
Definition cols_v3 (wanted : list string) (df : dataframe) : list string :=
  (List.filter (fun c => mem c (columns df)) wanted
   ++ List.filter (fun c => negb (mem c wanted)) (columns df))%list.

(** The column order of [consolidado_v4.py], which names [ARCHIVO_ORIGEN]
    once more at the end. *)
Definition cols_v4 (base : list string) (df : dataframe) : list string :=
  (List.filter (fun c => mem c (columns df)) base
   ++ List.filter (fun c => negb (mem c base) && negb (String.eqb c "ARCHIVO_ORIGEN"))
        (columns df)
   ++ (if mem "ARCHIVO_ORIGEN" (columns df) then ["ARCHIVO_ORIGEN"] else []))%list.

(** What a run can see and change: the files of the day's output folder by
    name, the module-level set [RUN_WRITTEN], and the lines logged.  The
    folder is the one [today_folder()] names; a run is taken not to cross
    midnight. *)
Record run_state : Type := {
  files : gmap string (list csv_line);
  RUN_WRITTEN : gset string;
  log : list string
}.

Definition log_info (msg : string) (st : run_state) : run_state :=
  {| files := files st; RUN_WRITTEN := RUN_WRITTEN st; log := (log st ++ [msg])%list |}.

Definition len_text (df : dataframe) : string :=
  string_of_Z (Z.of_nat (List.length (data df))).

(** Opening a file for writing replaces its content, for appending keeps
    it and creates the file when it is not there. *)
Definition write_file (append : bool) (outpath : string) (lines : list csv_line)
    (fs : gmap string (list csv_line)) : gmap string (list csv_line) :=
  if append then <[outpath := (default [] (fs !! outpath) ++ lines)%list]> fs
  else <[outpath := lines]> fs.

(** [write_consolidated] of [consolidado_v3.py] and of [consolidado_v4.py],
    which differ in the order of the columns only.  The result is the path
    returned and the state left. *)
Definition write_consolidated_with
    (cols_of : list string -> dataframe -> list string)
    (tipo : string) (df : dataframe) (st : run_state) : option string * run_state :=
  match dict_get OUTPUT_FILES tipo with
  | None => (None, st)
  | Some outpath =>
      if empty df then (None, st)
      else
        let first := negb (bool_decide (tipo ∈ RUN_WRITTEN st)) in
        let st1 :=
          if first then
            log_info ("[WRITE] Iniciando archivo del día → " ++ outpath ++ " (truncate)")
              {| files := delete outpath (files st);
                 RUN_WRITTEN := RUN_WRITTEN st ∪ {[tipo]};
                 log := log st |}
          else st in
        let cols := cols_of (default [] (dict_get wanted_cols_by_tipo tipo)) df in
        let st2 :=
          {| files := write_file (negb first) outpath (to_csv cols first df) (files st1);
             RUN_WRITTEN := RUN_WRITTEN st1;
             log := log st1 |} in
        (Some outpath,
         log_info ("[APPEND] " ++ outpath ++ " ← +" ++ len_text df ++ " filas (sep=';')") st2)
  end.

Definition write_consolidated : string -> dataframe -> run_state -> option string * run_state :=
  write_consolidated_with cols_v3.

Definition write_consolidated_v4 : string -> dataframe -> run_state -> option string * run_state :=
  write_consolidated_with cols_v4.

(** [write_consolidated] of [britimp_consolidado_v4.py]: the file is always
    opened for appending and the frame written with its own columns. *)
Definition write_consolidated_britimp (tipo : string) (df : dataframe) (st : run_state)
    : run_state :=
  match dict_get OUTPUT_FILES tipo with
  | None => st
  | Some outpath =>
      if empty df then st
      else
        let header := negb (bool_decide (tipo ∈ RUN_WRITTEN st)) in
        let st1 :=
          if header then
            log_info ("[CSV] Creando/sobrescribiendo archivo diario: '" ++ outpath ++ "'")
              {| files := files st;
                 RUN_WRITTEN := RUN_WRITTEN st ∪ {[tipo]};
                 log := log st |}
          else st in
        let st2 :=
          {| files := write_file true outpath (to_csv (columns df) header df) (files st1);
             RUN_WRITTEN := RUN_WRITTEN st1;
             log := log st1 |} in
        log_info ("[CSV] Añadidos " ++ len_text df ++ " registros a '" ++ outpath ++ "'") st2
  end.

(** The writes of one run, in the order the files are met. *)
Definition run_writes (write : string -> dataframe -> run_state -> run_state)
    (batches : list (string * dataframe)) (st : run_state) : run_state :=
  fold_left (fun st b => write (fst b) (snd b) st) batches st.


(** The writer as a state change, and the columns it writes for a type. *)
Definition write_with (cols_of : list string -> dataframe -> list string)
    (tipo : string) (df : dataframe) (st : run_state) : run_state :=
  snd (write_consolidated_with cols_of tipo df st).

Definition write_v3 : string -> dataframe -> run_state -> run_state :=
  write_with cols_v3.

Definition write_v4 : string -> dataframe -> run_state -> run_state :=
  write_with cols_v4.

Definition cols_for (cols_of : list string -> dataframe -> list string)
    (tipo : string) (df : dataframe) : list string :=
  cols_of (default [] (dict_get wanted_cols_by_tipo tipo)) df.

(** The batches of a run that reach the file of [tipo]: those of that type
    that are not empty. *)
Definition batches_of (tipo : string) (batches : list (string * dataframe))
    : list dataframe :=
  map snd (List.filter (fun b => String.eqb (fst b) tipo && negb (empty (snd b))) batches).

(** A run starts with nothing marked as written. *)
Definition fresh_run (fs : gmap string (list csv_line)) (lg : list string) : run_state :=
  {| files := fs; RUN_WRITTEN := ∅; log := lg |}.

Definition count_headers (ls : list csv_line) : nat :=
  List.length (List.filter is_header ls).

End Writer.

(** ** Text previewer *)

Module Preview.
Import PyStr Normalizer Exc.

(** What the calls into pandas, pypdf and the file system do for one path.
    [ExcelFile engine] is [pd.ExcelFile(p, engine=engine)], [None] standing
    for the default engine; a workbook lists its sheets and answers
    [pd.read_excel(xl, sheet_name=sh, header=None, nrows=n)] with the rows
    read; [PdfReader] is [None] when pypdf is not installed, else the
    outcome of opening the file, the pages giving the outcome of
    [extract_text()]. *)
Record workbook : Type := {
  sheet_names : list string;
  read_excel : string -> nat -> result (list row)
}.

Record source : Type := {
  suffix : string;
  ExcelFile : option string -> result workbook;
  PdfReader : option (result (list (result (option string))));
  read_bytes_text : result string;
  read_text : result string
}.

Definition is_excel (suf : string) : bool :=
  String.eqb suf ".xlsx" || String.eqb suf ".xls".

(** [df.fillna("").astype(str).agg(lambda r: " ".join([c for c in r if
    str(c).strip()]), axis=1).tolist()], nothing for an empty frame. *)
Definition fill_str (x : cell) : string :=
  match x with NaN => "" | _ => str x end.

Definition row_line (r : row) : string :=
  join " " (List.filter (fun c => negb (is_empty (strip c))) (map fill_str r)).

Definition frame_empty (rows : list row) : bool :=
  match rows with
  | [] => true
  | r :: _ => match r with [] => true | _ => false end
  end.

Definition sheet_lines (rows : list row) : list string :=
  if frame_empty rows then [] else map row_line rows.

Definition excel_preview (line_of : list row -> list string) (xl : workbook)
    (max_rows : nat) : result string :=
  let! parts := mapM (fun sh => let! df := read_excel xl sh max_rows in Ok (line_of df))
                     (sheet_names xl) in
  Ok (join (String "010" "") (concat parts)).

(** [(page.extract_text() or "") + "\n"] page after page; any exception
    inside the [try] gives the empty string. *)
Definition pdf_text (after_page : string) (pages : list (result (option string)))
    : result string :=
  let! texts := mapM (fun p => let! t := p in Ok (default "" t ++ after_page)) pages in
  Ok (String.concat "" texts).

Definition pdf_preview (after_page : string)
    (reader : result (list (result (option string)))) : result string :=
  try_except (let! pages := reader in pdf_text after_page pages) (Ok "").

Definition NL : string := String "010" "".

(** [file_text_preview] of [consolidado_v3.py]. *)
Definition file_text_preview (src : source) (max_rows_excel : nat) : result string :=
  if is_excel (suffix src) then
    let! xl :=
      try_except (ExcelFile src None)
        (ExcelFile src
           (Some (if String.eqb (suffix src) ".xlsx" then "openpyxl" else "xlrd"))) in
    excel_preview sheet_lines xl max_rows_excel
  else
    match (if String.eqb (suffix src) ".pdf" then PdfReader src else None) with
    | Some reader => pdf_preview NL reader
    | None => try_except (read_bytes_text src) (Ok "")
    end.

(** [file_text_preview] of [consolidado_v4.py], whose last resort reads the
    file as text and keeps 4000 characters (a continuation byte goes with
    the character it belongs to). *)
Fixpoint take_chars (n : nat) (s : string) : string :=
  match s with
  | "" => ""
  | String c t =>
      if is_cont c then String c (take_chars n t)
      else match n with
           | O => ""
           | S k => String c (take_chars k t)
           end
  end.

Definition file_text_preview_v4 (src : source) (max_rows : nat) : result string :=
  if is_excel (suffix src) then
    let! xl :=
      try_except (ExcelFile src None)
        (ExcelFile src
           (Some (if String.eqb (suffix src) ".xlsx" then "openpyxl" else "xlrd"))) in
    excel_preview sheet_lines xl max_rows
  else
    match (if String.eqb (suffix src) ".pdf" then PdfReader src else None) with
    | Some reader => pdf_preview NL reader
    | None => try_except (let! t := read_text src in Ok (take_chars 4000 t)) (Ok "")
    end.

(** [read_excel_any_version] of [britimp_consolidado_v4.py]; [xlrd] tells
    whether that module could be imported. *)
Definition read_excel_any_version (xlrd : bool) (src : source) : option workbook :=
  match ExcelFile src None with
  | Ok xl => Some xl
  | Raise =>
      let engine :=
        if String.eqb (suffix src) ".xlsx" then Some "openpyxl"
        else if xlrd then Some "xlrd" else None in
      match engine with
      | Some e => match ExcelFile src (Some e) with
                  | Ok xl => Some xl
                  | Raise => None
                  end
      | None => None
      end
  end.

(** Its preview joins every cell of a row, blank or not. *)
Definition sheet_lines_britimp (rows : list row) : list string :=
  if frame_empty rows then [] else map (fun r => join " " (map fill_str r)) rows.

(** [file_text_preview] of [britimp_consolidado_v4.py]. *)
Definition file_text_preview_britimp (xlrd : bool) (src : source) (max_rows_excel : nat)
    : result string :=
  if is_excel (suffix src) then
    match read_excel_any_version xlrd src with
    | None => Ok ""
    | Some xl => excel_preview sheet_lines_britimp xl max_rows_excel
    end
  else
    match (if String.eqb (suffix src) ".pdf" then PdfReader src else None) with
    | Some reader => pdf_preview "" reader
    | None => Ok ""
    end.

(** A workbook file that no engine can open, and one that opens but whose
    sheet cannot be read. *)
Definition corrupt_xlsx : source :=
  {| suffix := ".xlsx";
     ExcelFile := fun _ => Raise;
     PdfReader := None;
     read_bytes_text := Ok "b'PK'";
     read_text := Ok "PK" |}.

Definition corrupt_sheet_xlsx : source :=
  {| suffix := ".xlsx";
     ExcelFile := fun _ => Ok {| sheet_names := ["Hoja1"];
                                 read_excel := fun _ _ => Raise |};
     PdfReader := None;
     read_bytes_text := Ok "b'PK'";
     read_text := Ok "PK" |}.

End Preview.
From Stdlib Require DecimalZ DecimalPos.


(** ** Further character classes *)

Module CharClass.
Import PyStr Normalizer.

(** A digit or a point. *)
Definition digit_or_point (c : ascii) : bool := is_digit c || Ascii.eqb c ".".

(** A digit, a point or a parenthesis. *)
Definition number_char (c : ascii) : bool :=
  digit_or_point c || Ascii.eqb c "(" || Ascii.eqb c ")".

(** A digit, a point or a comma. *)
Definition figure_char (c : ascii) : bool := digit_or_point c || Ascii.eqb c ",".

(** An ASCII character the sanitiser of [parse_numeric] deletes. *)
Definition junk_char (c : ascii) : bool := (ord c <? 128)%nat && negb (num_char c).

(** A digit or a slash, the characters of a date written [dd/mm/yyyy]. *)
Definition digit_or_slash (c : ascii) : bool := is_digit c || Ascii.eqb c "/".

End CharClass.

(** ** Kinds of rows *)

Module RowClass.
Import PyStr Normalizer Text Extract.

(** A row that opens a section in the parsers of [consolidado_v3.py], and
    one that closes it. *)
Definition header_row (r : row) : bool :=
  let txt := upper (row_text r) in
  contains "INGRESOS" txt || contains "EGRESOS" txt.

Definition reset_row (r : row) : bool :=
  contains "SALDO ANTERIOR" (upper (row_text r)).

(** The row that ends the reading of a sheet: it names the report and is
    neither a reset nor a section header. *)
Definition sentinel_row (r : row) : bool :=
  let txt := upper (row_text r) in
  negb (reset_row r) && negb (header_row r)
  && (contains "INFORME DE PROCESOS" txt || contains "INFORME DE ERRORES" txt).

(** The same two tests on the row text of [consolidado_v4.py]. *)
Definition header_row_v4 (r : row) : bool :=
  let txt := upper (row_text_v4 r) in
  contains "INGRESOS" txt || contains "EGRESOS" txt.

Definition reset_row_v4 (r : row) : bool :=
  contains "SALDO ANTERIOR" (upper (row_text_v4 r)).

(** A row of [consolidado_v4.py] that neither opens nor closes a
    section. *)
Definition plain_row_v4 (r : row) : bool :=
  negb (header_row_v4 r) && negb (reset_row_v4 r).

(** [not str(row[j]).strip()]: a cell whose text is blank.  The text of a
    missing value is [nan], which is not. *)
Definition blank (c : cell) : bool := is_empty (strip (str c)).

(** The cells [consolidado_v4.py] is left with for the numbers, given the
    cells after the date: those after the branch and the receipt, none
    when the row runs out before. *)
Definition cells_after_receipt_v4 (rest : row) : row :=
  snd (find_recibo_v4
         (snd (match find_sucursal rest with
               | Some p => p
               | None => ("", [])
               end))).

(** A whole number below 2^53 in size: binary64 holds it as it is. *)
Definition exact_whole (q : Q) : bool :=
  is_integer q && (Z.abs (int_of q) <? 2 ^ 53)%Z.

End RowClass.

(** ** Inventory extractor *)

Module Inventory.
Import PyStr Normalizer Text Exc Extract.

(** One dictionary appended to [registros] by
    [parse_inv_billetes_xlsx_atm]. *)
Record inventario : Type := {
  FECHA_INVENTARIO : option string;
  DIVISA : string;
  inv_AGENCIA : string;
  AGRUPACION_EFECTIVO : string;
  TIPO_VALOR : string;
  DENOMINACION : Z;
  CALIDAD_DEPOSITO : Z;
  CJE_DEP : Z;
  CALIDAD_CANJE : Z;
  inv_MONEDA : Z;
  IMPORTE_TOTAL : Q;
  inv_ARCHIVO_ORIGEN : string
}.

(** What the searches over the first lines of a sheet give (the agency,
    the date after [AL:]), with its rows. *)
Record inv_sheet : Type := {
  ish_agencia : string;
  ish_fecha : option string;
  ish_rows : list row
}.

(** [row[i]], an [IndexError] past the end. *)
Definition item (r : row) (i : nat) : result cell :=
  match nth_error r i with
  | Some c => Ok c
  | None => Raise
  end.

(** [re.sub(r"\.+$", "", s)] for a text that does not end with a line
    break, as a stripped one: the points at its end go. *)
Fixpoint rstrip_points (s : string) : string :=
  match s with
  | "" => ""
  | String c t =>
      if all_chars (fun d => Ascii.eqb d ".") s then "" else String c (rstrip_points t)
  end.

(** [s.split()]: the runs of characters between white space; [cur] is the
    run being read. *)
Fixpoint split_ws (cur : string) (s : string) : list string :=
  let flush := if is_empty cur then [] else [cur] in
  match s with
  | "" => flush
  | String c t =>
      if is_space c then (flush ++ split_ws "" t)%list
      else if Ascii.eqb c xC2 then
        match t with
        | String d t' =>
            if Ascii.eqb d xA0 || Ascii.eqb d x85
            then (flush ++ split_ws "" t')%list
            else split_ws (cur ++ String c "") t
        | "" => split_ws (cur ++ String c "") t
        end
      else split_ws (cur ++ String c "") t
  end.

(** [len(t)], in characters. *)
Fixpoint n_chars (s : string) : nat :=
  match s with
  | "" => 0
  | String c t => ((if is_cont c then 0 else 1) + n_chars t)%nat
  end.

(** [collapse_spaced_letters] *)
Definition collapse_spaced_letters (s : string) : string :=
  let tokens := split_ws "" s in
  match tokens with
  | [] => s
  | _ :: _ =>
      if forallb (fun t => (n_chars t =? 1)%nat) tokens
      then String.concat "" tokens else s
  end.

(** [i_or_zero] *)
Definition i_or_zero (x : cell) : Z :=
  match parse_numeric x with
  | Some n => round_half_even n
  | None => 0%Z
  end.

Section Sheet.
Variables (archivo_origen : string) (sh : inv_sheet).

(** The body of the loop over the rows: the record of the row, nothing
    when a [continue] is met, an exception when the row is too short for a
    cell that is read. *)
Definition inv_row (r : row) : result (option inventario) :=
  let! c0 := item r 0 in
  let iso_div := normalize_divisa_to_iso (str c0) in
  if negb (String.eqb iso_div "PYG" || String.eqb iso_div "USD") then Ok None
  else
    let! c1 := item r 1 in
    let agrup := rstrip_points (strip (str c1)) in
    let! c2 := item r 2 in
    let tipo := collapse_spaced_letters (strip (str c2)) in
    let! c3 := item r 3 in
    match parse_numeric c3 with
    | None => Ok None
    | Some denom =>
        let! c4 := item r 4 in
        let! c5 := item r 5 in
        let! c6 := item r 6 in
        let! c7 := item r 7 in
        match (if (8 <? List.length r)%nat then parse_numeric (nth 8 r NaN) else None) with
        | None => Ok None
        | Some imp =>
            Ok (Some {| FECHA_INVENTARIO := ish_fecha sh;
                        DIVISA := iso_div;
                        inv_AGENCIA := ish_agencia sh;
                        AGRUPACION_EFECTIVO := agrup;
                        TIPO_VALOR := tipo;
                        DENOMINACION := round_half_even denom;
                        CALIDAD_DEPOSITO := i_or_zero c4;
                        CJE_DEP := i_or_zero c5;
                        CALIDAD_CANJE := i_or_zero c6;
                        inv_MONEDA := i_or_zero c7;
                        IMPORTE_TOTAL := imp;
                        inv_ARCHIVO_ORIGEN := archivo_origen |})
        end
    end.

Fixpoint inv_rows (rows : list row) : result (list inventario) :=
  match rows with
  | [] => Ok []
  | r :: rest =>
      let! rec := inv_row r in
      let! more := inv_rows rest in
      Ok (match rec with Some x => x :: more | None => more end)
  end.

End Sheet.

(** [parse_inv_billetes_xlsx_atm] of [consolidado_v3.py] on the sheets
    read; an exception leaves the function and is caught by
    [process_file]. *)
Definition parse_inv_billetes_xlsx_atm (archivo_origen : string)
    (sheets : list inv_sheet) : result (list inventario) :=
  let! per_sheet := mapM (fun sh => inv_rows archivo_origen sh (ish_rows sh)) sheets in
  Ok (concat per_sheet).

(** A row of nine cells with the amount as a number, and the same with the
    amount written with points. *)
Definition nine_cells (importe : cell) : row :=
  [PyStr "Gs"; PyStr "TESORO ATM."; PyStr "B I L L E T E S"; PyInt 100000;
   PyInt 10; PyInt 0; PyInt 0; PyInt 0; importe].

Definition inv_bare (rows : list row) : inv_sheet :=
  {| ish_agencia := ""; ish_fecha := None; ish_rows := rows |}.

End Inventory.

(** ** One file through the pipeline, and the run *)

Module Pipeline.
Import PyStr Normalizer Text Gate Exc Writer Preview.

(** [a or b] on strings. *)
Definition or_else (a b : string) : string := if is_empty a then b else a.

(** [pd.DataFrame()] *)
Definition no_frame : dataframe := {| columns := []; data := [] |}.

(** [len(df)] *)
Definition len (df : dataframe) : nat := List.length (data df).

(** [tipo in OUTPUT_FILES] *)
Definition known (tipo : option string) : bool :=
  match tipo with
  | Some t => match dict_get OUTPUT_FILES t with Some _ => true | None => false end
  | None => false
  end.

(** *** [detect_sin_movimientos] *)

(** A literal under [re.IGNORECASE], on the ASCII letters. *)
Fixpoint prefix_ci (p s : string) : bool :=
  match p, s with
  | "", _ => true
  | String a p', String b s' =>
      Ascii.eqb (upper_ascii a) (upper_ascii b) && prefix_ci p' s'
  | String _ _, "" => false
  end.

(** [re.search(r"SIN\s+MOVIMIENTOS", txt, flags=re.IGNORECASE)]: the white
    space is taken whole, since the word after it does not start with
    any. *)
Fixpoint search_SIN_MOVIMIENTOS (s : string) : bool :=
  (prefix_ci "SIN" s
   && (0 <? ws_len (drop 3 s))%nat
   && prefix_ci "MOVIMIENTOS" (lstrip (drop 3 s)))
  || match s with
     | "" => false
     | String _ t => search_SIN_MOVIMIENTOS t
     end.

(** [detect_sin_movimientos] of [consolidado_v3.py] and of
    [britimp_consolidado_v4.py], on the text the previewer gave. *)
Definition detect_sin_movimientos (preview : string) : bool :=
  search_SIN_MOVIMIENTOS (upper (unir_letras_separadas preview)).

Definition detect_sin_movimientos_britimp (preview : string) : bool :=
  contains "SIN MOVIMIENTOS" (upper (unir_letras_separadas preview)).

(** *** [infer_agencia_from_filename] *)

Definition startswith_any (prefixes : list string) (s : string) : bool :=
  existsb (fun p => startswith p s) prefixes.

Definition infer_agencia_from_filename (fname : string) : string :=
  let up := strip (upper fname) in
  if startswith_any ["01_0"; "01-0"; "01 "] up then "ASU"
  else if startswith_any ["02_0"; "02-0"; "02 "] up then "CDE"
  else if startswith_any ["03_0"; "03-0"; "03 "] up then "ENC"
  else if startswith_any ["04_0"; "04-0"; "04 "] up then "OVD"
  else "".

(** *** A pending file *)

(** What the parsers return for one file, an exception included.  The
    parsers are modelled on their own above, from the sheets they read;
    here only their outcome matters. *)
Record parsers : Type := {
  ec_bultos_atm_xlsx : result dataframe;
  inv_billetes_xlsx_atm : result dataframe;
  inv_billetes_pdf_common : result dataframe;
  ec_efect_xlsx_generic : string -> result dataframe;
  ec_efect_bco_xlsx : result dataframe;
  inv_billetes_pdf : result dataframe
}.

(** A file found under [PENDIENTES]: its name, the agency folder it was
    in, what the libraries answer for it (the [suffix] there is
    [path.suffix.lower()]), and what the parsers return for it.  The file
    is taken not to change while it is processed, so that every call of
    the previewer gives the same outcome. *)
Record pending : Type := {
  p_name : string;
  p_hint : option string;
  p_source : source;
  p_parsers : parsers
}.

Definition hint_or_empty (f : pending) : string := default "" (p_hint f).

(** [df["AGENCIA"]] set at the end of [process_file]: each cell is
    replaced by its code when it has one, then a blank cell by the agency
    inferred for the file; a frame without the column gets it. *)
Definition fill_agencia (normalize_agencia_to_cod : string -> string)
    (agencia_norm : string) (df : dataframe) : dataframe :=
  match index_of "AGENCIA" (columns df) with
  | Some i =>
      let cell x :=
        let x := or_else (normalize_agencia_to_cod x) x in
        if is_empty agencia_norm then x
        else if negb (is_empty (strip x)) then x else agencia_norm in
      {| columns := columns df; data := map (alter cell i) (data df) |}
  | None =>
      {| columns := (columns df ++ ["AGENCIA"])%list;
         data := map (fun r => (r ++ [agencia_norm])%list) (data df) |}
  end.

(** *** [process_file] of [consolidado_v3.py] *)

(** The two agency searches and the four searches of the text of a PDF
    ([INVENTARIO\s+DE\s+BILLETES.*ATM], [\bATM\b] and the same for
    [BANCO]) are regular-expression matches taken as given: nothing below
    depends on what they answer. *)
Record searches : Type := {
  parse_agencia_from_text : string -> string;
  normalize_agencia_to_cod : string -> string;
  search_inventario_atm : string -> bool;
  search_word_atm : string -> bool;
  search_inventario_banco : string -> bool;
  search_word_banco : string -> bool
}.

Section V3.
Variable sx : searches.

Definition is_sheet_ext (ext : string) : bool :=
  String.eqb ext ".xlsx" || String.eqb ext ".xls".

Definition tipo_is (tipo : option string) (tag : string) : bool :=
  match tipo with Some t => String.eqb t tag | None => false end.

(** The type of a PDF the name did not settle. *)
Definition infer_pdf_tipo (tipo : option string) (ext text_preview : string)
    : option string :=
  if (match tipo with None => true | Some t => String.eqb t "INV_BILLETES_UNKNOWN" end)
     && String.eqb ext ".pdf"
  then
    let up_text := upper text_preview in
    if search_inventario_atm sx up_text || search_word_atm sx up_text
    then Some "INV_BILLETES_ATM"
    else if search_inventario_banco sx up_text || search_word_banco sx up_text
    then Some "INV_BILLETES_BCO"
    else Some "INV_BILLETES_BCO"
  else tipo.

(** The parser chosen for a type and an extension; [Ok no_frame] stands
    for the branches that call none. *)
Definition parse_by_tipo (ps : parsers) (tipo : option string) (ext : string)
    : result dataframe :=
  if tipo_is tipo "EC_BULTO_ATM" && is_sheet_ext ext then ec_bultos_atm_xlsx ps
  else if tipo_is tipo "INV_BILLETES_ATM" then
    if is_sheet_ext ext then inv_billetes_xlsx_atm ps
    else if String.eqb ext ".pdf" then inv_billetes_pdf_common ps
    else Ok no_frame
  else if tipo_is tipo "INV_BILLETES_BCO" then
    if String.eqb ext ".pdf" then inv_billetes_pdf_common ps
    else if is_sheet_ext ext then inv_billetes_xlsx_atm ps
    else Ok no_frame
  else if tipo_is tipo "EC_EFECT_ATM" && is_sheet_ext ext
  then ec_efect_xlsx_generic ps "ATM"
  else if tipo_is tipo "EC_EFECT_BCO" && is_sheet_ext ext
  then ec_efect_xlsx_generic ps "BANCO"
  else Ok no_frame.

(** [process_file]: the frame, the type, the agency and whether the gate
    let the file through.  The previewer is the one call made outside a
    [try]: when it raises, so does [process_file].  The lines logged are
    left out. *)
Definition process_file (f : pending)
    : result (dataframe * option string * string * bool) :=
  let fname := p_name f in
  let tipo := dispatch_tipo_v3 fname in
  let! preview := file_text_preview (p_source f) 40 in
  let is_itau := detect_cliente_itau_v3 {| name := fname; preview := preview |} None in
  if negb is_itau then Ok (no_frame, None, hint_or_empty f, false)
  else
    let text_preview := unir_letras_separadas preview in
    if detect_sin_movimientos preview then
      let ag := or_else (parse_agencia_from_text sx text_preview)
                  (or_else (infer_agencia_from_filename fname) (hint_or_empty f)) in
      Ok (no_frame, tipo, ag, true)
    else
      let agencia_from_text := parse_agencia_from_text sx text_preview in
      let agencia_norm :=
        or_else (normalize_agencia_to_cod sx agencia_from_text)
          (or_else (infer_agencia_from_filename fname)
             (or_else (hint_or_empty f) agencia_from_text)) in
      let ext := suffix (p_source f) in
      let tipo := infer_pdf_tipo tipo ext text_preview in
      let df := match parse_by_tipo (p_parsers f) tipo ext with
                | Ok df => df
                | Raise => no_frame
                end in
      let df := if empty df then df
                else fill_agencia (normalize_agencia_to_cod sx) agencia_norm df in
      Ok (df, tipo, or_else agencia_norm (hint_or_empty f), true).

(** *** [run] of [consolidado_v3.py] *)

(** A call of [safe_move]: the file, the folder under [PROCESADO] and
    whether the name gets the mark [PROCESADO]. *)
Record move : Type := {
  mv_file : string;
  mv_dir : string;
  mv_rename : bool
}.

(** [move_original] *)
Definition move_original (fname agencia : string)
    (is_itau had_records tipo_conocido : bool) : move :=
  {| mv_file := fname;
     mv_dir := or_else (upper (strip agencia)) "ASU";
     mv_rename :=
       if is_itau && had_records then false
       else if is_itau && negb had_records && tipo_conocido then true
       else false |}.

(** What a run changes: the day's folder with the set [RUN_WRITTEN], and
    the originals moved so far. *)
Record world : Type := {
  out : run_state;
  moves : list move
}.

(** [stats = {k:0 for k in OUTPUT_FILES.keys()}] and [stats[tipo] += n],
    which raises [KeyError] for a key that is not there. *)
Definition stats0 : list (string * nat) := map (fun kv => (fst kv, 0%nat)) OUTPUT_FILES.

Fixpoint dict_set {V} (d : list (string * V)) (k : string) (v : V) : list (string * V) :=
  match d with
  | [] => []
  | (k', v') :: rest =>
      if String.eqb k k' then (k', v) :: rest else (k', v') :: dict_set rest k v
  end.

Definition stats_add (stats : list (string * nat)) (tipo : string) (n : nat)
    : result (list (string * nat)) :=
  match dict_get stats tipo with
  | Some m => Ok (dict_set stats tipo (m + n)%nat)
  | None => Raise
  end.

(** The body of the loop of [run] for one file, after [process_file]
    returned.  The calls that reach the disk ([mkdir], [unlink], [to_csv],
    [shutil.move]) are taken to succeed: when one of them raises, the run
    of the program stops at that file, which this function does not
    show.  The [KeyError] of [stats[tipo] += len(df)] is kept. *)
Definition after_file (f : pending) (df : dataframe) (tipo : option string)
    (agencia_final : string) (is_itau : bool)
    (stats : list (string * nat)) (w : world)
    : result (list (string * nat)) * world :=
  let tipo_conocido := known tipo in
  let had_records := negb (empty df) in
  let '(stats', out') :=
    match tipo with
    | Some t =>
        if negb (is_empty t) && had_records
        then (stats_add stats t (len df), write_v3 t df (out w))
        else (Ok stats, out w)
    | None => (Ok stats, out w)
    end in
  match stats' with
  | Raise => (Raise, {| out := out'; moves := moves w |})
  | Ok stats' =>
      let mv := move_original (p_name f)
                  (or_else agencia_final (hint_or_empty f))
                  is_itau had_records tipo_conocido in
      (Ok stats', {| out := out'; moves := (moves w ++ [mv])%list |})
  end.

(** The loop of [run]: an exception ends it where it stands. *)
Fixpoint run_loop (pend : list pending) (stats : list (string * nat)) (w : world)
    : result (list (string * nat)) * world :=
  match pend with
  | [] => (Ok stats, w)
  | f :: rest =>
      match process_file f with
      | Raise => (Raise, w)
      | Ok (df, tipo, agencia_final, is_itau) =>
          match after_file f df tipo agencia_final is_itau stats w with
          | (Ok stats', w') => run_loop rest stats' w'
          | (Raise, w') => (Raise, w')
          end
      end
  end.

Definition run (pend : list pending) (w : world) : result (list (string * nat)) * world :=
  run_loop pend stats0 w.

End V3.

(** *** [process_file] of [britimp_consolidado_v4.py] *)

Section Britimp.
Variable sx : searches.
(** Whether the module [xlrd] could be imported. *)
Variable xlrd : bool.

Definition parse_by_tipo_britimp (ps : parsers) (tipo : option string) (ext : string)
    : result dataframe :=
  if tipo_is tipo "EC_EFECT_BCO" && is_sheet_ext ext then ec_efect_bco_xlsx ps
  else if (tipo_is tipo "INV_BILLETES_BCO" || tipo_is tipo "INV_BILLETES_ATM")
          && String.eqb ext ".pdf"
  then inv_billetes_pdf ps
  else Ok no_frame.

Definition process_file_britimp (f : pending)
    : result (dataframe * option string * string * bool) :=
  let! preview := file_text_preview_britimp xlrd (p_source f) 40 in
  let tipo := dispatch_tipo (p_name f) preview in
  if negb (detect_cliente_itau {| name := p_name f; preview := preview |} tipo)
  then Ok (no_frame, tipo, hint_or_empty f, false)
  else if detect_sin_movimientos_britimp preview then
    Ok (no_frame, tipo,
        or_else (parse_agencia_from_text sx preview) (or_else (hint_or_empty f) "N/A"),
        true)
  else
    let agencia_final :=
      or_else (parse_agencia_from_text sx preview) (hint_or_empty f) in
    let df := match parse_by_tipo_britimp (p_parsers f) tipo (suffix (p_source f)) with
              | Ok df => df
              | Raise => no_frame
              end in
    Ok (df, tipo, agencia_final, true).

End Britimp.

(** *** [safe_move] *)

(** [Path(name).suffix] and [Path(name).stem]: the name is cut at its last
    point, unless that point is its first or its last character. *)
Fixpoint take (n : nat) (s : string) : string :=
  match n, s with
  | S k, String c t => String c (take k t)
  | _, _ => ""
  end.

Definition cut_at (name : string) : option nat :=
  let i := rfind "." name in
  if ((0 <? i) && (i <? Z.of_nat (String.length name) - 1))%Z
  then Some (Z.to_nat i) else None.

Definition path_suffix (name : string) : string :=
  match cut_at name with Some i => drop i name | None => "" end.

Definition path_stem (name : string) : string :=
  match cut_at name with Some i => take i name | None => name end.

(** [f"{Path(base).stem} ({i}){Path(base).suffix}"] *)
Definition numbered (base : string) (i : nat) : string :=
  path_stem base ++ " (" ++ string_of_Z (Z.of_nat i) ++ ")" ++ path_suffix base.

(** The [while True] loop over the numbered names; it goes on as long as
    the name is taken, [fuel] bounding the passes. *)
Fixpoint first_free (fuel : nat) (dir : gset string) (base : string) (i : nat)
    : option string :=
  match fuel with
  | O => None
  | S k =>
      if bool_decide (numbered base i ∈ dir)
      then first_free k dir base (S i)
      else Some (numbered base i)
  end.

(** [safe_move] of [consolidado_v3.py] and [consolidado_v4.py] on the names
    [dir] of the files of the destination folder: the name the file gets
    there and the folder after the move. *)
Definition safe_move (fuel : nat) (dir : gset string) (src_name : string)
    (rename_processed : bool) : option (string * gset string) :=
  let base :=
    if rename_processed
    then (path_stem src_name ++ " PROCESADO") ++ path_suffix src_name
    else src_name in
  let dst := if bool_decide (base ∈ dir) then first_free fuel dir base 1
             else Some base in
  option_map (fun d => (d, dir ∪ {[d]})) dst.

(** *** Files for the examples *)

(** A frame of one row, parsers that all fail but the two for inventories
    in PDF, and a PDF whose text names the institution. *)
Definition one_row : dataframe := {| columns := ["DIVISA"]; data := [["PYG"]] |}.

Definition pdf_parsers : parsers :=
  {| ec_bultos_atm_xlsx := Raise;
     inv_billetes_xlsx_atm := Raise;
     inv_billetes_pdf_common := Ok one_row;
     ec_efect_xlsx_generic := fun _ => Raise;
     ec_efect_bco_xlsx := Raise;
     inv_billetes_pdf := Ok one_row |}.

Definition itau_pdf : source :=
  {| suffix := ".pdf";
     ExcelFile := fun _ => Raise;
     PdfReader := Some (Ok [Ok (Some "CLIENTE: BANCO ITAU")]);
     read_bytes_text := Raise;
     read_text := Raise |}.

Definition inventory_pdf : pending :=
  {| p_name := "INV_BILLETES_ATM.pdf";
     p_hint := Some "ASU";
     p_source := itau_pdf;
     p_parsers := pdf_parsers |}.

(** A workbook no engine opens, found in the same folder. *)
Definition broken_workbook : pending :=
  {| p_name := "EC_EFECTIVO_ATM.xlsx";
     p_hint := Some "ASU";
     p_source := corrupt_xlsx;
     p_parsers := pdf_parsers |}.

(** Searches that find nothing. *)
Definition no_searches : searches :=
  {| parse_agencia_from_text := fun _ => "";
     normalize_agencia_to_cod := fun _ => "";
     search_inventario_atm := fun _ => false;
     search_word_atm := fun _ => false;
     search_inventario_banco := fun _ => false;
     search_word_banco := fun _ => false |}.

End Pipeline.

(** * Properties *)

Import PyStr Normalizer Text Gate Exc Extract Writer Preview.

(** ** Characters and strings *)

#[local] Arguments String.append _ _ : simpl nomatch.

Lemma eqb_char_true (c d : ascii) : Ascii.eqb c d = true <-> c = d.
Proof. apply Ascii.eqb_eq. Qed.

Lemma eqb_char_false (c d : ascii) : Ascii.eqb c d = false <-> c <> d.
Proof. apply Ascii.eqb_neq. Qed.

(** Tactic for a fact about one character decided by looking at its eight
    bits. *)
Ltac by_bits c :=
  destruct c as [b0 b1 b2 b3 b4 b5 b6 b7];
  destruct b0, b1, b2, b3, b4, b5, b6, b7;
  try discriminate; try reflexivity; auto.

Lemma prefix_empty (s : string) : String.prefix "" s = true.
Proof. destruct s; reflexivity. Qed.

Lemma prefix_single (c : ascii) (s : string) :
  String.prefix (String c "") s =
  match s with String d _ => Ascii.eqb c d | "" => false end.
Proof.
  destruct s as [|d t]; simpl; [reflexivity|].
  destruct (ascii_dec c d) as [->|Hne].
  - rewrite Ascii.eqb_refl. apply prefix_empty.
  - apply Ascii.eqb_neq in Hne. rewrite Hne. reflexivity.
Qed.

Lemma contains_single (c : ascii) (s : string) :
  contains (String c "") s = has_char c s.
Proof.
  induction s as [|d t IH]; [reflexivity|].
  cbn [contains has_char]. rewrite prefix_single, IH, (Ascii.eqb_sym c d).
  reflexivity.
Qed.

Lemma replace_single (c : ascii) (new s : string) :
  replace (String c "") new s = replace_char c new s.
Proof.
  unfold replace; cbn [is_empty].
  induction s as [|d t IH]; [reflexivity|].
  cbn [replace_go replace_char]. rewrite prefix_single.
  cbn [String.length Nat.sub]. rewrite (Ascii.eqb_sym c d), IH.
  destruct (Ascii.eqb d c); reflexivity.
Qed.

Lemma append_assoc_s (a b c : string) : (a ++ b) ++ c = a ++ (b ++ c).
Proof. induction a as [|d t IH]; simpl; [reflexivity|]. rewrite IH. reflexivity. Qed.

Lemma append_empty_r (a : string) : a ++ "" = a.
Proof. induction a as [|d t IH]; simpl; [reflexivity|]. rewrite IH. reflexivity. Qed.

Lemma length_append_s (a b : string) :
  String.length (a ++ b) = (String.length a + String.length b)%nat.
Proof. induction a as [|d t IH]; simpl; [reflexivity|]. rewrite IH. reflexivity. Qed.

Lemma has_char_app (c : ascii) (a b : string) :
  has_char c (a ++ b) = has_char c a || has_char c b.
Proof.
  induction a as [|d t IH]; [reflexivity|].
  simpl. rewrite IH, orb_assoc. reflexivity.
Qed.

Lemma count_char_app (c : ascii) (a b : string) :
  count_char c (a ++ b) = (count_char c a + count_char c b)%nat.
Proof.
  induction a as [|d t IH]; [reflexivity|].
  simpl. rewrite IH. lia.
Qed.

Lemma has_char_count (c : ascii) (s : string) :
  has_char c s = false <-> count_char c s = 0%nat.
Proof.
  induction s as [|d t IH]; simpl; [tauto|].
  destruct (Ascii.eqb d c); simpl; [split; [discriminate|lia]|exact IH].
Qed.

Lemma all_chars_app (p : ascii -> bool) (a b : string) :
  all_chars p (a ++ b) = all_chars p a && all_chars p b.
Proof.
  induction a as [|d t IH]; [reflexivity|].
  simpl. rewrite IH, andb_assoc. reflexivity.
Qed.

Lemma all_chars_impl (p q : ascii -> bool) (s : string) :
  (forall c, p c = true -> q c = true) ->
  all_chars p s = true -> all_chars q s = true.
Proof.
  intros Hpq. induction s as [|d t IH]; simpl; [reflexivity|].
  intros [Hd Ht]%andb_true_iff. rewrite (Hpq _ Hd), (IH Ht). reflexivity.
Qed.

Lemma all_chars_no_char (p : ascii -> bool) (c : ascii) (s : string) :
  p c = false -> all_chars p s = true -> has_char c s = false.
Proof.
  intros Hc. induction s as [|d t IH]; simpl; [reflexivity|].
  intros [Hd Ht]%andb_true_iff. rewrite (IH Ht), orb_false_r.
  apply Ascii.eqb_neq. intros ->. congruence.
Qed.

Lemma replace_char_absent (c : ascii) (new s : string) :
  has_char c s = false -> replace_char c new s = s.
Proof.
  induction s as [|d t IH]; simpl; [reflexivity|].
  intros [Hd Ht]%orb_false_iff. rewrite Hd, (IH Ht). reflexivity.
Qed.

Lemma replace_char_app (c : ascii) (new a b : string) :
  replace_char c new (a ++ b) = replace_char c new a ++ replace_char c new b.
Proof.
  induction a as [|d t IH]; simpl; [reflexivity|].
  rewrite IH. destruct (Ascii.eqb d c); simpl; [|reflexivity].
  rewrite append_assoc_s. reflexivity.
Qed.

(** Removing a character leaves none of it. *)
Lemma has_char_removed (c : ascii) (s : string) :
  has_char c (replace_char c "" s) = false.
Proof.
  induction s as [|d t IH]; simpl; [reflexivity|].
  destruct (Ascii.eqb d c) eqn:E; simpl; [exact IH|].
  rewrite E, IH. reflexivity.
Qed.

(** Replacing one character by another leaves the count of a third as it
    was. *)
Lemma count_char_replace_other (c e : ascii) (new s : string) :
  e <> c -> count_char e new = 0%nat ->
  count_char e (replace_char c new s) = count_char e s.
Proof.
  intros Hne Hnew. induction s as [|d t IH]; simpl; [reflexivity|].
  destruct (Ascii.eqb d c) eqn:E.
  - apply Ascii.eqb_eq in E; subst d.
    rewrite count_char_app, Hnew, IH.
    assert (Ascii.eqb c e = false) as -> by (apply Ascii.eqb_neq; congruence).
    reflexivity.
  - simpl. rewrite IH. reflexivity.
Qed.

(** Substrings. *)
Lemma prefix_iff (n s : string) :
  String.prefix n s = true <-> exists b, s = n ++ b.
Proof.
  revert s. induction n as [|a n IH]; intros s.
  - rewrite prefix_empty. split; [intros _; exists s; reflexivity|reflexivity].
  - destruct s as [|c s].
    + cbn [String.prefix]. split; [discriminate|intros [b Hb]; discriminate Hb].
    + cbn [String.prefix String.append]. destruct (ascii_dec a c) as [->|Hne].
      * rewrite IH. split; intros [b Hb]; exists b; congruence.
      * split; [discriminate|]. intros [b Hb]. congruence.
Qed.

Lemma contains_iff (n s : string) :
  contains n s = true <-> exists a b, s = a ++ n ++ b.
Proof.
  induction s as [|c t IH].
  - cbn [contains]. rewrite orb_false_r, prefix_iff. split.
    + intros [b Hb]. exists "", b. exact Hb.
    + intros (a & b & H). destruct a; [|discriminate H]. exists b. exact H.
  - cbn [contains]. rewrite orb_true_iff, prefix_iff, IH. split.
    + intros [[b Hb]|(a & b & H)].
      * exists "", b. exact Hb.
      * exists (String c a), b. cbn [String.append]. congruence.
    + intros (a & b & H). destruct a as [|d a].
      * left. exists b. exact H.
      * right. exists a, b. cbn [String.append] in H. congruence.
Qed.

Lemma contains_trans (q p s : string) :
  contains q p = true -> contains p s = true -> contains q s = true.
Proof.
  rewrite !contains_iff. intros (a & b & ->) (a' & b' & ->).
  exists (a' ++ a), (b ++ b'). rewrite !append_assoc_s. reflexivity.
Qed.

(** ** The numeric normaliser *)

Lemma digit_or_comma_num (c : ascii) : digit_or_comma c = true -> num_char c = true.
Proof. by_bits c. Qed.

Lemma digit_or_comma_plain (c : ascii) : digit_or_comma c = true -> plain_char c = true.
Proof. by_bits c. Qed.

Lemma digit_is_digit_or_comma (c : ascii) : is_digit c = true -> digit_or_comma c = true.
Proof. unfold digit_or_comma. intros ->. reflexivity. Qed.

Lemma sanitize_id (s : string) :
  all_chars num_char s = true -> NUM_SANITIZER_sub s = s.
Proof.
  induction s as [|d t IH]; simpl; [reflexivity|].
  intros [Hd Ht]%andb_true_iff. rewrite Hd, (IH Ht). reflexivity.
Qed.

Lemma prefix_head_ne (c d : ascii) (p t : string) :
  c <> d -> String.prefix (String c p) (String d t) = false.
Proof. intros Hne. simpl. destruct (ascii_dec c d); [contradiction|reflexivity]. Qed.

Lemma replace_go_absent (c : ascii) (p new s : string) :
  has_char c s = false -> replace_go (String c p) new 0 s = s.
Proof.
  induction s as [|d t IH]; [reflexivity|].
  intros [Hd Ht]%orb_false_iff. cbn [replace_go].
  rewrite prefix_head_ne by (apply Ascii.eqb_neq in Hd; congruence).
  rewrite (IH Ht). reflexivity.
Qed.

Lemma replace_absent (c : ascii) (p new s : string) :
  has_char c s = false -> replace (String c p) new s = s.
Proof. intros H. unfold replace; cbn [is_empty]. apply replace_go_absent, H. Qed.

Lemma lstrip_plain (s : string) : all_chars plain_char s = true -> lstrip s = s.
Proof.
  destruct s as [|d t]; [reflexivity|]. simpl.
  intros [Hd _]%andb_true_iff. unfold plain_char in Hd.
  apply andb_true_iff in Hd as [Hs Hc].
  apply negb_true_iff in Hs, Hc. rewrite Hs, Hc. reflexivity.
Qed.

Lemma rstrip_plain (s : string) : all_chars plain_char s = true -> rstrip s = s.
Proof.
  induction s as [|d t IH]; [reflexivity|].
  intros H. cbn [rstrip]. unfold all_space. rewrite (lstrip_plain _ H).
  cbn [is_empty]. simpl in H. apply andb_true_iff in H as [_ Ht].
  rewrite (IH Ht). reflexivity.
Qed.

Lemma strip_plain (s : string) : all_chars plain_char s = true -> strip s = s.
Proof.
  intros H. unfold strip. rewrite (lstrip_plain _ H). apply rstrip_plain, H.
Qed.

Lemma split_no_sep (sep : ascii) (s : string) :
  has_char sep s = false -> split sep s = [s].
Proof.
  induction s as [|d t IH]; [reflexivity|]. simpl.
  intros [Hd Ht]%orb_false_iff. rewrite Hd, (IH Ht). reflexivity.
Qed.

Lemma split_at_sep (sep : ascii) (a b : string) :
  has_char sep a = false -> split sep (a ++ String sep b) = a :: split sep b.
Proof.
  induction a as [|d t IH]; simpl.
  - intros _. rewrite Ascii.eqb_refl. reflexivity.
  - intros [Hd Ht]%orb_false_iff. rewrite Hd, (IH Ht). reflexivity.
Qed.

(** The string handed to [float] when a number is written with one comma
    between two runs of digits. *)
Lemma lone_comma_steps (a b : string) :
  all_chars is_digit a = true -> all_chars is_digit b = true ->
  let s := a ++ String "," b in
  strip (replace NBSP " " (NUM_SANITIZER_sub s)) = s
  /\ is_empty s = false
  /\ startswith "(" s = false
  /\ replace " " "" s = s
  /\ contains "," s = true /\ contains "." s = false
  /\ split "," s = [a; b]
  /\ replace "," "." s = a ++ String "." b
  /\ replace "," "" s = a ++ b.
Proof.
  intros Ha Hb s.
  assert (Hs : all_chars digit_or_comma s = true).
  { unfold s. rewrite all_chars_app. simpl.
    rewrite (all_chars_impl _ _ _ digit_is_digit_or_comma Ha).
    rewrite (all_chars_impl _ _ _ digit_is_digit_or_comma Hb). reflexivity. }
  assert (Hno : forall c, digit_or_comma c = false -> has_char c s = false).
  { intros c Hc. exact (all_chars_no_char _ c s Hc Hs). }
  assert (Hna : forall c, is_digit c = false -> has_char c a = false).
  { intros c Hc. exact (all_chars_no_char _ c a Hc Ha). }
  assert (Hnb : forall c, is_digit c = false -> has_char c b = false).
  { intros c Hc. exact (all_chars_no_char _ c b Hc Hb). }
  repeat split.
  - rewrite sanitize_id by exact (all_chars_impl _ _ _ digit_or_comma_num Hs).
    unfold NBSP. rewrite replace_absent by (apply Hno; reflexivity).
    apply strip_plain. exact (all_chars_impl _ _ _ digit_or_comma_plain Hs).
  - unfold s. destruct a; reflexivity.
  - unfold startswith. rewrite prefix_single.
    unfold s. destruct a as [|d t]; [reflexivity|].
    cbn [all_chars] in Ha. apply andb_true_iff in Ha as [Hd _].
    cbn [String.append]. apply Ascii.eqb_neq. intros <-. discriminate.
  - apply replace_absent, Hno. reflexivity.
  - rewrite contains_single. unfold s. rewrite has_char_app. simpl.
    apply orb_true_r.
  - rewrite contains_single. apply Hno. reflexivity.
  - unfold s. rewrite split_at_sep by (apply Hna; reflexivity).
    rewrite split_no_sep by (apply Hnb; reflexivity). reflexivity.
  - rewrite replace_single. unfold s. rewrite replace_char_app. simpl.
    rewrite !replace_char_absent by (first [apply Hna | apply Hnb]; reflexivity).
    reflexivity.
  - rewrite replace_single. unfold s. rewrite replace_char_app. simpl.
    rewrite !replace_char_absent by (first [apply Hna | apply Hnb]; reflexivity).
    reflexivity.
Qed.

(** A lone comma between digits: decimal separator when at most two digits
    follow, thousands separator otherwise. *)
Lemma parse_numeric_str_lone_comma (a b : string) :
  all_chars is_digit a = true -> all_chars is_digit b = true ->
  parse_numeric_str (a ++ String "," b) =
  if (String.length b <=? 2)%nat then float (a ++ String "." b) else float (a ++ b).
Proof.
  intros Ha Hb.
  destruct (lone_comma_steps a b Ha Hb)
    as (H1 & H2 & H3 & H4 & H5 & H6 & H7 & H8 & H9).
  unfold parse_numeric_str.
  rewrite H1, H2, H3. cbn [andb]. rewrite H4, H5, H6. cbn [andb].
  rewrite H7. cbn [List.length List.last Nat.leb andb].
  rewrite H8, H9.
  destruct (String.length b <=? 2)%nat;
    (match goal with |- option_map _ ?x = _ => destruct x end); reflexivity.
Qed.

(** *** Separators through the cleaning steps *)

Lemma separator_facts (c : ascii) :
  separator c = true ->
  num_char c = true /\ is_space c = false /\ c <> xC2 /\ c <> xA0 /\ c <> x85
  /\ c <> " "%char /\ c <> "("%char /\ c <> ")"%char /\ c <> "-"%char
  /\ c <> "+"%char /\ is_digit c = false.
Proof. by_bits c; repeat split; discriminate. Qed.

Lemma count_char_ne (c d : ascii) (t : string) :
  d <> c -> count_char c (String d t) = count_char c t.
Proof.
  intros H. cbn [count_char]. apply Ascii.eqb_neq in H. rewrite H. reflexivity.
Qed.

(** Induction on strings two characters at a time. *)
Lemma string_ind2 (P : string -> Prop) :
  P "" -> (forall c, P (String c "")) ->
  (forall c d t, P t -> P (String d t) -> P (String c (String d t))) ->
  forall s, P s.
Proof.
  intros H0 H1 H2 s.
  enough (P s /\ forall c, P (String c s)) by tauto.
  induction s as [|d t [IH1 IH2]]; split; auto.
Qed.

Lemma count_sanitize (c : ascii) (s : string) :
  separator c = true -> count_char c (NUM_SANITIZER_sub s) = count_char c s.
Proof.
  intros Hc. destruct (separator_facts c Hc) as (Hn & _ & HC2 & HA0 & _).
  induction s as [|d|d e t IHt IHet] using string_ind2.
  - reflexivity.
  - cbn [NUM_SANITIZER_sub]. destruct (num_char d) eqn:Hd; [reflexivity|].
    assert (d <> c) by congruence.
    rewrite count_char_ne by assumption.
    destruct (Ascii.eqb d xC2); reflexivity.
  - cbn [NUM_SANITIZER_sub] in *. destruct (num_char d) eqn:Hd.
    + cbn [count_char]. rewrite IHet. reflexivity.
    + assert (d <> c) by congruence.
      rewrite (count_char_ne c d) by assumption.
      destruct (Ascii.eqb d xC2) eqn:Ed; [|exact IHet].
      destruct (Ascii.eqb e xA0) eqn:Ee; [|exact IHet].
      apply Ascii.eqb_eq in Ed, Ee. subst d e.
      rewrite !count_char_ne by congruence. exact IHt.
Qed.

Lemma prefix_NBSP (s : string) :
  String.prefix NBSP s = true -> exists t, s = String xC2 (String xA0 t).
Proof.
  unfold NBSP. destruct s as [|d [|e t]]; cbn [String.prefix].
  - discriminate.
  - destruct (ascii_dec xC2 d); discriminate.
  - destruct (ascii_dec xC2 d) as [<-|]; [|discriminate].
    destruct (ascii_dec xA0 e) as [<-|]; [|discriminate].
    intros _. eexists; reflexivity.
Qed.

Lemma count_replace_NBSP (c : ascii) (s : string) :
  separator c = true -> count_char c (replace NBSP " " s) = count_char c s.
Proof.
  intros Hc. destruct (separator_facts c Hc) as (_ & _ & HC2 & HA0 & _ & Hsp & _).
  unfold replace. cbn [is_empty NBSP].
  fold NBSP.
  induction s as [|d|d e t IHt IHet] using string_ind2.
  - reflexivity.
  - cbn [replace_go]. destruct (String.prefix NBSP (String d "")) eqn:E.
    + apply prefix_NBSP in E as [t E]. discriminate.
    + reflexivity.
  - cbn [replace_go]. destruct (String.prefix NBSP (String d (String e t))) eqn:E.
    + apply prefix_NBSP in E as [t' E]. injection E as -> -> ->.
      cbn [NBSP String.length Nat.sub replace_go String.append].
      rewrite !count_char_ne by congruence. exact IHt.
    + cbn [count_char]. cbn [replace_go] in IHet. rewrite IHet. reflexivity.
Qed.

Lemma count_lstrip (c : ascii) (s : string) :
  separator c = true -> count_char c (lstrip s) = count_char c s.
Proof.
  intros Hc. destruct (separator_facts c Hc) as (_ & Hs & HC2 & HA0 & H85 & _).
  assert (Hsp : forall d, is_space d = true -> d <> c) by (intros d Hd ->; congruence).
  induction s as [|d|d e t IHt IHet] using string_ind2.
  - reflexivity.
  - cbn [lstrip]. destruct (is_space d) eqn:Hd.
    + rewrite count_char_ne by auto. reflexivity.
    + destruct (Ascii.eqb d xC2); reflexivity.
  - cbn [lstrip] in *. destruct (is_space d) eqn:Hd.
    + rewrite (count_char_ne c d) by auto. exact IHet.
    + destruct (Ascii.eqb d xC2) eqn:Ed; [|reflexivity].
      destruct (Ascii.eqb e xA0 || Ascii.eqb e x85) eqn:Ee; [|reflexivity].
      apply Ascii.eqb_eq in Ed. subst d.
      apply orb_true_iff in Ee as [Ee|Ee]; apply Ascii.eqb_eq in Ee; subst e;
        rewrite !count_char_ne by congruence; exact IHt.
Qed.

Lemma count_rstrip (c : ascii) (s : string) :
  separator c = true -> count_char c (rstrip s) = count_char c s.
Proof.
  intros Hc. induction s as [|d t IH]; [reflexivity|].
  cbn [rstrip]. destruct (all_space (String d t)) eqn:E.
  - unfold all_space in E. pose proof (count_lstrip c (String d t) Hc) as Hl.
    destruct (lstrip (String d t)); [|discriminate].
    rewrite <- Hl. reflexivity.
  - cbn [count_char]. rewrite IH. reflexivity.
Qed.

Lemma count_strip (c : ascii) (s : string) :
  separator c = true -> count_char c (strip s) = count_char c s.
Proof.
  intros Hc. unfold strip. rewrite count_rstrip, count_lstrip by assumption.
  reflexivity.
Qed.

Lemma count_drop_last (c p : ascii) (t : string) :
  c <> p -> endswith (String p "") t = true ->
  count_char c (drop_last t) = count_char c t.
Proof.
  intros Hne. induction t as [|d t IH]; [reflexivity|].
  cbn [endswith]. destruct t as [|e t'].
  - cbn [endswith].
    change (String.eqb (String p "") "") with false. cbn [orb].
    rewrite orb_false_r.
    intros H. apply String.eqb_eq in H. injection H as <-.
    cbn [drop_last]. rewrite count_char_ne by congruence. reflexivity.
  - intros H.
    assert (Hf : String.eqb (String p "") (String d (String e t')) = false).
    { apply String.eqb_neq. intros E. discriminate E. }
    rewrite Hf in H. cbn [orb] in H.
    change (drop_last (String d (String e t')))
      with (String d (drop_last (String e t'))).
    cbn [count_char]. rewrite (IH H). reflexivity.
Qed.

Lemma count_slice_1_m1 (c : ascii) (s : string) :
  separator c = true ->
  startswith "(" s && endswith ")" s = true ->
  count_char c (slice_1_m1 s) = count_char c s.
Proof.
  intros Hc. destruct (separator_facts c Hc) as (_&_&_&_&_&_& Ho & Hcl & _).
  intros [Hs He]%andb_true_iff.
  unfold startswith in Hs. rewrite prefix_single in Hs.
  destruct s as [|d t]; [discriminate|]. apply Ascii.eqb_eq in Hs. subst d.
  cbn [endswith] in He.
  assert (Hf : String.eqb ")" (String "(" t) = false).
  { apply String.eqb_neq. intros E. discriminate E. }
  rewrite Hf in He. cbn [orb] in He.
  cbn [slice_1_m1]. rewrite (count_char_ne c "(") by congruence.
  apply (count_drop_last c ")"); [congruence|exact He].
Qed.

Lemma count_remove_space (c : ascii) (s : string) :
  separator c = true -> count_char c (replace " " "" s) = count_char c s.
Proof.
  intros Hc. destruct (separator_facts c Hc) as (_&_&_&_&_& Hsp & _).
  rewrite replace_single. apply count_char_replace_other; [assumption|reflexivity].
Qed.

Lemma count_cleaned (c : ascii) (val : string) :
  separator c = true -> count_char c (cleaned val) = count_char c val.
Proof.
  intros Hc. unfold cleaned. rewrite count_remove_space by assumption.
  set (s := strip _).
  assert (Hs : count_char c s = count_char c val).
  { unfold s. rewrite count_strip, count_replace_NBSP, count_sanitize by assumption.
    reflexivity. }
  destruct (startswith "(" s && endswith ")" s) eqn:E; [|exact Hs].
  rewrite count_strip, count_slice_1_m1 by assumption. exact Hs.
Qed.

(** [float] *)
Lemma float_cases (c : ascii) (t : string) :
  float (String c t) =
  if Ascii.eqb c "-" then option_map Qopp (unsigned_float t)
  else if Ascii.eqb c "+" then unsigned_float t
  else unsigned_float (String c t).
Proof. by_bits c. Qed.

Lemma cut_point_two_points (s : string) :
  (2 <= count_char "." s)%nat ->
  exists i f, cut_point s = (i, Some f) /\ (1 <= count_char "." f)%nat.
Proof.
  induction s as [|d t IH]; cbn [count_char cut_point]; [lia|].
  destruct (Ascii.eqb d ".") eqn:E.
  - intros H. exists "", t. split; [reflexivity|lia].
  - intros H. destruct (IH H) as (i & f & -> & Hf).
    exists (String d i), f. split; [reflexivity|exact Hf].
Qed.

Lemma digits_no_point (s : string) :
  (1 <= count_char "." s)%nat -> all_chars is_digit s = false.
Proof.
  induction s as [|d t IH]; cbn [count_char all_chars]; [lia|].
  destruct (Ascii.eqb d ".") eqn:E.
  - apply Ascii.eqb_eq in E. subst d. reflexivity.
  - intros H. rewrite IH by exact H. apply andb_false_r.
Qed.

Lemma unsigned_float_two_points (s : string) :
  (2 <= count_char "." s)%nat -> unsigned_float s = None.
Proof.
  intros H. unfold unsigned_float.
  destruct (cut_point_two_points s H) as (i & f & -> & Hf).
  rewrite (digits_no_point f Hf), andb_false_r. reflexivity.
Qed.

Lemma float_two_points (s : string) :
  (2 <= count_char "." s)%nat -> float s = None.
Proof.
  destruct s as [|c t]; [cbn; lia|]. intros H. rewrite float_cases.
  destruct (Ascii.eqb c "-") eqn:E1; [|destruct (Ascii.eqb c "+") eqn:E2].
  - apply Ascii.eqb_eq in E1. subst c. rewrite count_char_ne in H by discriminate.
    rewrite unsigned_float_two_points by exact H. reflexivity.
  - apply Ascii.eqb_eq in E2. subst c. rewrite count_char_ne in H by discriminate.
    apply unsigned_float_two_points, H.
  - apply unsigned_float_two_points, H.
Qed.

(** When the text has no comma the cleaned string goes to [float] as it
    is. *)
Lemma parse_numeric_str_no_comma (val : string) :
  has_char "," val = false ->
  parse_numeric_str val =
  if is_empty (strip (replace NBSP " " (NUM_SANITIZER_sub val))) then None
  else option_map
         (signed (startswith "(" (strip (replace NBSP " " (NUM_SANITIZER_sub val)))
                  && endswith ")" (strip (replace NBSP " " (NUM_SANITIZER_sub val)))))
         (float (cleaned val)).
Proof.
  intros Hc. unfold parse_numeric_str.
  destruct (is_empty _) eqn:E; [reflexivity|].
  fold (cleaned val).
  assert (Hn : contains "," (cleaned val) = false).
  { rewrite contains_single. apply has_char_count.
    rewrite count_cleaned by reflexivity. apply has_char_count, Hc. }
  rewrite Hn. reflexivity.
Qed.

Lemma parse_numeric_str_dot_grouped (val : string) :
  has_char "," val = false -> (2 <= count_char "." val)%nat ->
  parse_numeric_str val = None.
Proof.
  intros Hc Hd. rewrite parse_numeric_str_no_comma by exact Hc.
  destruct (is_empty _); [reflexivity|].
  rewrite float_two_points; [reflexivity|].
  rewrite count_cleaned by reflexivity. exact Hd.
Qed.

(** *** The three scripts parse strings alike *)

Lemma rfind_from_spec (c : ascii) (s : string) :
  forall i found,
    (has_char c s = false /\ rfind_from c i s found = found)
    \/ (has_char c s = true
        /\ exists n, rfind_from c i s found = (i + Z.of_nat n)%Z
                     /\ String.get n s = Some c).
Proof.
  induction s as [|d t IH]; intros i found; cbn [has_char rfind_from].
  - left. split; reflexivity.
  - destruct (IH (i + 1)%Z (if Ascii.eqb d c then i else found))
      as [[Hn Hr]|[Hy (n & Hr & Hg)]].
    + rewrite Hn, Hr, orb_false_r. destruct (Ascii.eqb d c) eqn:E.
      * right. split; [reflexivity|]. exists 0%nat.
        apply Ascii.eqb_eq in E. subst d. split; [lia|reflexivity].
      * left. split; reflexivity.
    + right. rewrite Hy, orb_true_r. split; [reflexivity|].
      exists (S n). rewrite Hr. split; [lia|exact Hg].
Qed.

Lemma rfind_distinct (c d : ascii) (s : string) :
  c <> d -> has_char c s = true -> has_char d s = true -> rfind c s <> rfind d s.
Proof.
  intros Hne Hc Hd. unfold rfind.
  destruct (rfind_from_spec c s 0 (-1)) as [[Hc' _]|[_ (n & Hn & Hgn)]]; [congruence|].
  destruct (rfind_from_spec d s 0 (-1)) as [[Hd' _]|[_ (m & Hm & Hgm)]]; [congruence|].
  rewrite Hn, Hm. intros E. assert (n = m) by lia. subst m. congruence.
Qed.

Lemma parse_numeric_str_britimp_eq (val : string) :
  parse_numeric_str_britimp val = parse_numeric_str val.
Proof.
  unfold parse_numeric_str_britimp, parse_numeric_str.
  destruct (is_empty _); [reflexivity|].
  set (s := replace " " "" _).
  destruct (contains "," s) eqn:Ec; [|reflexivity].
  destruct (contains "." s) eqn:Ed; [|reflexivity].
  cbn [andb]. rewrite contains_single in Ec, Ed.
  pose proof (rfind_distinct "." "," s ltac:(discriminate) Ed Ec) as Hne.
  rewrite Z.gtb_ltb.
  destruct (Z.ltb_spec (rfind "," s) (rfind "." s)) as [H|H];
    destruct (Z.ltb_spec (rfind "." s) (rfind "," s)) as [H'|H']; try lia.
  - rewrite !replace_single.
    rewrite (replace_char_absent "," "." (replace_char "," "" s))
      by apply has_char_removed.
    reflexivity.
  - reflexivity.
Qed.

Lemma parse_numeric_britimp_eq (val : cell) :
  parse_numeric_britimp val = parse_numeric val.
Proof. destruct val; try reflexivity. apply parse_numeric_str_britimp_eq. Qed.

Lemma parse_numeric_v4_str (s : string) :
  parse_numeric_v4 (PyStr s) = parse_numeric (PyStr s).
Proof. reflexivity. Qed.

(** ** Claims on the numeric normaliser *)

(** C1.  [parse_numeric] reads ["1.234,56"] as 1234.56, ["(100)"] as -100,
    ["1,5"] as 1.5 and ["1,500"] as 1500, and in general a lone comma
    between two runs of digits as the decimal point exactly when at most
    two digits follow it and as a thousands separator otherwise; the three
    scripts agree on every string. *)
Theorem parse_numeric_comma_rule (a b : string)
    (Ha : all_chars is_digit a = true) (Hb : all_chars is_digit b = true) :
  parse_numeric (PyStr "1.234,56") = Some 1234.56%Q
  /\ parse_numeric (PyStr "(100)") = Some (-100)%Q
  /\ parse_numeric (PyStr "1,5") = Some 1.5%Q
  /\ parse_numeric (PyStr "1,500") = Some 1500%Q
  /\ parse_numeric (PyStr (a ++ "," ++ b)) =
     (if (String.length b <=? 2)%nat then float (a ++ "." ++ b) else float (a ++ b))
  /\ (forall s, parse_numeric_v4 (PyStr s) = parse_numeric (PyStr s))
  /\ (forall s, parse_numeric_britimp (PyStr s) = parse_numeric (PyStr s)).
Proof.
  split; [vm_compute; reflexivity|].
  split; [vm_compute; reflexivity|].
  split; [vm_compute; reflexivity|].
  split; [vm_compute; reflexivity|].
  split; [exact (parse_numeric_str_lone_comma a b Ha Hb)|].
  split; [intros s; reflexivity|].
  intros s. apply parse_numeric_str_britimp_eq.
Qed.

Lemma parse_numeric_comma_rule_witness :
  parse_numeric (PyStr "12,34") = float "12.34"
  /\ parse_numeric (PyStr "12,345") = float "12345".
Proof.
  split.
  - exact (proj1 (proj2 (proj2 (proj2 (proj2
      (parse_numeric_comma_rule "12" "34" eq_refl eq_refl)))))).
  - exact (proj1 (proj2 (proj2 (proj2 (proj2
      (parse_numeric_comma_rule "12" "345" eq_refl eq_refl)))))).
Defined.

(** C9.  A string whose digits are grouped by two or more points and that
    has no comma, such as ["1.000.000"], is not parsed: [parse_numeric]
    gives [None] for it, in [consolidado_v3.py] and [consolidado_v4.py]
    alike. *)
Theorem parse_numeric_dot_grouped_is_None (val : string)
    (Hcomma : has_char "," val = false) (Hdots : (2 <= count_char "." val)%nat) :
  parse_numeric (PyStr val) = None
  /\ parse_numeric_v4 (PyStr val) = None.
Proof.
  split; exact (parse_numeric_str_dot_grouped val Hcomma Hdots).
Qed.

Lemma parse_numeric_dot_grouped_is_None_witness :
  parse_numeric (PyStr "1.000.000") = None
  /\ parse_numeric_v4 (PyStr "1.000.000") = None.
Proof.
  apply (parse_numeric_dot_grouped_is_None "1.000.000").
  - reflexivity.
  - vm_compute. lia.
Defined.

(** ** The authenticity gate *)

Lemma existsb_orb {A} (f g : A -> bool) (l : list A) :
  existsb (fun x => f x || g x) l = existsb f l || existsb g l.
Proof.
  induction l as [|x l IH]; [reflexivity|]. cbn [existsb]. rewrite IH.
  destruct (f x), (g x), (existsb f l), (existsb g l); reflexivity.
Qed.

(** *** Normalised names *)

Lemma remove_accents_other (c : ascii) (t : string) :
  Ascii.eqb c xC3 = false -> remove_accents (String c t) = String c (remove_accents t).
Proof. intros H. cbn [remove_accents]. rewrite H. reflexivity. Qed.

Lemma upper_other (c : ascii) (t : string) :
  Ascii.eqb c xC3 = false -> upper (String c t) = String (upper_ascii c) (upper t).
Proof. intros H. cbn [upper]. rewrite H. reflexivity. Qed.

Lemma remove_accents_pair (d : ascii) (t : string) :
  remove_accents (String xC3 (String d t)) =
  match base_letter d with
  | Some b => String b (remove_accents t)
  | None => String xC3 (String d (remove_accents t))
  end.
Proof. reflexivity. Qed.

Lemma upper_pair (d : ascii) (t : string) :
  upper (String xC3 (String d t)) = String xC3 (String (upper_latin1 d) (upper t)).
Proof. reflexivity. Qed.

Lemma upper_ascii_facts (c : ascii) :
  Ascii.eqb c xC3 = false ->
  Ascii.eqb (upper_ascii c) xC3 = false /\ upper_ascii (upper_ascii c) = upper_ascii c.
Proof. by_bits c; intros H; try discriminate H; split; reflexivity. Qed.

Lemma base_letter_ascii (d b : ascii) :
  base_letter d = Some b -> Ascii.eqb b xC3 = false.
Proof.
  by_bits d; intros H; vm_compute in H;
    first [discriminate H | injection H as <-; reflexivity].
Qed.

Lemma base_letter_none (d : ascii) :
  base_letter d = None ->
  base_letter (upper_latin1 d) = None /\ upper_latin1 (upper_latin1 d) = upper_latin1 d.
Proof.
  by_bits d; intros H; vm_compute in H; try discriminate H;
    split; vm_compute; reflexivity.
Qed.

(** Normalising a name twice is normalising it once. *)
Lemma normalise_idem (s : string) :
  upper (remove_accents (upper (remove_accents s))) = upper (remove_accents s).
Proof.
  induction s as [| c | c d t IH1 IH2] using string_ind2.
  - reflexivity.
  - destruct (Ascii.eqb c xC3) eqn:E.
    + apply Ascii.eqb_eq in E. subst c. reflexivity.
    + destruct (upper_ascii_facts c E) as [E1 E2].
      rewrite (remove_accents_other c "" E). cbn [remove_accents].
      rewrite (upper_other c "" E). cbn [upper].
      rewrite (remove_accents_other _ "" E1). cbn [remove_accents].
      rewrite (upper_other _ "" E1). cbn [upper]. rewrite E2. reflexivity.
  - destruct (Ascii.eqb c xC3) eqn:E.
    + apply Ascii.eqb_eq in E. subst c. rewrite remove_accents_pair.
      destruct (base_letter d) as [b|] eqn:B.
      * pose proof (base_letter_ascii d b B) as Eb.
        destruct (upper_ascii_facts b Eb) as [E1 E2].
        rewrite (upper_other b _ Eb), (remove_accents_other _ _ E1),
          (upper_other _ _ E1), E2, IH1. reflexivity.
      * destruct (base_letter_none d B) as [B1 B2].
        rewrite upper_pair, remove_accents_pair, B1, upper_pair, B2, IH1.
        reflexivity.
    + destruct (upper_ascii_facts c E) as [E1 E2].
      rewrite (remove_accents_other c _ E), (upper_other c _ E),
        (remove_accents_other _ _ E1), (upper_other _ _ E1), E2, IH2.
      reflexivity.
Qed.

(** The dispatchers normalise the name and hand the result to
    [name_matches], which normalises it again: the second pass changes
    nothing. *)
Lemma name_matches_normalised (fname : string) (groups : list (list string)) :
  name_matches (upper (remove_accents fname)) groups = name_matches fname groups.
Proof. unfold name_matches. rewrite normalise_idem. reflexivity. Qed.

Ltac eval_tokens :=
  repeat match goal with
         | |- context [upper (remove_accents (String ?c ?s))] =>
             let v := eval vm_compute in (upper (remove_accents (String c s))) in
             change (upper (remove_accents (String c s))) with v
         end.

Ltac by_tokens up :=
  repeat (match goal with
          | |- context [contains ?x up] => destruct (contains x up)
          end;
          cbn [andb orb negb existsb forallb is_inventory_tipo is_statement_tipo]);
  try reflexivity.

(** [looks] of [consolidado_v4.py] is [name_matches] over the same
    groups. *)
Lemma pipeline_looks (fname : string) :
  forallb (fun grp => existsb (fun tok => contains tok (upper (remove_accents fname))) grp)
          pipeline_groups
  = name_matches (upper (remove_accents fname)) pipeline_groups.
Proof.
  rewrite name_matches_normalised. unfold name_matches, pipeline_groups.
  cbn [forallb existsb]. eval_tokens. reflexivity.
Qed.

(** The dispatcher of [britimp_consolidado_v4.py] answers with one of six
    tags or nothing. *)
Lemma dispatch_tipo_range (fname text_content : string) :
  In (dispatch_tipo fname text_content)
     [Some "EC_BULTO_ATM"; Some "EC_EFECT_ATM"; Some "EC_EFECT_BCO";
      Some "INV_BILLETES_ATM"; Some "INV_BILLETES_BCO";
      Some "INV_BILLETES_UNKNOWN"; None].
Proof.
  unfold dispatch_tipo.
  repeat match goal with
         | |- context [if ?b then _ else _] => destruct b
         end; cbn [In]; tauto.
Qed.

(** The gate of [britimp_consolidado_v4.py] as a chain of four tests. *)
Lemma detect_cliente_itau_chain (doc : document) (tipo : option string) :
  detect_cliente_itau doc tipo =
  if mentions_competitor doc then false
  else if mentions_itau doc then true
  else if is_statement_tipo tipo
          && name_matches (name doc)
               [["EC"]; ["ATM"; "BCO"; "BANCO"; "BULTO"]; ["EFECTIVO"; "BILLETE"]]
  then false
  else is_inventory_tipo tipo && name_matches (name doc) inventory_groups.
Proof.
  unfold detect_cliente_itau, mentions_competitor, mentions_itau, mentions_bank.
  rewrite existsb_orb.
  destruct (existsb _ _ || existsb _ _); [reflexivity|].
  destruct (contains "ITAU" _ || contains "ITAU" _); [reflexivity|].
  destruct tipo as [t|]; cbn [is_statement_tipo is_inventory_tipo andb].
  - destruct (contains "EC_" t && _); [reflexivity|].
    unfold inventory_groups.
    destruct (contains "INV_" t && _); reflexivity.
  - reflexivity.
Qed.

(** The gates of [consolidado_v3.py] and [consolidado_v4.py] in the same
    form; neither looks at a type. *)
Lemma detect_cliente_itau_v3_chain (doc : document) (hint : option (list (list string))) :
  detect_cliente_itau_v3 doc hint =
  if mentions_bank (upper (unir_letras_separadas (preview doc))) then false
  else if explicit_itau_text doc then true
  else name_matches (upper (remove_accents (name doc)))
         (match hint with Some (g :: gs) => g :: gs | _ => pipeline_groups end)
       && negb (mentions_bank (upper (remove_accents (name doc)))).
Proof.
  unfold detect_cliente_itau_v3, explicit_itau_text.
  destruct (mentions_bank _); [reflexivity|].
  destruct (search_CLIENTE_ITAU _); [reflexivity|].
  destruct (contains "BANCO ITAU" _); [reflexivity|].
  destruct (contains "CLIENTE: BANCO ITAU" _); reflexivity.
Qed.

(** A statement tag is not an inventory tag. *)
Lemma statement_not_inventory (fname text_content : string) :
  is_statement_tipo (dispatch_tipo fname text_content) = true ->
  is_inventory_tipo (dispatch_tipo fname text_content) = false.
Proof.
  pose proof (dispatch_tipo_range fname text_content) as H. cbn [In] in H.
  destruct H as [H|[H|[H|[H|[H|[H|[H|[]]]]]]]]; rewrite <- H;
    vm_compute; congruence.
Qed.

(** A suffix of a text holds no word the text does not hold. *)
Lemma contains_tail (n : string) (c : ascii) (t : string) :
  contains n t = true -> contains n (String c t) = true.
Proof. intros H. cbn [contains]. rewrite H. apply orb_true_r. Qed.

Lemma contains_drop (n : string) (k : nat) (s : string) :
  contains n (drop k s) = true -> contains n s = true.
Proof.
  revert s. induction k as [|k IH]; intros s H; [destruct s; exact H|].
  destruct s as [|c t]; [exact H|]. cbn [drop] in H.
  apply contains_tail, IH, H.
Qed.

Lemma contains_drop_cont (n s : string) :
  contains n (drop_cont s) = true -> contains n s = true.
Proof.
  induction s as [|c t IH]; intros H; [exact H|].
  cbn [drop_cont] in H. destruct (is_cont c); [|exact H].
  apply contains_tail, IH, H.
Qed.

Lemma prefix_contains (n s : string) :
  String.prefix n s = true -> contains n s = true.
Proof. intros H. destruct s; cbn [contains]; rewrite H; reflexivity. Qed.

Lemma gap_then_contains (k : nat) (n : string) :
  forall s, gap_then k n s = true -> contains n s = true.
Proof.
  induction k as [|k IH]; intros s H; cbn [gap_then] in H.
  - rewrite orb_false_r in H. apply prefix_contains, H.
  - apply orb_true_iff in H as [H|H]; [apply prefix_contains, H|].
    destruct s as [|c t]; [discriminate H|].
    destruct (is_upper c || is_digit c); [discriminate H|].
    apply contains_tail, contains_drop_cont, IH, H.
Qed.

(** The explicit mention the gates of [consolidado_v3.py] and
    [consolidado_v4.py] look for has the word [ITAU] in it. *)
Lemma search_CLIENTE_ITAU_contains (s : string) :
  search_CLIENTE_ITAU s = true -> contains "ITAU" s = true.
Proof.
  induction s as [|c t IH]; intros H.
  - cbn [search_CLIENTE_ITAU] in H. rewrite orb_false_r in H.
    apply andb_true_iff in H as [H _]. discriminate H.
  - cbn [search_CLIENTE_ITAU] in H. apply orb_true_iff in H as [H|H].
    + apply andb_true_iff in H as [_ H].
      apply (contains_drop "ITAU" 7), (gap_then_contains 10), H.
    + apply contains_tail, IH, H.
Qed.

Lemma explicit_needs_ITAU (doc : document) :
  mentions_itau doc = false -> explicit_itau_text doc = false.
Proof.
  unfold mentions_itau, explicit_itau_text. intros H.
  apply orb_false_iff in H as [H _].
  destruct (search_CLIENTE_ITAU _) eqn:E1;
    [apply search_CLIENTE_ITAU_contains in E1; congruence|].
  destruct (contains "BANCO ITAU" _) eqn:E2;
    [apply (contains_trans "ITAU" "BANCO ITAU") in E2; [congruence|reflexivity]|].
  destruct (contains "CLIENTE: BANCO ITAU" _) eqn:E3;
    [apply (contains_trans "ITAU" "CLIENTE: BANCO ITAU") in E3;
     [congruence|reflexivity]|].
  reflexivity.
Qed.

(** C3, as amended.  For a document that names the institution neither in
    its text nor in its file name.  In [britimp_consolidado_v4.py]: when
    the dispatcher classifies it as an inventory, its file name has the
    inventory tokens and no competing institution is named, the gate
    accepts it; when the dispatcher classifies it as a statement, the gate
    rejects it.  In [consolidado_v3.py] and [consolidado_v4.py], whose
    gates are not given the type: when no competing institution is named,
    the gate accepts the document exactly when its file name has one token
    of each of the three pipeline groups, whatever the type the dispatcher
    gives it. *)
Theorem gate_asymmetry_britimp (doc : document)
    (Hitau : mentions_itau doc = false) :
  (is_inventory_tipo (dispatch_tipo (name doc) (preview doc)) = true ->
   name_matches (name doc) inventory_groups = true ->
   mentions_competitor doc = false ->
   gate doc = true)
  /\ (is_statement_tipo (dispatch_tipo (name doc) (preview doc)) = true ->
      gate doc = false)
  /\ (mentions_competitor doc = false ->
      detect_cliente_itau_v3 doc None
      = name_matches (upper (remove_accents (name doc))) pipeline_groups
      /\ detect_itau_v4 doc = detect_cliente_itau_v3 doc None).
Proof.
  split; [|split].
  - unfold gate. rewrite detect_cliente_itau_chain, Hitau.
    intros Hinv Hname Hcomp. rewrite Hcomp, Hinv, Hname.
    destruct (is_statement_tipo _) eqn:E; [|reflexivity].
    apply statement_not_inventory in E. congruence.
  - unfold gate. rewrite detect_cliente_itau_chain, Hitau.
    intros Hst. rewrite Hst, (statement_not_inventory _ _ Hst).
    destruct (mentions_competitor doc); [reflexivity|].
    destruct (name_matches _ _); reflexivity.
  - intros Hcomp. pose proof (explicit_needs_ITAU doc Hitau) as Hexp.
    unfold mentions_competitor in Hcomp. apply orb_false_iff in Hcomp as [Ht Hn].
    assert (E3 : detect_cliente_itau_v3 doc None
                 = name_matches (upper (remove_accents (name doc))) pipeline_groups).
    { rewrite detect_cliente_itau_v3_chain, Ht, Hexp, Hn. apply andb_true_r. }
    split; [exact E3|]. rewrite E3.
    unfold explicit_itau_text in Hexp.
    apply orb_false_iff in Hexp as [Hexp H3].
    apply orb_false_iff in Hexp as [H1 H2].
    unfold detect_itau_v4. rewrite Ht, H1, H2, H3. cbn [orb].
    apply pipeline_looks.
Qed.

Lemma gate_asymmetry_britimp_witness :
  gate {| name := "INV_BILLETES_ATM.pdf"; preview := "" |} = true
  /\ gate {| name := "EC_EFECTIVO_ATM.xlsx"; preview := "" |} = false
  /\ detect_cliente_itau_v3 {| name := "EC_EFECTIVO_ATM.xlsx"; preview := "" |} None
     = name_matches (upper (remove_accents "EC_EFECTIVO_ATM.xlsx")) pipeline_groups.
Proof.
  split; [|split].
  - apply (proj1 (gate_asymmetry_britimp
                    {| name := "INV_BILLETES_ATM.pdf"; preview := "" |} eq_refl));
      reflexivity.
  - apply (proj1 (proj2 (gate_asymmetry_britimp
                    {| name := "EC_EFECTIVO_ATM.xlsx"; preview := "" |} eq_refl)));
      reflexivity.
  - apply (proj2 (proj2 (gate_asymmetry_britimp
                    {| name := "EC_EFECTIVO_ATM.xlsx"; preview := "" |} eq_refl)));
      reflexivity.
Defined.

(** C3 does not hold as stated.  The gates of [consolidado_v3.py] and of
    [consolidado_v4.py] accept a statement-named document that does not
    name the institution; and the gate of [britimp_consolidado_v4.py]
    rejects a document whose file name has the inventory tokens when the
    dispatcher, which tries the statement tokens first, classifies it as a
    statement. *)
Lemma gate_asymmetry_counterexample :
  let statement := {| name := "EC_EFECTIVO_ATM.xlsx"; preview := "" |} in
  let inventory := {| name := "INV_BILLETES_ATM_EFECTIVO.pdf"; preview := "" |} in
  (is_statement_tipo (dispatch_tipo_v3 (name statement)) = true
   /\ is_statement_tipo (dispatch_tipo_v4 (name statement)) = true
   /\ mentions_itau statement = false
   /\ explicit_itau_text statement = false
   /\ detect_cliente_itau_v3 statement None = true
   /\ detect_itau_v4 statement = true)
  /\ (name_matches (name inventory) inventory_groups = true
      /\ mentions_itau inventory = false
      /\ mentions_competitor inventory = false
      /\ dispatch_tipo (name inventory) (preview inventory) = Some "EC_EFECT_ATM"
      /\ gate inventory = false).
Proof. vm_compute. repeat split; reflexivity. Qed.

(** C5, as amended.  A document that names a competing institution in its
    text or in its file name is rejected by the gate of
    [britimp_consolidado_v4.py] whatever its type, and by the gate of
    [consolidado_v3.py] unless the text names the institution explicitly;
    when the competing name is in the text, the three gates reject it. *)
Theorem gate_rejects_competitor (doc : document)
    (Hcomp : mentions_competitor doc = true) :
  (forall tipo, detect_cliente_itau doc tipo = false)
  /\ (explicit_itau_text doc = false ->
      forall hint, detect_cliente_itau_v3 doc hint = false)
  /\ (mentions_bank (upper (unir_letras_separadas (preview doc))) = true ->
      (forall hint, detect_cliente_itau_v3 doc hint = false)
      /\ detect_itau_v4 doc = false).
Proof.
  repeat split.
  - intros tipo. rewrite detect_cliente_itau_chain, Hcomp. reflexivity.
  - intros Hexp hint. rewrite detect_cliente_itau_v3_chain, Hexp.
    unfold mentions_competitor in Hcomp.
    destruct (mentions_bank (upper (unir_letras_separadas _))); [reflexivity|].
    cbn [orb] in Hcomp. rewrite Hcomp. apply andb_false_r.
  - intros hint. rewrite detect_cliente_itau_v3_chain.
    match goal with H : mentions_bank _ = true |- _ => rewrite H end. reflexivity.
  - unfold detect_itau_v4.
    match goal with H : mentions_bank _ = true |- _ => rewrite H end. reflexivity.
Qed.

Lemma gate_rejects_competitor_witness :
  detect_cliente_itau
    {| name := "INV_ATM_BILLETES_ATLAS.xlsx"; preview := "" |}
    (Some "INV_BILLETES_ATM") = false
  /\ detect_cliente_itau_v3
       {| name := "INV_ATM_BILLETES_ATLAS.xlsx"; preview := "" |} None = false.
Proof.
  pose proof (gate_rejects_competitor
                {| name := "INV_ATM_BILLETES_ATLAS.xlsx"; preview := "" |}
                eq_refl) as [H1 [H2 _]].
  split; [apply H1|apply H2; reflexivity].
Defined.

(** C5 does not hold as stated.  A file name with the three-group shape and
    a competing name in it: [consolidado_v3.py] accepts the document when
    its text names the institution explicitly, and [consolidado_v4.py],
    which never searches the file name for competing names, accepts it
    whatever the text says short of a competing name. *)
Lemma gate_rejects_competitor_counterexample :
  let named := {| name := "INV_ATM_BILLETES_ATLAS.xlsx";
                  preview := "CLIENTE: BANCO ITAU" |} in
  let silent := {| name := "INV_ATM_BILLETES_ATLAS.xlsx"; preview := "" |} in
  name_matches (upper (remove_accents (name named))) pipeline_groups = true
  /\ mentions_competitor named = true
  /\ detect_cliente_itau_v3 named None = true
  /\ mentions_competitor silent = true
  /\ detect_itau_v4 silent = true.
Proof. vm_compute. repeat split; reflexivity. Qed.

(** ** The statement extractors *)

(** Case analysis on the tests and matches of a loop body met in
    hypothesis [H]. *)
Ltac split_ifs H :=
  repeat match type of H with
         | context [if ?b then _ else _] => destruct b eqn:?
         end.

Ltac split_cases H :=
  repeat match type of H with
         | context [if ?b then _ else _] => destruct b eqn:?
         | context [match ?x with _ => _ end] => destruct x eqn:?
         end.

(** *** The generic parser of [consolidado_v3.py] *)

(** What a pass through the loop body can do: it appends at most one
    record, and only for a row with date, branch and receipt in an open
    section. *)
Lemma generic_step_emits (clasif origin : string) (sh : sheet) (st st' : scan)
    (r : row) (out : list registro) (rec : registro) :
  generic_step clasif origin sh st r = Next st' out -> In rec out ->
  exists sec fecha sucursal recibo tail,
    sc_section st = Some sec
    /\ data_cells to_ddmmyyyy r = Some (fecha, sucursal, recibo, tail)
    /\ rec = generic_record clasif origin sh (sc_motivo st) sec fecha sucursal recibo tail
    /\ out = [rec] /\ st' = st.
Proof.
  unfold generic_step. intros H Hin.
  split_cases H; try discriminate H; injection H as <- <-;
    try (destruct Hin; fail).
  destruct Hin as [<-|[]]. subst.
  eexists _, _, _, _, _. repeat split; eassumption.
Qed.

(** The loop never gives [motivo] a value: it starts as [None] and every
    pass leaves it so. *)
Lemma generic_step_motivo (clasif origin : string) (sh : sheet) (st st' : scan)
    (r : row) (out : list registro) :
  sc_motivo st = None -> generic_step clasif origin sh st r = Next st' out ->
  sc_motivo st' = None.
Proof.
  unfold generic_step. intros Hm H.
  split_cases H; try discriminate H; injection H as <- <-;
    first [reflexivity | exact Hm].
Qed.

Lemma scan_rows_generic_reason (clasif origin : string) (sh : sheet) (rows : list row) :
  forall st rec,
    sc_motivo st = None ->
    In rec (scan_rows (generic_step clasif origin sh) st rows) ->
    MOTIVO_MOVIMIENTO rec = "INGRESOS" \/ MOTIVO_MOVIMIENTO rec = "EGRESOS".
Proof.
  induction rows as [|r rows IH]; intros st rec Hm Hin; [destruct Hin|].
  cbn [scan_rows] in Hin.
  destruct (generic_step clasif origin sh st r) as [st' out|] eqn:Hstep;
    [|destruct Hin].
  apply in_app_or in Hin as [Hin|Hin].
  - destruct (generic_step_emits _ _ _ _ _ _ _ _ Hstep Hin)
      as (sec & fecha & suc & recibo & tail & _ & _ & -> & _ & _).
    cbn [generic_record MOTIVO_MOVIMIENTO]. rewrite Hm.
    destruct sec; [left|right]; reflexivity.
  - exact (IH st' rec (generic_step_motivo _ _ _ _ _ _ _ Hm Hstep) Hin).
Qed.

(** Whatever the sheets hold, the reason of a record of the generic parser
    is the name of its section: no row can make it anything else. *)
Lemma generic_reason_is_section (origin clasif : string) (sheets : list sheet)
    (rec : registro) :
  In rec (parse_ec_efect_xlsx_generic origin clasif sheets) ->
  MOTIVO_MOVIMIENTO rec = "INGRESOS" \/ MOTIVO_MOVIMIENTO rec = "EGRESOS".
Proof.
  unfold parse_ec_efect_xlsx_generic. intros Hin.
  apply in_flat_map in Hin as (sh & _ & Hin).
  exact (scan_rows_generic_reason clasif origin sh _ scan0 rec eq_refl Hin).
Qed.

(** C4.  On the five-row sheet the generic statement parser emits two
    records, one per dated row, but the second carries the reason
    [INGRESOS], not [MOTIVO X]: the row with the single cell is passed
    over for want of a date and nothing assigns [motivo].  This is so in
    [consolidado_v3.py] and in [consolidado_v4.py], with the amounts held
    as text or as numbers. *)
Theorem generic_parser_five_rows (origin clasif agencia : string)
    (fecha_archivo : option string) :
  let as_text := {| sh_agencia := agencia; sh_fecha_archivo := fecha_archivo;
                    sh_rows := five_rows |} in
  let as_numbers := {| sh_agencia := agencia; sh_fecha_archivo := fecha_archivo;
                       sh_rows := five_rows_numeric |} in
  map (fun r => (FECHA_OPERACION r, MOTIVO_MOVIMIENTO r))
      (parse_ec_efect_xlsx_generic origin clasif [as_text])
  = [("01/01/2024", "INGRESOS"); ("02/01/2024", "INGRESOS")]
  /\ map (fun r => (FECHA_OPERACION r, MOTIVO_MOVIMIENTO r))
         (parse_ec_efect_xlsx_generic origin clasif [as_numbers])
     = [("01/01/2024", "INGRESOS"); ("02/01/2024", "INGRESOS")]
  /\ (exists recs, parse_ec_xlsx_generic_v4 origin clasif [as_text] = Ok recs
        /\ map (fun r => (FECHA_OPERACION r, MOTIVO_MOVIMIENTO r)) recs
           = [("01/01/2024", "INGRESOS"); ("02/01/2024", "INGRESOS")]).
Proof.
  cbv zeta. split; [|split].
  - vm_compute. reflexivity.
  - vm_compute. reflexivity.
  - eexists. split; vm_compute; reflexivity.
Qed.

(** The sibling parser for bundles does keep the reason: on the same sheet
    with numeric tails its second record carries [MOTIVO X]. *)
Lemma bultos_parser_keeps_reason :
  map (fun r => (FECHA_OPERACION r, MOTIVO_MOVIMIENTO r))
      (parse_ec_bultos_atm_xlsx "f.xlsx"
         [{| sh_agencia := ""; sh_fecha_archivo := None;
             sh_rows :=
               [ [PyStr "INGRESOS"; NaN; NaN; NaN; NaN];
                 [PyStr "01/01/2024"; PyStr "ASU"; PyStr "123456"; PyInt 1; PyInt 1000000];
                 [PyStr "MOTIVO X"; NaN; NaN; NaN; NaN];
                 [PyStr "02/01/2024"; PyStr "ASU"; PyStr "654321"; PyInt 2; PyInt 2000000];
                 [PyStr "TOTAL"; NaN; NaN; NaN; NaN] ] |}])
  = [("01/01/2024", "INGRESOS"); ("02/01/2024", "MOTIVO X")].
Proof. vm_compute. reflexivity. Qed.

(** *** Amounts *)

Lemma generic_step_v4_emits (clasif origin : string) (sh : sheet)
    (sec sec' : option section) (started started' : bool)
    (r : row) (out : list registro) (rec : registro) :
  generic_step_v4 clasif origin sh sec started r = Ok (NextV4 sec' started' out) ->
  In rec out ->
  exists s fecha suc recibo tail,
    sec = Some s
    /\ data_cells_v4 r = Ok (Some (fecha, suc, recibo, tail))
    /\ rec = generic_record_v4 clasif origin sh s fecha suc recibo tail
    /\ out = [rec].
Proof.
  unfold generic_step_v4, bind. intros H Hin.
  split_cases H; try discriminate H; inversion H; subst;
    try (destruct Hin; fail).
  destruct Hin as [<-|[]].
  eexists _, _, _, _, _. repeat split; eassumption.
Qed.

(** [max_list] gives an element of the list that none exceeds. *)
Lemma max_list_spec (xs : list Q) :
  forall x, In (max_list x xs) (x :: xs)
            /\ forall y, In y (x :: xs) -> (y <= max_list x xs)%Q.
Proof.
  unfold max_list. induction xs as [|z xs IH]; intros x; cbn [fold_left].
  - split; [left; reflexivity|]. intros y [<-|[]]. apply Qle_refl.
  - destruct (Qle_bool z x) eqn:E.
    + destruct (IH x) as [Hin Hle]. split.
      * destruct Hin as [<-|Hin]; [left; reflexivity|right; right; exact Hin].
      * intros y [<-|[<-|Hy]].
        -- apply Hle. left; reflexivity.
        -- apply Qle_bool_iff in E. apply Qle_trans with x; [exact E|].
           apply Hle. left; reflexivity.
        -- apply Hle. right; exact Hy.
    + destruct (IH z) as [Hin Hle]. split.
      * right. exact Hin.
      * assert (Hxz : (x <= z)%Q).
        { destruct (Qlt_le_dec x z) as [Hlt|Hge]; [apply Qlt_le_weak, Hlt|].
          apply Qle_bool_iff in Hge. congruence. }
        intros y [<-|[<-|Hy]].
        -- apply Qle_trans with z; [exact Hxz|]. apply Hle. left; reflexivity.
        -- apply Hle. left; reflexivity.
        -- apply Hle. right; exact Hy.
Qed.

Lemma bco_step_emits (origin : string) (sh : sheet_bco) (st st' : scan_bco)
    (r : row) (out : list registro_bco) (rec : registro_bco) :
  bco_step origin sh st r = NextBco st' out -> In rec out ->
  exists fecha r1 sucursal r2 recibo tail x xs,
    find_fecha to_ddmmyyyy_britimp r = Some (fecha, r1)
    /\ find_sucursal r1 = Some (sucursal, r2)
    /\ find_recibo r2 = Some (recibo, tail)
    /\ collect_nums parse_numeric_britimp tail = x :: xs
    /\ bco_IMPORTE rec = max_list x xs
    /\ out = [rec].
Proof.
  unfold bco_step. intros H Hin.
  split_cases H; try discriminate H; inversion H; subst;
    try (destruct Hin; fail).
  destruct Hin as [<-|[]].
  match goal with
  | E : match find_recibo ?r2 with Some _ => _ | None => _ end = (_, ?t) |- _ =>
      destruct (find_recibo r2) as [[rcb tl]|] eqn:Er; inversion E; subst
  end.
  - eexists _, _, _, _, _, _, _, _.
    repeat split; try eassumption; try reflexivity.
  - match goal with E : collect_nums _ [] = _ :: _ |- _ => discriminate E end.
Qed.

(** The bundle count read from the number before the last. *)
Lemma bultos_of_snoc (front : list Q) (bn m : Q) :
  bultos_of (front ++ [bn; m]) = if is_integer bn then Some (int_of bn) else None.
Proof. unfold bultos_of. rewrite rev_app_distr. reflexivity. Qed.

Lemma bultos_of_short (nums : list Q) :
  (List.length nums < 2)%nat -> bultos_of nums = None.
Proof.
  destruct nums as [|a [|b l]]; [reflexivity|reflexivity|].
  cbn [List.length]. lia.
Qed.

Lemma last_snoc2 (front : list Q) (bn m d : Q) : List.last (front ++ [bn; m]) d = m.
Proof.
  change (front ++ [bn; m])%list with (front ++ [bn] ++ [m])%list.
  rewrite app_assoc. apply last_last.
Qed.

(** C6, as amended.  For every row from which the generic statement parser
    emits a record, the row has a date, a branch and a receipt and the
    amount emitted is the last of the numbers parsed from the cells that
    follow, 0 when none parses.  The number before the last, when there is
    one, is read as the bundle count: [consolidado_v3.py] keeps it when it
    is whole and leaves the count empty otherwise, [consolidado_v4.py]
    rounds it, as it rounds the amount, and counts 0 when there is none.
    The bank-statement parser of [britimp_consolidado_v4.py] emits the
    largest of the numbers parsed from the cells after the receipt. *)
Theorem generic_amount_is_last (clasif origin : string) (r : row) :
  (forall sh st st' out rec,
      generic_step clasif origin sh st r = Next st' out -> In rec out ->
      exists fecha sucursal recibo tail,
        data_cells to_ddmmyyyy r = Some (fecha, sucursal, recibo, tail)
        /\ out = [rec]
        /\ MONTO rec = List.last (collect_nums parse_numeric tail) 0%Q
        /\ (forall front bn m,
              collect_nums parse_numeric tail = (front ++ [bn; m])%list ->
              MONTO rec = m
              /\ BULTOS rec = if is_integer bn then Some (int_of bn) else None)
        /\ ((List.length (collect_nums parse_numeric tail) < 2)%nat ->
            BULTOS rec = None))
  /\ (forall sh sec sec' started started' out4 rec4,
        generic_step_v4 clasif origin sh sec started r
          = Ok (NextV4 sec' started' out4) ->
        In rec4 out4 ->
        exists fecha sucursal recibo tail,
          data_cells_v4 r = Ok (Some (fecha, sucursal, recibo, tail))
          /\ MONTO rec4
             = inject_Z (round_half_even
                           (List.last (collect_nums parse_numeric_v4 tail) 0%Q))
          /\ (forall front bn m,
                collect_nums parse_numeric_v4 tail = (front ++ [bn; m])%list ->
                MONTO rec4 = inject_Z (round_half_even m)
                /\ BULTOS rec4 = Some (round_half_even bn))
          /\ ((List.length (collect_nums parse_numeric_v4 tail) < 2)%nat ->
              BULTOS rec4 = Some 0%Z))
  /\ (forall shb stb stb' outb recb,
        bco_step origin shb stb r = NextBco stb' outb -> In recb outb ->
        exists fecha r1 sucursal r2 recibo tail,
          find_fecha to_ddmmyyyy_britimp r = Some (fecha, r1)
          /\ find_sucursal r1 = Some (sucursal, r2)
          /\ find_recibo r2 = Some (recibo, tail)
          /\ In (bco_IMPORTE recb) (collect_nums parse_numeric_britimp tail)
          /\ (forall y, In y (collect_nums parse_numeric_britimp tail) ->
                        (y <= bco_IMPORTE recb)%Q)).
Proof.
  split; [|split].
  - intros sh st st' out rec Hstep Hin.
    destruct (generic_step_emits _ _ _ _ _ _ _ _ Hstep Hin)
      as (sec & fecha & suc & recibo & tail & _ & Hc & -> & Ho & _).
    exists fecha, suc, recibo, tail.
    cbn [generic_record MONTO BULTOS]. unfold last_or_zero.
    split; [exact Hc|]. split; [exact Ho|]. split; [reflexivity|]. split.
    + intros front bn m E. rewrite E, last_snoc2, bultos_of_snoc. split; reflexivity.
    + apply bultos_of_short.
  - intros sh sec sec' started started' out4 rec4 H4 Hin4.
    destruct (generic_step_v4_emits _ _ _ _ _ _ _ _ _ _ H4 Hin4)
      as (s & fecha & suc & recibo & tail & _ & Hc & -> & _).
    exists fecha, suc, recibo, tail.
    cbn [generic_record_v4 MONTO BULTOS]. unfold last_or_zero, as_int.
    split; [exact Hc|]. split; [reflexivity|]. split.
    + intros front bn m E. rewrite E, last_snoc2, rev_app_distr. split; reflexivity.
    + intros Hlen.
      destruct (collect_nums parse_numeric_v4 tail) as [|a [|b l]];
        [reflexivity|reflexivity|cbn [List.length] in Hlen; lia].
  - intros shb stb stb' outb recb Hb Hinb.
    destruct (bco_step_emits _ _ _ _ _ _ _ Hb Hinb)
      as (fecha & r1 & suc & r2 & recibo & tail & x & xs & Hf & Hs & Hr & Hn & -> & _).
    exists fecha, r1, suc, r2, recibo, tail.
    split; [exact Hf|]. split; [exact Hs|]. split; [exact Hr|].
    rewrite Hn. apply max_list_spec.
Qed.

Lemma generic_amount_is_last_witness :
  MONTO (generic_record "ATM" "f.xlsx" (bare_sheet []) None INGRESOS
           "01/01/2024" "ASU" "123456" [PyInt 500; PyInt 3]) = 3%Q
  /\ BULTOS (generic_record "ATM" "f.xlsx" (bare_sheet []) None INGRESOS
               "01/01/2024" "ASU" "123456" [PyInt 500; PyInt 3]) = Some 500%Z.
Proof.
  destruct (proj1 (generic_amount_is_last "ATM" "f.xlsx" row_500_3)
              (bare_sheet []) in_ingresos in_ingresos _ _
              eq_refl (or_introl eq_refl))
    as (fecha & suc & recibo & tail & Hc & _ & _ & Hb & _).
  injection Hc as <- <- <- <-.
  exact (Hb [] 500%Q 3%Q eq_refl).
Defined.

(** C6 does not hold as stated.  A row with the numbers 500 and 3 after its
    receipt is accepted by the generic parser of [consolidado_v3.py], which
    emits the amount 3 (and 500 as the bundle count); the largest of the
    numbers parsed is 500. *)
Lemma generic_amount_counterexample :
  let recs := parse_ec_efect_xlsx_generic "f.xlsx" "ATM"
                [bare_sheet [[PyStr "INGRESOS"]; row_500_3]] in
  data_cells to_ddmmyyyy row_500_3
    = Some ("01/01/2024", "ASU", "123456", [PyInt 500; PyInt 3])
  /\ collect_nums parse_numeric [PyInt 500; PyInt 3] = [500; 3]%Q
  /\ max_list 500 [3%Q] = 500%Q
  /\ map MONTO recs = [3%Q]
  /\ map BULTOS recs = [Some 500%Z]
  /\ ~ (3 == 500)%Q.
Proof.
  cbv zeta. repeat split; try (vm_compute; reflexivity).
  intros H. vm_compute in H. discriminate H.
Qed.

(** *** The bundle parser of [consolidado_v3.py] *)

Lemma nonzero_iff (q : Q) : nonzero q = true <-> ~ (q == 0)%Q.
Proof.
  unfold nonzero. rewrite negb_true_iff, <- not_true_iff_false, Qeq_bool_iff.
  reflexivity.
Qed.

Lemma nonzero_pair_iff (a b : Q) :
  nonzero a || nonzero b = true <-> ~ (a == 0)%Q \/ ~ (b == 0)%Q.
Proof. rewrite orb_true_iff, !nonzero_iff. reflexivity. Qed.

Lemma nonzero_pair_false (a b : Q) :
  nonzero a || nonzero b = false <-> (a == 0)%Q /\ (b == 0)%Q.
Proof.
  rewrite orb_false_iff. unfold nonzero. rewrite !negb_false_iff, !Qeq_bool_iff.
  reflexivity.
Qed.

(** The four-way test of the parser, pair by pair. *)
Lemma bultos_records_pairs (origin : string) (sh : sheet) (motivo : option string)
    (sec : section) (fecha sucursal recibo : string) (tail : row) :
  let nums := collect_nums parse_numeric tail in
  bultos_records origin sh motivo sec fecha sucursal recibo tail =
  ((if nonzero (nth 0 nums 0%Q) || nonzero (nth 1 nums 0%Q)
    then [add_row origin sh motivo sec fecha sucursal recibo "PYG"
            (nth 0 nums 0%Q) (nth 1 nums 0%Q)]
    else [])
   ++ (if nonzero (nth 2 nums 0%Q) || nonzero (nth 3 nums 0%Q)
       then [add_row origin sh motivo sec fecha sucursal recibo "USD"
               (nth 2 nums 0%Q) (nth 3 nums 0%Q)]
       else []))%list.
Proof.
  cbv zeta. unfold bultos_records, pad4.
  destruct (nonzero (nth 0 _ _) || nonzero (nth 1 _ _));
    destruct (nonzero (nth 2 _ _) || nonzero (nth 3 _ _)); reflexivity.
Qed.

(** A plain row inside a section that is not a reason line goes to the
    extraction of its cells. *)
Lemma bultos_step_plain (origin : string) (sh : sheet) (st : scan) (r : row)
    (sec : section) :
  sc_started st = true -> sc_section st = Some sec ->
  plain_row r = true -> motivo_cell r = None ->
  bultos_step origin sh st r =
  match data_cells to_ddmmyyyy r with
  | Some (fecha, sucursal, recibo, tail) =>
      Next st (bultos_records origin sh (sc_motivo st) sec fecha sucursal recibo tail)
  | None => Next st []
  end.
Proof.
  intros Hst Hsec Hplain Hmot. unfold plain_row in Hplain.
  repeat (apply andb_true_iff in Hplain as [Hplain ?]).
  repeat match goal with H : negb _ = true |- _ => apply negb_true_iff in H end.
  unfold bultos_step.
  repeat match goal with H : ?b = false |- context [?b] => rewrite H end.
  cbn [andb]. rewrite Hst, Hsec, Hmot. reflexivity.
Qed.

(** C7, as amended.  In an open section, a row that is neither a keyword
    line nor a reason line and has date, branch and receipt gives its
    numbers, in order and with 0 for each one missing of the first four,
    the roles (Guarani bundles, Guarani amount, Dollar bundles, Dollar
    amount).  The records emitted are the PYG record, when the Guarani
    pair is not zero, followed by the USD record, when the Dollar pair is
    not zero, and nothing else: each at most once, PYG first, so at most
    two records and none exactly when the four are zero.  A row without
    date, branch or receipt emits nothing. *)
Theorem bultos_currency_pairs (origin : string) (sh : sheet) (st : scan) (r : row)
    (sec : section)
    (Hstarted : sc_started st = true) (Hsec : sc_section st = Some sec)
    (Hplain : plain_row r = true) (Hmot : motivo_cell r = None) :
  match data_cells to_ddmmyyyy r with
  | None => bultos_step origin sh st r = Next st []
  | Some (fecha, sucursal, recibo, tail) =>
      let nums := collect_nums parse_numeric tail in
      let bgs := nth 0 nums 0%Q in
      let mgs := nth 1 nums 0%Q in
      let busd := nth 2 nums 0%Q in
      let musd := nth 3 nums 0%Q in
      let pyg := add_row origin sh (sc_motivo st) sec fecha sucursal recibo "PYG" bgs mgs in
      let usd := add_row origin sh (sc_motivo st) sec fecha sucursal recibo "USD" busd musd in
      exists out,
        bultos_step origin sh st r = Next st out
        /\ out = ((if nonzero bgs || nonzero mgs then [pyg] else [])
                  ++ (if nonzero busd || nonzero musd then [usd] else []))%list
        /\ (In pyg out <-> ~ (bgs == 0)%Q \/ ~ (mgs == 0)%Q)
        /\ (In usd out <-> ~ (busd == 0)%Q \/ ~ (musd == 0)%Q)
        /\ (forall rec, In rec out -> rec = pyg \/ rec = usd)
        /\ (List.length out <= 2)%nat
        /\ (out = [] <-> (bgs == 0 /\ mgs == 0 /\ busd == 0 /\ musd == 0)%Q)
  end.
Proof.
  rewrite (bultos_step_plain origin sh st r sec Hstarted Hsec Hplain Hmot).
  destruct (data_cells to_ddmmyyyy r) as [[[[fecha suc] recibo] tail]|];
    [|reflexivity].
  cbv zeta. eexists. split; [reflexivity|].
  rewrite bultos_records_pairs. cbv zeta. split; [reflexivity|].
  set (bgs := nth 0 _ _). set (mgs := nth 1 _ _).
  set (busd := nth 2 _ _). set (musd := nth 3 _ _).
  set (pyg := add_row _ _ _ _ _ _ _ "PYG" _ _).
  set (usd := add_row _ _ _ _ _ _ _ "USD" _ _).
  assert (Hne : pyg <> usd).
  { intros E. apply (f_equal MONEDA) in E. discriminate E. }
  pose proof (nonzero_pair_iff bgs mgs) as Hg.
  pose proof (nonzero_pair_iff busd musd) as Hu.
  pose proof (nonzero_pair_false bgs mgs) as Hg0.
  pose proof (nonzero_pair_false busd musd) as Hu0.
  destruct (nonzero bgs || nonzero mgs); destruct (nonzero busd || nonzero musd);
    cbn [app In List.length]; repeat split;
    try tauto; try lia;
    try (intros [E|[E|[]]]; tauto);
    try (intros [E|[]]; try tauto; exfalso; first [apply Hne; exact E | apply Hne; symmetry; exact E]);
    try (intros rec [E|[E|[]]]; subst; tauto);
    try (intros rec [E|[]]; subst; tauto);
    try (intros rec []);
    try discriminate;
    try (intros; exfalso; tauto).
Qed.

Lemma bultos_currency_pairs_witness :
  exists out,
    bultos_step "f.xlsx" (bare_sheet []) in_ingresos row_3_1000 = Next in_ingresos out
    /\ out = [add_row "f.xlsx" (bare_sheet []) None INGRESOS
                "01/01/2024" "ASU" "123456" "PYG" 3 1000]
    /\ (In (add_row "f.xlsx" (bare_sheet []) None INGRESOS
              "01/01/2024" "ASU" "123456" "PYG" 3 1000) out
        <-> ~ (3 == 0)%Q \/ ~ (1000 == 0)%Q)
    /\ (In (add_row "f.xlsx" (bare_sheet []) None INGRESOS
              "01/01/2024" "ASU" "123456" "USD" 0 0) out
        <-> ~ (0 == 0)%Q \/ ~ (0 == 0)%Q)
    /\ (forall rec, In rec out ->
          rec = add_row "f.xlsx" (bare_sheet []) None INGRESOS
                  "01/01/2024" "ASU" "123456" "PYG" 3 1000
          \/ rec = add_row "f.xlsx" (bare_sheet []) None INGRESOS
                     "01/01/2024" "ASU" "123456" "USD" 0 0)
    /\ (List.length out <= 2)%nat
    /\ (out = [] <-> (3 == 0 /\ 1000 == 0 /\ 0 == 0 /\ 0 == 0)%Q).
Proof.
  exact (bultos_currency_pairs "f.xlsx" (bare_sheet []) in_ingresos row_3_1000
           INGRESOS eq_refl eq_refl eq_refl eq_refl).
Defined.

(** C7 does not hold as stated.  A row with only two numbers after its
    receipt, 3 and 1000, is not skipped: the two missing slots count as 0
    and one PYG record is emitted, with 3 bundles and the amount 1000. *)
Lemma bultos_short_tail_counterexample :
  let recs := parse_ec_bultos_atm_xlsx "f.xlsx"
                [bare_sheet [[PyStr "INGRESOS"]; row_3_1000]] in
  data_cells to_ddmmyyyy row_3_1000
    = Some ("01/01/2024", "ASU", "123456", [PyInt 3; PyInt 1000])
  /\ List.length (collect_nums parse_numeric [PyInt 3; PyInt 1000]) = 2%nat
  /\ map (fun r => (MONEDA r, BULTOS r, MONTO r)) recs
     = [("PYG", Some 3%Z, 1000%Q)].
Proof. cbv zeta. repeat split; vm_compute; reflexivity. Qed.

(** ** The consolidated writer *)

(** No two types share an output file. *)
Lemma OUTPUT_FILES_inj (t t' f : string) :
  dict_get OUTPUT_FILES t = Some f -> dict_get OUTPUT_FILES t' = Some f -> t = t'.
Proof.
  unfold OUTPUT_FILES. cbn [dict_get].
  repeat match goal with
         | |- context [String.eqb ?a ?b] => destruct (String.eqb_spec a b)
         end;
    intros H H'; try discriminate; try congruence;
    rewrite <- H' in H; discriminate H.
Qed.

Section WriterFacts.
Variable cols_of : list string -> dataframe -> list string.


(** An empty frame, or a type without output file, changes nothing. *)
Lemma write_empty (tipo : string) (df : dataframe) (st : run_state) :
  empty df = true -> write_consolidated_with cols_of tipo df st = (None, st).
Proof.
  intros H. unfold write_consolidated_with. rewrite H.
  destruct (dict_get OUTPUT_FILES tipo); reflexivity.
Qed.

Lemma write_unknown (tipo : string) (df : dataframe) (st : run_state) :
  dict_get OUTPUT_FILES tipo = None ->
  write_consolidated_with cols_of tipo df st = (None, st).
Proof. intros H. unfold write_consolidated_with. rewrite H. reflexivity. Qed.

(** The first write of a type in a run: the file is replaced by a header
    line and the rows, and the type is marked. *)
Lemma write_first (tipo fname : string) (df : dataframe) (st : run_state) :
  dict_get OUTPUT_FILES tipo = Some fname -> empty df = false ->
  tipo ∉ RUN_WRITTEN st ->
  files (write_with cols_of tipo df st) !! fname
    = Some (HeaderLine (cols_for cols_of tipo df) :: data_lines (cols_for cols_of tipo df) df)
  /\ tipo ∈ RUN_WRITTEN (write_with cols_of tipo df st).
Proof.
  intros Hf He Hn. unfold write_with, write_consolidated_with. rewrite Hf, He.
  rewrite bool_decide_eq_false_2 by exact Hn.
  cbn [negb snd log_info files RUN_WRITTEN write_file to_csv app].
  split; [apply lookup_insert_eq|set_solver].
Qed.

(** A later write of the type: the rows are appended, without header. *)
Lemma write_later (tipo fname : string) (df : dataframe) (st : run_state) :
  dict_get OUTPUT_FILES tipo = Some fname -> empty df = false ->
  tipo ∈ RUN_WRITTEN st ->
  files (write_with cols_of tipo df st) !! fname
    = Some (default [] (files st !! fname) ++ data_lines (cols_for cols_of tipo df) df)%list
  /\ tipo ∈ RUN_WRITTEN (write_with cols_of tipo df st).
Proof.
  intros Hf He Hn. unfold write_with, write_consolidated_with. rewrite Hf, He.
  rewrite bool_decide_eq_true_2 by exact Hn.
  cbn [negb snd log_info files RUN_WRITTEN write_file to_csv app].
  split; [apply lookup_insert_eq|exact Hn].
Qed.

(** A write of another type leaves the file and the mark of this one. *)
Lemma write_other (tipo fname t : string) (df : dataframe) (st : run_state) :
  dict_get OUTPUT_FILES tipo = Some fname -> t <> tipo ->
  files (write_with cols_of t df st) !! fname = files st !! fname
  /\ (tipo ∈ RUN_WRITTEN (write_with cols_of t df st) <-> tipo ∈ RUN_WRITTEN st).
Proof.
  intros Hf Hne. unfold write_with, write_consolidated_with.
  destruct (dict_get OUTPUT_FILES t) as [f'|] eqn:Hf'; [|split; reflexivity].
  destruct (empty df); [split; reflexivity|].
  assert (Hff : f' <> fname).
  { intros ->. apply Hne. exact (OUTPUT_FILES_inj _ _ _ Hf' Hf). }
  destruct (bool_decide (t ∈ RUN_WRITTEN st));
    cbn [negb snd log_info files RUN_WRITTEN write_file]; split.
  - rewrite lookup_insert_ne by exact Hff. reflexivity.
  - reflexivity.
  - rewrite lookup_insert_ne, lookup_delete_ne by exact Hff. reflexivity.
  - rewrite elem_of_union, elem_of_singleton. split; [|tauto].
    intros [H|H]; [exact H|congruence].
Qed.

(** The file of a type after the writes of a run, from any state. *)
Lemma run_writes_from (tipo fname : string) (batches : list (string * dataframe)) :
  dict_get OUTPUT_FILES tipo = Some fname ->
  forall st,
    files (run_writes (write_with cols_of) batches st) !! fname =
    match batches_of tipo batches with
    | [] => files st !! fname
    | df1 :: _ =>
        Some ((if bool_decide (tipo ∈ RUN_WRITTEN st)
               then default [] (files st !! fname)
               else [HeaderLine (cols_for cols_of tipo df1)])
              ++ flat_map (fun df => data_lines (cols_for cols_of tipo df) df)
                   (batches_of tipo batches))%list
    end.
Proof.
  intros Hf. induction batches as [|[t df] rest IH]; intros st; [reflexivity|].
  unfold run_writes in *. cbn [fold_left fst snd].
  unfold batches_of in *. cbn [List.filter fst snd].
  destruct (String.eqb_spec t tipo) as [->|Hne]; cbn [andb].
  - destruct (empty df) eqn:He; cbn [negb].
    + unfold write_with at 2. rewrite write_empty by exact He. cbn [snd]. apply IH.
    + cbn [map snd flat_map]. rewrite IH.
      destruct (decide (tipo ∈ RUN_WRITTEN st)) as [Hin|Hnin].
      * destruct (write_later tipo fname df st Hf He Hin) as [Hfile Hmark].
        rewrite Hfile, (bool_decide_eq_true_2 _ Hin).
        rewrite (bool_decide_eq_true_2 _ Hmark). cbv [from_option id].
        destruct (map snd _); cbn [flat_map];
          rewrite ?app_nil_r, <- ?app_assoc; reflexivity.
      * destruct (write_first tipo fname df st Hf He Hnin) as [Hfile Hmark].
        rewrite Hfile, (bool_decide_eq_false_2 _ Hnin).
        rewrite (bool_decide_eq_true_2 _ Hmark). cbv [from_option id].
        destruct (map snd _); cbn [flat_map app];
          rewrite ?app_nil_r; reflexivity.
  - destruct (write_other tipo fname t df st Hf Hne) as [Hfile Hmark].
    rewrite IH, Hfile.
    rewrite (bool_decide_ext _ _ Hmark). reflexivity.
Qed.

End WriterFacts.

Lemma no_header_in_data (cols : list string) (df : dataframe) :
  List.filter is_header (data_lines cols df) = [].
Proof.
  unfold data_lines. induction (data df) as [|r rs IH]; [reflexivity|exact IH].
Qed.

Lemma no_header_in_batches (cols : dataframe -> list string) (dfs : list dataframe) :
  List.filter is_header (flat_map (fun df => data_lines (cols df) df) dfs) = [].
Proof.
  induction dfs as [|df dfs IH]; [reflexivity|].
  cbn [flat_map]. rewrite List.filter_app, no_header_in_data, IH. reflexivity.
Qed.

(** In [consolidado_v3.py] and [consolidado_v4.py] the file of a type ends
    a run with one header line, that of the first batch written, followed
    by the rows of every batch in the order met, whatever the file held
    before the run; a type without batch keeps its file. *)
Lemma writer_run_one_header (cols_of : list string -> dataframe -> list string)
    (tipo fname : string) (batches : list (string * dataframe))
    (fs : gmap string (list csv_line)) (lg : list string) :
  dict_get OUTPUT_FILES tipo = Some fname ->
  let cols := cols_for cols_of tipo in
  let st' := run_writes (write_with cols_of) batches (fresh_run fs lg) in
  match batches_of tipo batches with
  | [] => files st' !! fname = fs !! fname
  | df1 :: _ =>
      exists rows,
        files st' !! fname = Some (HeaderLine (cols df1) :: rows)
        /\ rows = flat_map (fun df => data_lines (cols df) df) (batches_of tipo batches)
        /\ count_headers (HeaderLine (cols df1) :: rows) = 1%nat
  end.
Proof.
  intros Hf cols st'. unfold st'.
  rewrite (run_writes_from cols_of tipo fname batches Hf).
  destruct (batches_of tipo batches) as [|df1 dfs] eqn:E; [reflexivity|].
  eexists. split; [reflexivity|]. split; [reflexivity|].
  unfold count_headers. cbn [List.filter is_header].
  rewrite (no_header_in_batches cols). reflexivity.
Qed.

(** C2.  The writer of [britimp_consolidado_v4.py] opens the file for
    appending on its first write too: a file left by an earlier run of the
    same day is kept, and the header and rows of the new run come after
    it, where the writers of [consolidado_v3.py] and [consolidado_v4.py]
    start the file again. *)
Theorem britimp_writer_keeps_old_file (tipo fname : string) (df : dataframe)
    (old : list csv_line) (fs : gmap string (list csv_line)) (lg : list string)
    (Hf : dict_get OUTPUT_FILES tipo = Some fname)
    (He : empty df = false)
    (Hold : fs !! fname = Some old) :
  files (write_consolidated_britimp tipo df (fresh_run fs lg)) !! fname
    = Some (old ++ HeaderLine (columns df) :: data_lines (columns df) df)%list
  /\ count_headers (old ++ HeaderLine (columns df) :: data_lines (columns df) df)
     = S (count_headers old)
  /\ files (write_v3 tipo df (fresh_run fs lg)) !! fname
     = Some (HeaderLine (cols_v3 (default [] (dict_get wanted_cols_by_tipo tipo)) df)
             :: data_lines (cols_v3 (default [] (dict_get wanted_cols_by_tipo tipo)) df) df)
  /\ files (write_v4 tipo df (fresh_run fs lg)) !! fname
     = Some (HeaderLine (cols_v4 (default [] (dict_get wanted_cols_by_tipo tipo)) df)
             :: data_lines (cols_v4 (default [] (dict_get wanted_cols_by_tipo tipo)) df) df).
Proof.
  assert (Hn : tipo ∉ RUN_WRITTEN (fresh_run fs lg)) by (cbn; set_solver).
  split; [|split; [|split]].
  - unfold write_consolidated_britimp. rewrite Hf, He.
    rewrite (bool_decide_eq_false_2 _ Hn).
    cbn [negb log_info files RUN_WRITTEN write_file to_csv app fresh_run].
    rewrite lookup_insert_eq, Hold. reflexivity.
  - unfold count_headers. rewrite List.filter_app, length_app.
    cbn [List.filter is_header]. rewrite no_header_in_data. cbn [List.length]. lia.
  - exact (proj1 (write_first cols_v3 tipo fname df _ Hf He Hn)).
  - exact (proj1 (write_first cols_v4 tipo fname df _ Hf He Hn)).
Qed.

Lemma britimp_writer_keeps_old_file_witness :
  files (write_consolidated_britimp "EC_EFECT_BCO"
           {| columns := ["MONTO"]; data := [["2"]] |}
           (fresh_run {["BRITIMP_EFECTBANCO.csv" :=
                          [HeaderLine ["MONTO"]; DataLine ["1"]]]} []))
    !! "BRITIMP_EFECTBANCO.csv"
  = Some [HeaderLine ["MONTO"]; DataLine ["1"]; HeaderLine ["MONTO"]; DataLine ["2"]].
Proof.
  exact (proj1 (britimp_writer_keeps_old_file "EC_EFECT_BCO" "BRITIMP_EFECTBANCO.csv"
                  {| columns := ["MONTO"]; data := [["2"]] |}
                  [HeaderLine ["MONTO"]; DataLine ["1"]]
                  {["BRITIMP_EFECTBANCO.csv" := [HeaderLine ["MONTO"]; DataLine ["1"]]]}
                  [] eq_refl eq_refl (lookup_singleton_eq _ _))).
Defined.

(** C10.  A write with an empty frame returns at once: files, marks and
    log stay as they were, so the next write of the type that has rows is
    still the first one of the run, which starts the file again with a
    header. *)
Theorem write_consolidated_empty_noop (tipo : string) (df : dataframe)
    (st : run_state) (Hempty : empty df = true) :
  write_consolidated tipo df st = (None, st)
  /\ write_consolidated_v4 tipo df st = (None, st)
  /\ (forall fname df',
        dict_get OUTPUT_FILES tipo = Some fname -> empty df' = false ->
        tipo ∉ RUN_WRITTEN st ->
        let wanted := default [] (dict_get wanted_cols_by_tipo tipo) in
        files (write_v3 tipo df' (write_v3 tipo df st)) !! fname
          = Some (HeaderLine (cols_v3 wanted df') :: data_lines (cols_v3 wanted df') df')
        /\ files (write_v4 tipo df' (write_v4 tipo df st)) !! fname
           = Some (HeaderLine (cols_v4 wanted df') :: data_lines (cols_v4 wanted df') df')).
Proof.
  split; [exact (write_empty cols_v3 tipo df st Hempty)|].
  split; [exact (write_empty cols_v4 tipo df st Hempty)|].
  intros fname df' Hf He Hn wanted. unfold write_v3, write_v4.
  unfold write_with at 2 4.
  rewrite (write_empty cols_v3 tipo df st Hempty).
  rewrite (write_empty cols_v4 tipo df st Hempty). cbn [snd].
  split.
  - exact (proj1 (write_first cols_v3 tipo fname df' st Hf He Hn)).
  - exact (proj1 (write_first cols_v4 tipo fname df' st Hf He Hn)).
Qed.

Lemma write_consolidated_empty_noop_witness :
  write_consolidated "EC_EFECT_BCO" {| columns := ["MONTO"]; data := [] |}
    (fresh_run ∅ [])
  = (None, fresh_run ∅ []).
Proof.
  exact (proj1 (write_consolidated_empty_noop "EC_EFECT_BCO"
                  {| columns := ["MONTO"]; data := [] |} (fresh_run ∅ []) eq_refl)).
Defined.

(** ** The text previewer *)

(** Outside the spreadsheet branch the previewer of [consolidado_v3.py]
    cannot raise: every call there sits in a [try] whose handler returns
    the empty string. *)
Lemma pdf_preview_total (after_page : string)
    (reader : result (list (result (option string)))) :
  exists s, pdf_preview after_page reader = Ok s
            /\ (raises (let! pages := reader in pdf_text after_page pages) = true
                -> s = "").
Proof.
  unfold pdf_preview, try_except.
  destruct (let! pages := reader in pdf_text after_page pages) as [s|].
  - exists s. split; [reflexivity|discriminate].
  - exists "". split; reflexivity.
Qed.

Lemma file_text_preview_soft_outside_excel (src : source) (n : nat) :
  is_excel (suffix src) = false ->
  (exists s, file_text_preview src n = Ok s)
  /\ (exists s, file_text_preview_v4 src n = Ok s)
  /\ (exists s, file_text_preview_britimp true src n = Ok s).
Proof.
  intros H. unfold file_text_preview, file_text_preview_v4, file_text_preview_britimp.
  rewrite H. repeat split.
  - destruct (if String.eqb (suffix src) ".pdf" then PdfReader src else None) as [rd|].
    + destruct (pdf_preview_total NL rd) as (s & Hs & _). exists s. exact Hs.
    + destruct (read_bytes_text src) as [s|]; eexists; reflexivity.
  - destruct (if String.eqb (suffix src) ".pdf" then PdfReader src else None) as [rd|].
    + destruct (pdf_preview_total NL rd) as (s & Hs & _). exists s. exact Hs.
    + destruct (read_text src) as [s|]; eexists; reflexivity.
  - destruct (if String.eqb (suffix src) ".pdf" then PdfReader src else None) as [rd|].
    + destruct (pdf_preview_total "" rd) as (s & Hs & _). exists s. exact Hs.
    + eexists; reflexivity.
Qed.

(** C8.  For a workbook that [pd.ExcelFile] cannot open with any engine,
    the previewers of [consolidado_v3.py] and [consolidado_v4.py] raise:
    the second attempt, made in the handler of the first, is not protected.
    The previewer of [britimp_consolidado_v4.py] returns the empty string
    there, but raises in its turn when a sheet of an opened workbook cannot
    be read. *)
Theorem file_text_preview_raises (src : source) (max_rows : nat)
    (Hexcel : is_excel (suffix src) = true)
    (Hcorrupt : forall engine, ExcelFile src engine = Raise) :
  file_text_preview src max_rows = Raise
  /\ file_text_preview_v4 src max_rows = Raise
  /\ (forall xlrd, file_text_preview_britimp xlrd src max_rows = Ok "")
  /\ (forall xlrd, file_text_preview_britimp xlrd corrupt_sheet_xlsx max_rows = Raise).
Proof.
  unfold file_text_preview, file_text_preview_v4, file_text_preview_britimp,
    read_excel_any_version.
  rewrite Hexcel, !Hcorrupt. cbn [try_except bind].
  split; [reflexivity|]. split; [reflexivity|]. split.
  - intros xlrd.
    destruct (if String.eqb (suffix src) ".xlsx" then Some "openpyxl"
              else if xlrd then Some "xlrd" else None);
      rewrite ?Hcorrupt; reflexivity.
  - intros xlrd. reflexivity.
Qed.

Lemma file_text_preview_raises_witness :
  file_text_preview corrupt_xlsx 40 = Raise
  /\ file_text_preview_v4 corrupt_xlsx 40 = Raise.
Proof.
  pose proof (file_text_preview_raises corrupt_xlsx 40 eq_refl (fun _ => eq_refl))
    as [H1 [H2 _]].
  split; [exact H1|exact H2].
Defined.

(** ** More on the numeric normaliser *)

Import CharClass.

Lemma number_char_num (c : ascii) : number_char c = true -> num_char c = true.
Proof. by_bits c. Qed.

Lemma number_char_plain (c : ascii) : number_char c = true -> plain_char c = true.
Proof. by_bits c. Qed.

Lemma digit_or_point_number (c : ascii) : digit_or_point c = true -> number_char c = true.
Proof. unfold number_char. intros ->. reflexivity. Qed.

Lemma figure_char_num (c : ascii) : figure_char c = true -> num_char c = true.
Proof. by_bits c. Qed.

Lemma figure_char_plain (c : ascii) : figure_char c = true -> plain_char c = true.
Proof. by_bits c. Qed.

Lemma digit_figure (c : ascii) : is_digit c = true -> figure_char c = true.
Proof. by_bits c. Qed.

Lemma digit_point (c : ascii) : is_digit c = true -> digit_or_point c = true.
Proof. unfold digit_or_point. intros ->. reflexivity. Qed.

(** A string of such characters comes out of the first cleaning steps as
    it went in. *)
Lemma first_steps_id (p : ascii -> bool) (s : string) :
  (forall c, p c = true -> num_char c = true) ->
  (forall c, p c = true -> plain_char c = true) ->
  all_chars p s = true ->
  strip (replace NBSP " " (NUM_SANITIZER_sub s)) = s.
Proof.
  intros Hnum Hplain Hs.
  rewrite sanitize_id by exact (all_chars_impl _ _ _ Hnum Hs).
  unfold NBSP. rewrite replace_absent.
  - apply strip_plain. exact (all_chars_impl _ _ _ Hplain Hs).
  - apply (all_chars_no_char p); [|exact Hs].
    destruct (p xC2) eqn:E; [|reflexivity]. apply Hplain in E. discriminate E.
Qed.

Lemma endswith_last (c : ascii) (x : string) :
  endswith (String c "") (x ++ String c "") = true.
Proof.
  induction x as [|d t IH].
  - cbn [String.append endswith]. rewrite String.eqb_refl. reflexivity.
  - cbn [String.append endswith]. rewrite IH. apply orb_true_r.
Qed.

Lemma drop_last_app (c : ascii) (x : string) : drop_last (x ++ String c "") = x.
Proof.
  induction x as [|d t IH]; [reflexivity|].
  cbn [String.append]. destruct t as [|e t'].
  - reflexivity.
  - change (drop_last (String d (String e t' ++ String c "")))
      with (String d (drop_last (String e t' ++ String c ""))).
    rewrite IH. reflexivity.
Qed.

(** Digits and points alone: the text goes to [float] unchanged. *)
Lemma parse_numeric_str_plain_number (s : string) :
  all_chars digit_or_point s = true -> s <> "" ->
  parse_numeric_str s = float s.
Proof.
  intros Hs Hne.
  assert (Hn : all_chars number_char s = true)
    by exact (all_chars_impl _ _ _ digit_or_point_number Hs).
  rewrite parse_numeric_str_no_comma
    by (apply (all_chars_no_char digit_or_point); [reflexivity|exact Hs]).
  unfold cleaned.
  rewrite (first_steps_id number_char s number_char_num number_char_plain Hn).
  destruct s as [|c t]; [contradiction|]. cbn [is_empty].
  assert (Hst : startswith "(" (String c t) = false).
  { unfold startswith. rewrite prefix_single. cbn [all_chars] in Hs.
    apply andb_true_iff in Hs as [Hc _]. apply Ascii.eqb_neq. intros <-.
    discriminate Hc. }
  rewrite Hst. cbn [andb].
  rewrite replace_absent
    by (apply (all_chars_no_char digit_or_point); [reflexivity|exact Hs]).
  destruct (float (String c t)); reflexivity.
Qed.

(** X1.  Parentheses negate: for a text of digits and points, the value of
    the text in parentheses is the opposite of the value of the text, and
    is missing when that of the text is. *)
Theorem parse_numeric_parentheses_negate (s : string)
    (Hs : all_chars digit_or_point s = true) (Hne : s <> "") :
  parse_numeric (PyStr ("(" ++ s ++ ")")) = option_map Qopp (parse_numeric (PyStr s)).
Proof.
  cbn [parse_numeric]. rewrite (parse_numeric_str_plain_number s Hs Hne).
  set (w := "(" ++ s ++ ")").
  assert (Hw : all_chars number_char w = true).
  { unfold w. cbn [String.append all_chars]. rewrite all_chars_app.
    rewrite (all_chars_impl _ _ _ digit_or_point_number Hs). reflexivity. }
  rewrite parse_numeric_str_no_comma
    by (apply (all_chars_no_char number_char); [reflexivity|exact Hw]).
  unfold cleaned.
  rewrite (first_steps_id number_char w number_char_num number_char_plain Hw).
  assert (Hneg : startswith "(" w && endswith ")" w = true).
  { unfold w, startswith. cbn [String.append]. rewrite prefix_single.
    cbn [Ascii.eqb Bool.eqb andb]. cbn [endswith].
    rewrite (endswith_last ")" s). apply orb_true_r. }
  rewrite Hneg.
  assert (Hsl : slice_1_m1 w = s).
  { unfold w. cbn [String.append slice_1_m1]. apply drop_last_app. }
  rewrite Hsl.
  rewrite (strip_plain s)
    by exact (all_chars_impl _ _ _ number_char_plain
                (all_chars_impl _ _ _ digit_or_point_number Hs)).
  rewrite replace_absent
    by (apply (all_chars_no_char digit_or_point); [reflexivity|exact Hs]).
  unfold w. cbn [String.append is_empty]. reflexivity.
Qed.

Lemma parse_numeric_parentheses_negate_witness :
  parse_numeric (PyStr "(12.5)") = option_map Qopp (parse_numeric (PyStr "12.5")).
Proof.
  apply (parse_numeric_parentheses_negate "12.5"); [reflexivity|discriminate].
Defined.

Lemma cut_point_at (a b : string) :
  has_char "." a = false -> cut_point (a ++ String "." b) = (a, Some b).
Proof.
  induction a as [|d t IH]; [reflexivity|].
  cbn [has_char String.append cut_point].
  intros [Hd Ht]%orb_false_iff. rewrite Hd, (IH Ht). reflexivity.
Qed.

Lemma digits_have_no (c : ascii) (s : string) :
  is_digit c = false -> all_chars is_digit s = true -> has_char c s = false.
Proof. intros Hc Hs. exact (all_chars_no_char is_digit c s Hc Hs). Qed.

Lemma float_head_not_sign (c : ascii) (t : string) :
  digit_or_point c = true -> float (String c t) = unsigned_float (String c t).
Proof.
  intros Hc. rewrite float_cases.
  assert (Ascii.eqb c "-" = false) as -> by (apply Ascii.eqb_neq; intros ->; discriminate).
  assert (Ascii.eqb c "+" = false) as -> by (apply Ascii.eqb_neq; intros ->; discriminate).
  reflexivity.
Qed.

(** [float] of digits, a point and digits. *)
Lemma float_decimal (a b : string) :
  all_chars is_digit a = true -> all_chars is_digit b = true ->
  float (a ++ String "." b) =
  if is_empty a && is_empty b then None
  else Some (Z_of_digits (a ++ b) # pow10 (String.length b)).
Proof.
  intros Ha Hb.
  assert (Hu : unsigned_float (a ++ String "." b) =
               if is_empty a && is_empty b then None
               else Some (Z_of_digits (a ++ b) # pow10 (String.length b))).
  { unfold unsigned_float.
    rewrite cut_point_at by (apply digits_have_no; [reflexivity|exact Ha]).
    rewrite Ha, Hb. cbn [andb].
    destruct (is_empty a && is_empty b); reflexivity. }
  destruct a as [|c t].
  - cbn [String.append] in *. rewrite float_head_not_sign by reflexivity. exact Hu.
  - cbn [String.append] in *. rewrite float_head_not_sign; [exact Hu|].
    cbn [all_chars] in Ha. apply andb_true_iff in Ha as [Hc _].
    apply digit_point, Hc.
Qed.

(** X2.  One point between digits is always the decimal point, never a
    thousands separator: ["1.234"] is 1.234, where ["1,234"] is 1234. *)
Theorem parse_numeric_point_is_decimal (a b : string)
    (Ha : all_chars is_digit a = true) (Hb : all_chars is_digit b = true)
    (Hne : is_empty a && is_empty b = false) :
  parse_numeric (PyStr (a ++ "." ++ b))
  = Some (Z_of_digits (a ++ b) # pow10 (String.length b)).
Proof.
  cbn [parse_numeric]. change ("." ++ b) with (String "." b).
  rewrite parse_numeric_str_plain_number.
  - rewrite (float_decimal a b Ha Hb), Hne. reflexivity.
  - rewrite all_chars_app. cbn [all_chars].
    rewrite (all_chars_impl _ _ _ digit_point Ha).
    rewrite (all_chars_impl _ _ _ digit_point Hb). reflexivity.
  - destruct a; discriminate.
Qed.

Lemma parse_numeric_point_is_decimal_witness :
  parse_numeric (PyStr "1.234") = Some 1.234%Q
  /\ parse_numeric (PyStr "1,234") = Some 1234%Q.
Proof.
  split.
  - exact (parse_numeric_point_is_decimal "1" "234" eq_refl eq_refl eq_refl).
  - vm_compute. reflexivity.
Defined.

(** *** Two separators *)

Lemma rfind_from_absent (c : ascii) (s : string) :
  has_char c s = false -> forall i found, rfind_from c i s found = found.
Proof.
  induction s as [|d t IH]; intros H i found; [reflexivity|].
  cbn [has_char] in H. apply orb_false_iff in H as [Hd Ht].
  cbn [rfind_from]. rewrite Hd. apply IH, Ht.
Qed.

Lemma rfind_from_app (c : ascii) (x z : string) :
  forall i found,
    rfind_from c i (x ++ z) found
    = rfind_from c (i + Z.of_nat (String.length x)) z (rfind_from c i x found).
Proof.
  induction x as [|d t IH]; intros i found.
  - cbn [String.append String.length rfind_from]. rewrite Z.add_0_r. reflexivity.
  - cbn [String.append String.length rfind_from]. rewrite IH.
    f_equal. lia.
Qed.

Lemma rfind_last_occurrence (c : ascii) (x y : string) :
  has_char c y = false ->
  rfind c (x ++ String c y) = Z.of_nat (String.length x).
Proof.
  intros Hy. unfold rfind. rewrite rfind_from_app. cbn [rfind_from].
  rewrite Ascii.eqb_refl. rewrite rfind_from_absent by exact Hy. lia.
Qed.

Lemma figures_first_steps (s : string) :
  all_chars figure_char s = true -> s <> "" ->
  strip (replace NBSP " " (NUM_SANITIZER_sub s)) = s
  /\ is_empty s = false /\ startswith "(" s = false /\ replace " " "" s = s.
Proof.
  intros Hs Hne. repeat split.
  - exact (first_steps_id figure_char s figure_char_num figure_char_plain Hs).
  - destruct s; [contradiction|reflexivity].
  - unfold startswith. rewrite prefix_single. destruct s as [|c t]; [reflexivity|].
    cbn [all_chars] in Hs. apply andb_true_iff in Hs as [Hc _].
    apply Ascii.eqb_neq. intros <-. discriminate Hc.
  - apply replace_absent.
    apply (all_chars_no_char figure_char); [reflexivity|exact Hs].
Qed.

(** X3.  With a point and a comma in the text, the one that comes last is
    the decimal separator and the other is dropped: the European and the
    American writing of a number give the same value. *)
Theorem parse_numeric_last_separator_is_decimal (a b c : string)
    (Ha : all_chars is_digit a = true) (Hb : all_chars is_digit b = true)
    (Hc : all_chars is_digit c = true) :
  parse_numeric (PyStr (a ++ "." ++ b ++ "," ++ c)) = float ((a ++ b) ++ "." ++ c)
  /\ parse_numeric (PyStr (a ++ "," ++ b ++ "." ++ c)) = float ((a ++ b) ++ "." ++ c).
Proof.
  cbn [parse_numeric].
  change ("." ++ b ++ "," ++ c) with (String "." (b ++ String "," c)).
  change ("," ++ b ++ "." ++ c) with (String "," (b ++ String "." c)).
  change ("." ++ c) with (String "." c).
  pose proof (digits_have_no "." a eq_refl Ha) as Hpa.
  pose proof (digits_have_no "." b eq_refl Hb) as Hpb.
  pose proof (digits_have_no "." c eq_refl Hc) as Hpc.
  pose proof (digits_have_no "," a eq_refl Ha) as Hca.
  pose proof (digits_have_no "," b eq_refl Hb) as Hcb.
  pose proof (digits_have_no "," c eq_refl Hc) as Hcc.
  pose proof (all_chars_impl _ _ _ digit_figure Ha) as Hfa.
  pose proof (all_chars_impl _ _ _ digit_figure Hb) as Hfb.
  pose proof (all_chars_impl _ _ _ digit_figure Hc) as Hfc.
  split.
  - set (s := a ++ String "." (b ++ String "," c)).
    assert (Hs : all_chars figure_char s = true).
    { unfold s. rewrite all_chars_app. cbn [all_chars]. rewrite all_chars_app.
      cbn [all_chars]. rewrite Hfa, Hfb, Hfc. reflexivity. }
    destruct (figures_first_steps s Hs) as (H1 & H2 & H3 & H4).
    { unfold s. destruct a; discriminate. }
    unfold parse_numeric_str. rewrite H1, H2, H3. cbn [andb]. rewrite H4.
    assert (Hcomma : contains "," s = true).
    { rewrite contains_single. unfold s. rewrite has_char_app. cbn [has_char].
      rewrite has_char_app. cbn [has_char]. rewrite Ascii.eqb_refl.
      rewrite !orb_true_r. reflexivity. }
    assert (Hpoint : contains "." s = true).
    { rewrite contains_single. unfold s. rewrite has_char_app. cbn [has_char].
      rewrite Ascii.eqb_refl. apply orb_true_r. }
    rewrite Hcomma, Hpoint. cbn [andb].
    assert (Hrp : rfind "." s = Z.of_nat (String.length a)).
    { unfold s. apply rfind_last_occurrence. rewrite has_char_app. cbn [has_char].
      rewrite Hpb, Hpc. reflexivity. }
    assert (Hrc : rfind "," s
                  = Z.of_nat (String.length (a ++ String "." b))).
    { unfold s. change (String "." (b ++ String "," c))
        with (String "." b ++ String "," c).
      rewrite <- append_assoc_s. apply rfind_last_occurrence. exact Hcc. }
    rewrite Hrp, Hrc, length_append_s. cbn [String.length].
    assert ((Z.of_nat (String.length a)
             >? Z.of_nat (String.length a + S (String.length b)))%Z = false) as ->
      by (rewrite Z.gtb_ltb; apply Z.ltb_ge; lia).
    rewrite !replace_single. unfold s.
    rewrite !replace_char_app. cbn [replace_char Ascii.eqb Bool.eqb String.append].
    rewrite !replace_char_app. cbn [replace_char Ascii.eqb Bool.eqb String.append].
    rewrite !(replace_char_absent "." "") by assumption.
    rewrite !(replace_char_absent "," ".") by assumption.
    rewrite append_assoc_s.
    destruct (float _); reflexivity.
  - set (s := a ++ String "," (b ++ String "." c)).
    assert (Hs : all_chars figure_char s = true).
    { unfold s. rewrite all_chars_app. cbn [all_chars]. rewrite all_chars_app.
      cbn [all_chars]. rewrite Hfa, Hfb, Hfc. reflexivity. }
    destruct (figures_first_steps s Hs) as (H1 & H2 & H3 & H4).
    { unfold s. destruct a; discriminate. }
    unfold parse_numeric_str. rewrite H1, H2, H3. cbn [andb]. rewrite H4.
    assert (Hcomma : contains "," s = true).
    { rewrite contains_single. unfold s. rewrite has_char_app. cbn [has_char].
      rewrite Ascii.eqb_refl. apply orb_true_r. }
    assert (Hpoint : contains "." s = true).
    { rewrite contains_single. unfold s. rewrite has_char_app. cbn [has_char].
      rewrite has_char_app. cbn [has_char]. rewrite Ascii.eqb_refl.
      rewrite !orb_true_r. reflexivity. }
    rewrite Hcomma, Hpoint. cbn [andb].
    assert (Hrc : rfind "," s = Z.of_nat (String.length a)).
    { unfold s. apply rfind_last_occurrence. rewrite has_char_app. cbn [has_char].
      rewrite Hcb, Hcc. reflexivity. }
    assert (Hrp : rfind "." s
                  = Z.of_nat (String.length (a ++ String "," b))).
    { unfold s. change (String "," (b ++ String "." c))
        with (String "," b ++ String "." c).
      rewrite <- append_assoc_s. apply rfind_last_occurrence. exact Hpc. }
    rewrite Hrp, Hrc, length_append_s. cbn [String.length].
    assert ((Z.of_nat (String.length a + S (String.length b))
             >? Z.of_nat (String.length a))%Z = true) as ->
      by (rewrite Z.gtb_ltb; apply Z.ltb_lt; lia).
    rewrite !replace_single. unfold s.
    rewrite !replace_char_app. cbn [replace_char Ascii.eqb Bool.eqb String.append].
    rewrite !replace_char_app. cbn [replace_char Ascii.eqb Bool.eqb String.append].
    rewrite !(replace_char_absent "," "") by assumption.
    rewrite append_assoc_s.
    destruct (float _); reflexivity.
Qed.

Lemma parse_numeric_last_separator_is_decimal_witness :
  parse_numeric (PyStr "1.234,5") = float "1234.5"
  /\ parse_numeric (PyStr "1,234.5") = float "1234.5".
Proof.
  exact (parse_numeric_last_separator_is_decimal "1" "234" "5" eq_refl eq_refl eq_refl).
Defined.

(** *** Text around the figure *)

Lemma junk_char_facts (c : ascii) :
  junk_char c = true ->
  num_char c = false /\ Ascii.eqb c xC2 = false /\ Ascii.eqb c xA0 = false.
Proof. by_bits c; intros H; try discriminate H; repeat split. Qed.

Lemma sanitize_junk_prefix (p s : string) :
  all_chars junk_char p = true -> NUM_SANITIZER_sub (p ++ s) = NUM_SANITIZER_sub s.
Proof.
  induction p as [|c t IH]; intros H; [reflexivity|].
  cbn [all_chars] in H. apply andb_true_iff in H as [Hc Ht].
  destruct (junk_char_facts c Hc) as (Hn & H2 & _).
  cbn [String.append NUM_SANITIZER_sub]. rewrite Hn, H2. apply IH, Ht.
Qed.

Lemma sanitize_junk (p : string) :
  all_chars junk_char p = true -> NUM_SANITIZER_sub p = "".
Proof.
  intros H. rewrite <- (append_empty_r p). rewrite sanitize_junk_prefix by exact H.
  reflexivity.
Qed.

Lemma sanitize_junk_suffix (p : string) (Hp : all_chars junk_char p = true) (s : string) :
  NUM_SANITIZER_sub (s ++ p) = NUM_SANITIZER_sub s.
Proof.
  induction s as [| d | d e t IH1 IH2] using string_ind2.
  - cbn [String.append]. rewrite sanitize_junk by exact Hp. reflexivity.
  - cbn [String.append NUM_SANITIZER_sub].
    destruct (num_char d).
    + rewrite sanitize_junk by exact Hp. reflexivity.
    + destruct (Ascii.eqb d xC2).
      * destruct p as [|e p']; [reflexivity|].
        cbn [all_chars] in Hp. apply andb_true_iff in Hp as [He Hp'].
        destruct (junk_char_facts e He) as (Hn & H2 & HA).
        rewrite HA. cbn [NUM_SANITIZER_sub]. rewrite Hn, H2.
        apply sanitize_junk, Hp'.
      * apply sanitize_junk, Hp.
  - cbn [String.append NUM_SANITIZER_sub] in *.
    destruct (num_char d).
    + f_equal. exact IH2.
    + destruct (Ascii.eqb d xC2).
      * destruct (Ascii.eqb e xA0).
        -- do 2 f_equal. exact IH1.
        -- exact IH2.
      * exact IH2.
Qed.

(** X4.  What stands before and after the figure is ignored when it is made
    of ASCII characters other than digits, commas, points, the minus sign,
    parentheses and the space: a currency name or a unit does not change
    the value. *)
Theorem parse_numeric_ignores_text_around (p q s : string)
    (Hp : all_chars junk_char p = true) (Hq : all_chars junk_char q = true) :
  parse_numeric (PyStr (p ++ s ++ q)) = parse_numeric (PyStr s)
  /\ parse_numeric_britimp (PyStr (p ++ s ++ q)) = parse_numeric_britimp (PyStr s).
Proof.
  assert (H : NUM_SANITIZER_sub (p ++ s ++ q) = NUM_SANITIZER_sub s).
  { rewrite sanitize_junk_prefix by exact Hp. apply sanitize_junk_suffix, Hq. }
  split.
  - cbn [parse_numeric]. unfold parse_numeric_str. rewrite H. reflexivity.
  - cbn [parse_numeric_britimp]. unfold parse_numeric_str_britimp. rewrite H. reflexivity.
Qed.

Lemma parse_numeric_ignores_text_around_witness :
  parse_numeric (PyStr "USD 1.500,25 aprox") = Some 1500.25%Q.
Proof.
  apply (eq_trans (proj1 (parse_numeric_ignores_text_around "USD" "aprox" " 1.500,25 "
                            eq_refl eq_refl))).
  vm_compute. reflexivity.
Defined.

(** ** Names and dispatchers, further properties *)

(** X5.  In [consolidado_v3.py] and [consolidado_v4.py] a file is
    classified as an inventory exactly when its normalised name contains
    [INV]; the statement tests never take such a name. *)
Theorem dispatch_inventory_iff_INV (fname : string) :
  is_inventory_tipo (dispatch_tipo_v3 fname)
  = contains "INV" (upper (remove_accents fname))
  /\ is_inventory_tipo (dispatch_tipo_v4 fname)
     = contains "INV" (upper (remove_accents fname)).
Proof.
  split.
  - unfold dispatch_tipo_v3. rewrite !name_matches_normalised.
    unfold name_matches. cbn [forallb existsb]. eval_tokens.
    remember (upper (remove_accents fname)) as up eqn:Hup. clear Hup.
    by_tokens up.
  - unfold dispatch_tipo_v4. cbn [forallb existsb].
    remember (upper (remove_accents fname)) as up eqn:Hup. clear Hup.
    by_tokens up.
Qed.

(** X6.  In [britimp_consolidado_v4.py] the statement tests come first and
    [EC] is inside [EFECT]: a name with [EFECT] and [ATM] is a statement
    whatever else it says, an inventory of bank notes included. *)
Theorem britimp_efect_atm_is_statement (fname text_content : string)
    (He : contains "EFECT" (upper (remove_accents fname)) = true)
    (Ha : contains "ATM" (upper (remove_accents fname)) = true) :
  dispatch_tipo fname text_content
  = Some (if contains "BULTO" (upper (remove_accents fname))
          then "EC_BULTO_ATM" else "EC_EFECT_ATM").
Proof.
  assert (Hc : contains "EC" (upper (remove_accents fname)) = true)
    by (apply (contains_trans "EC" "EFECT"); [reflexivity|exact He]).
  unfold dispatch_tipo. rewrite !name_matches_normalised.
  unfold name_matches. cbn [forallb existsb]. eval_tokens.
  rewrite Hc, He, Ha. cbn [andb orb].
  destruct (contains "BULTO" _); reflexivity.
Qed.

Lemma britimp_efect_atm_is_statement_witness :
  dispatch_tipo "INV BILLETES EFECTIVO ATM.pdf" "" = Some "EC_EFECT_ATM"
  /\ dispatch_tipo_v3 "INV BILLETES EFECTIVO ATM.pdf" = Some "INV_BILLETES_ATM".
Proof.
  split.
  - exact (britimp_efect_atm_is_statement "INV BILLETES EFECTIVO ATM.pdf" ""
             eq_refl eq_refl).
  - vm_compute. reflexivity.
Defined.

(** *** Spaced letters *)

Lemma unir_go_keeps_non_spaces (s : string) :
  forall prev skip,
    replace_char " " "" (unir_go prev skip s) = replace_char " " "" s.
Proof.
  induction s as [|c t IH]; intros prev skip; [reflexivity|].
  cbn [unir_go]. destruct skip as [|k].
  - destruct (negb prev && (0 <? match_len (String c t))%nat);
      cbn [replace_char]; rewrite IH; reflexivity.
  - destruct (Ascii.eqb c " ") eqn:E.
    + cbn [replace_char]. rewrite E, IH. reflexivity.
    + cbn [replace_char]. rewrite E, IH. reflexivity.
Qed.

(** X7.  [unir_letras_separadas] deletes space characters and nothing
    else: with the spaces taken out, the text it returns is the text it was
    given. *)
Theorem unir_letras_separadas_only_deletes_spaces (texto : string) :
  replace " " "" (unir_letras_separadas texto) = replace " " "" texto.
Proof.
  rewrite !replace_single. unfold unir_letras_separadas.
  destruct (is_empty texto); [reflexivity|]. apply unir_go_keeps_non_spaces.
Qed.

(** ** Dates and ledger rows, further properties *)

Import RowClass.

Lemma digit_or_slash_plain (c : ascii) : digit_or_slash c = true -> plain_char c = true.
Proof. by_bits c; intros H; try discriminate H; reflexivity. Qed.

Lemma digit_slash (c : ascii) : is_digit c = true -> digit_or_slash c = true.
Proof. unfold digit_or_slash. intros ->. reflexivity. Qed.

Lemma split_parts_chars (s : string) :
  Forall (fun p => all_chars is_digit p = true) (split "/" s) ->
  all_chars digit_or_slash s = true.
Proof.
  induction s as [|c t IH]; [reflexivity|].
  cbn [split all_chars]. destruct (Ascii.eqb c "/") eqn:E.
  - intros H. inversion H; subst.
    unfold digit_or_slash at 1. rewrite E, orb_true_r. cbn [andb]. apply IH. assumption.
  - destruct (split "/" t) as [|p ps].
    + intros H. inversion H as [|? ? Hc _]; subst. cbn [all_chars] in Hc.
      apply andb_true_iff in Hc as [Hc _].
      rewrite (digit_slash c Hc). cbn [andb]. apply IH. constructor.
    + intros H. inversion H as [|? ? Hc Hps]; subst. cbn [all_chars] in Hc.
      apply andb_true_iff in Hc as [Hc Hp].
      rewrite (digit_slash c Hc). cbn [andb]. apply IH. constructor; assumption.
Qed.

Lemma date_shape_parts (lo hi : nat) (s : string) :
  date_shape lo hi s = true ->
  exists d m y,
    split "/" s = [d; m; y]
    /\ all_chars is_digit d = true /\ all_chars is_digit m = true
    /\ all_chars is_digit y = true
    /\ (lo <= String.length d <= hi)%nat /\ (lo <= String.length m <= hi)%nat
    /\ String.length y = 4%nat.
Proof.
  unfold date_shape, digits_n.
  destruct (split "/" s) as [|d [|m [|y [|]]]]; try discriminate.
  intros H. exists d, m, y.
  repeat match goal with
         | H : _ && _ = true |- _ => apply andb_true_iff in H as [? ?]
         | H : (_ <=? _)%nat = true |- _ => apply Nat.leb_le in H
         | H : (_ =? _)%nat = true |- _ => apply Nat.eqb_eq in H
         end.
  repeat split; assumption.
Qed.

Lemma date_shape_weaken (s : string) : date_shape 2 2 s = true -> date_shape 1 2 s = true.
Proof.
  intros H. destruct (date_shape_parts 2 2 s H) as (d & m & y & E & Hd & Hm & Hy & Ld & Lm & Ly).
  unfold date_shape, digits_n. rewrite E, Hd, Hm, Hy, Ly.
  assert ((1 <=? String.length d)%nat = true) as -> by (apply Nat.leb_le; lia).
  assert ((String.length d <=? 2)%nat = true) as -> by (apply Nat.leb_le; lia).
  assert ((1 <=? String.length m)%nat = true) as -> by (apply Nat.leb_le; lia).
  assert ((String.length m <=? 2)%nat = true) as -> by (apply Nat.leb_le; lia).
  reflexivity.
Qed.

Lemma date_shape_strip (lo hi : nat) (s : string) :
  date_shape lo hi s = true -> strip s = s /\ is_empty s = false.
Proof.
  intros H. destruct (date_shape_parts lo hi s H) as (d & m & y & E & Hd & Hm & Hy & _).
  split.
  - apply strip_plain. apply (all_chars_impl _ _ _ digit_or_slash_plain).
    apply split_parts_chars. rewrite E. repeat constructor; assumption.
  - destruct s; [discriminate E|reflexivity].
Qed.

(** X8.  A text written as two digits, a slash, two digits, a slash and
    four digits comes back as it is in the three scripts: neither the day
    nor the month is checked against the calendar, as they are for a date
    written with dashes. *)
Theorem to_ddmmyyyy_keeps_shaped_text (s : string) (Hs : date_shape 2 2 s = true) :
  to_ddmmyyyy (PyStr s) = Some s
  /\ to_ddmmyyyy_britimp (PyStr s) = Some s
  /\ to_ddmmyyyy_v4 (PyStr s) = Ok (Some s).
Proof.
  destruct (date_shape_strip 2 2 s Hs) as [Hstrip Hne].
  unfold to_ddmmyyyy, to_ddmmyyyy_britimp, to_ddmmyyyy_with, to_ddmmyyyy_v4,
    date_of_str, DATE_RE_match, DATE_RE_match_britimp.
  rewrite !Hstrip, Hs, (date_shape_weaken s Hs), Hne. repeat split.
Qed.

Lemma to_ddmmyyyy_keeps_shaped_text_witness :
  to_ddmmyyyy (PyStr "31/02/2024") = Some "31/02/2024"
  /\ to_ddmmyyyy (PyStr "31-02-2024") = None.
Proof.
  split.
  - exact (proj1 (to_ddmmyyyy_keeps_shaped_text "31/02/2024" eq_refl)).
  - vm_compute. reflexivity.
Defined.

(** *** Records of the generic parser *)

Lemma only_digits_digits (s : string) : all_chars is_digit (only_digits s) = true.
Proof.
  induction s as [|c t IH]; [reflexivity|]. cbn [only_digits].
  destruct (is_digit c) eqn:E; [|exact IH]. cbn [all_chars]. rewrite E, IH. reflexivity.
Qed.

Lemma find_recibo_spec (r rest : row) (d : string) :
  find_recibo r = Some (d, rest) ->
  all_chars is_digit d = true /\ (5 <= String.length d)%nat.
Proof.
  induction r as [|c r IH]; [discriminate|]. cbn [find_recibo].
  destruct (5 <=? String.length (clean_digits c))%nat eqn:E; [|exact IH].
  intros H. inversion H; subst. split.
  - unfold clean_digits. destruct (isna c); [reflexivity|apply only_digits_digits].
  - apply Nat.leb_le, E.
Qed.

Lemma truthy_nonempty (o : option string) (s : string) : truthy o = Some s -> s <> "".
Proof.
  destruct o as [x|]; [|discriminate]. cbn [truthy].
  destruct x; cbn [is_empty]; [discriminate|]. intros H. inversion H. discriminate.
Qed.

Lemma find_fecha_spec (to_date : cell -> option string) (r rest : row) (f : string) :
  find_fecha to_date r = Some (f, rest) -> f <> "".
Proof.
  induction r as [|c r IH]; [discriminate|]. cbn [find_fecha].
  destruct (truthy (to_date c)) as [x|] eqn:E; [|exact IH].
  intros H. inversion H; subst. exact (truthy_nonempty _ _ E).
Qed.

Lemma find_sucursal_spec (r rest : row) (s : string) :
  find_sucursal r = Some (s, rest) -> s <> "".
Proof.
  induction r as [|c r IH]; [discriminate|]. cbn [find_sucursal].
  destruct (is_empty (strip (str c))) eqn:E; [exact IH|].
  intros H. inversion H; subst. intros Hs. rewrite Hs in E. discriminate E.
Qed.

Lemma guess_moneda_range (r : row) : guess_moneda r = "PYG" \/ guess_moneda r = "USD".
Proof.
  unfold guess_moneda.
  assert (G : forall g, (g = "PYG" \/ g = "USD") ->
    let f := fun guess c =>
               match c with
               | PyStr s =>
                   let iso := normalize_divisa_to_iso s in
                   if String.eqb iso "PYG" || String.eqb iso "USD" then iso else guess
               | _ => guess
               end in
    fold_left f r g = "PYG" \/ fold_left f r g = "USD").
  { induction r as [|c r IH]; intros g Hg; [exact Hg|].
    cbn [fold_left]. apply IH.
    destruct c; try exact Hg. cbv zeta.
    destruct (String.eqb (normalize_divisa_to_iso s) "PYG") eqn:E1.
    - left. apply String.eqb_eq, E1.
    - destruct (String.eqb (normalize_divisa_to_iso s) "USD") eqn:E2.
      + right. apply String.eqb_eq, E2.
      + exact Hg. }
  apply G. left. reflexivity.
Qed.

Lemma data_cells_spec (to_date : cell -> option string) (r tail : row)
    (fecha sucursal recibo : string) :
  data_cells to_date r = Some (fecha, sucursal, recibo, tail) ->
  fecha <> "" /\ sucursal <> ""
  /\ all_chars is_digit recibo = true /\ (5 <= String.length recibo)%nat.
Proof.
  unfold data_cells.
  destruct (find_fecha to_date r) as [[f r1]|] eqn:E1; [|discriminate].
  destruct (find_sucursal r1) as [[s r2]|] eqn:E2; [|discriminate].
  destruct (find_recibo r2) as [[d r3]|] eqn:E3; [|discriminate].
  intros H. inversion H; subst.
  destruct (find_recibo_spec _ _ _ E3) as [Hd Hl].
  repeat split;
    [exact (find_fecha_spec _ _ _ _ E1)|exact (find_sucursal_spec _ _ _ E2)|exact Hd|exact Hl].
Qed.

Lemma scan_rows_generic_records (clasif origin : string) (sh : sheet)
    (P : registro -> Prop) :
  (forall sec fecha sucursal recibo tail r,
     data_cells to_ddmmyyyy r = Some (fecha, sucursal, recibo, tail) ->
     P (generic_record clasif origin sh None sec fecha sucursal recibo tail)) ->
  forall rows st rec,
    sc_motivo st = None ->
    In rec (scan_rows (generic_step clasif origin sh) st rows) -> P rec.
Proof.
  intros HP. induction rows as [|r rows IH]; intros st rec Hm Hin; [destruct Hin|].
  cbn [scan_rows] in Hin.
  destruct (generic_step clasif origin sh st r) as [st' out|] eqn:Hstep;
    [|destruct Hin].
  apply in_app_or in Hin as [Hin|Hin].
  - destruct (generic_step_emits _ _ _ _ _ _ _ _ Hstep Hin)
      as (sec & fecha & suc & recibo & tail & _ & Hcells & -> & _ & _).
    rewrite Hm. exact (HP _ _ _ _ _ _ Hcells).
  - exact (IH st' rec (generic_step_motivo _ _ _ _ _ _ _ Hm Hstep) Hin).
Qed.

(** X9.  Every record of the generic statement parser of
    [consolidado_v3.py], whatever the sheets hold: its reason is the name
    of its section and its direction goes with it, it carries the
    classification and the file name it was called with, its currency is
    [PYG] or [USD], its receipt is made of five digits or more, its date
    and its branch are not empty, and branch code and file date are those
    of one of the sheets. *)
Theorem generic_parser_record_invariants (origin clasif : string) (sheets : list sheet)
    (rec : registro)
    (Hin : In rec (parse_ec_efect_xlsx_generic origin clasif sheets)) :
  (MOTIVO_MOVIMIENTO rec = "INGRESOS" /\ ING_EGR rec = "IN"
   \/ MOTIVO_MOVIMIENTO rec = "EGRESOS" /\ ING_EGR rec = "OUT")
  /\ CLASIFICACION rec = clasif /\ ARCHIVO_ORIGEN rec = origin
  /\ (MONEDA rec = "PYG" \/ MONEDA rec = "USD")
  /\ all_chars is_digit (RECIBO rec) = true /\ (5 <= String.length (RECIBO rec))%nat
  /\ FECHA_OPERACION rec <> "" /\ SUCURSAL rec <> ""
  /\ exists sh, In sh sheets /\ AGENCIA rec = sh_agencia sh
                /\ FECHA_ARCHIVO rec = sh_fecha_archivo sh.
Proof.
  unfold parse_ec_efect_xlsx_generic in Hin.
  apply in_flat_map in Hin as (sh & Hsh & Hin).
  pattern rec.
  match goal with
  | |- ?P rec =>
      apply (scan_rows_generic_records clasif origin sh P)
        with (rows := sh_rows sh) (st := scan0); [|reflexivity|exact Hin]
  end.
  intros sec fecha suc recibo tail r Hcells.
  destruct (data_cells_spec _ _ _ _ _ _ Hcells) as (Hf & Hs & Hd & Hl).
  cbn [generic_record MOTIVO_MOVIMIENTO ING_EGR CLASIFICACION ARCHIVO_ORIGEN MONEDA
       RECIBO FECHA_OPERACION SUCURSAL AGENCIA FECHA_ARCHIVO].
  split; [destruct sec; [left|right]; split; reflexivity|].
  split; [reflexivity|]. split; [reflexivity|].
  split; [apply guess_moneda_range|].
  split; [exact Hd|]. split; [exact Hl|]. split; [exact Hf|]. split; [exact Hs|].
  exists sh. repeat split. exact Hsh.
Qed.

Lemma generic_parser_record_invariants_witness :
  exists rec,
    In rec (parse_ec_efect_xlsx_generic "f.xlsx" "ATM" [bare_sheet five_rows])
    /\ MOTIVO_MOVIMIENTO rec = "INGRESOS" /\ RECIBO rec = "654321".
Proof.
  eexists. split; [right; left; reflexivity|].
  split; [|vm_compute; reflexivity].
  destruct (generic_parser_record_invariants "f.xlsx" "ATM" [bare_sheet five_rows] _
              (or_intror (or_introl eq_refl))) as [[[H _]|[H _]] _].
  - exact H.
  - vm_compute in H. discriminate H.
Defined.

(** *** Rows that end or never start the reading *)

Lemma scan_rows_app_break (body : scan -> row -> step) (r : row) (post : list row) :
  (forall st, body st r = Break) ->
  forall pre st, scan_rows body st (pre ++ r :: post) = scan_rows body st pre.
Proof.
  intros Hb. induction pre as [|p pre IH]; intros st.
  - cbn [app scan_rows]. rewrite Hb. reflexivity.
  - cbn [app scan_rows]. destruct (body st p) as [st' out|]; [|reflexivity].
    rewrite IH. reflexivity.
Qed.

Lemma sentinel_row_breaks (r : row) :
  sentinel_row r = true ->
  forall clasif origin sh st,
    generic_step clasif origin sh st r = Break /\ bultos_step origin sh st r = Break.
Proof.
  unfold sentinel_row, reset_row, header_row. intros H clasif origin sh st.
  apply andb_true_iff in H as [H Hs]. apply andb_true_iff in H as [Hr Hh].
  apply negb_true_iff in Hr, Hh. apply orb_false_iff in Hh as [Hi He].
  unfold generic_step, bultos_step. rewrite Hr, Hi, He, Hs. split; reflexivity.
Qed.

(** X10.  The row that names the report of processes or of errors ends the
    reading of its sheet, not of the workbook, in the two statement
    parsers of [consolidado_v3.py]: the records are those of the sheets
    before, those the loop gives on the rows before that row, and those of
    the sheets after; the rows after it give no record, whatever they
    hold.  The branch and the file date of the sheet stay the ones found
    in the text of the whole sheet. *)
Theorem sentinel_row_ends_sheet (origin clasif : string)
    (before after : list sheet) (sh : sheet)
    (pre post : list row) (r : row)
    (Hr : sentinel_row r = true)
    (Hrows : sh_rows sh = (pre ++ r :: post)%list) :
  parse_ec_efect_xlsx_generic origin clasif (before ++ sh :: after)
  = (parse_ec_efect_xlsx_generic origin clasif before
     ++ scan_rows (generic_step clasif origin sh) scan0 pre
     ++ parse_ec_efect_xlsx_generic origin clasif after)%list
  /\ parse_ec_bultos_atm_xlsx origin (before ++ sh :: after)
     = (parse_ec_bultos_atm_xlsx origin before
        ++ scan_rows (bultos_step origin sh) scan0 pre
        ++ parse_ec_bultos_atm_xlsx origin after)%list.
Proof.
  unfold parse_ec_efect_xlsx_generic, parse_ec_bultos_atm_xlsx.
  rewrite !flat_map_app. cbn [flat_map]. rewrite Hrows. split; f_equal; f_equal.
  - apply (scan_rows_app_break (generic_step clasif origin sh)).
    intros st. exact (proj1 (sentinel_row_breaks r Hr clasif origin sh st)).
  - apply (scan_rows_app_break (bultos_step origin sh)).
    intros st. exact (proj2 (sentinel_row_breaks r Hr clasif origin sh st)).
Qed.

Lemma sentinel_row_ends_sheet_witness :
  parse_ec_efect_xlsx_generic "f.xlsx" "ATM"
    ([] ++ bare_sheet
             ([ [PyStr "INGRESOS"] ] ++ [PyStr "Informe de procesos"]
                :: [ [PyStr "01/01/2024"; PyStr "ASU"; PyStr "123456"; PyInt 5] ])
        :: [bare_sheet [ [PyStr "INGRESOS"];
                         [PyStr "02/01/2024"; PyStr "ASU"; PyStr "123456"; PyInt 7] ]])%list
  = [generic_record "ATM" "f.xlsx" (bare_sheet []) None INGRESOS
       "02/01/2024" "ASU" "123456" [PyInt 7]].
Proof.
  apply (eq_trans (proj1 (sentinel_row_ends_sheet "f.xlsx" "ATM" []
                            [bare_sheet [ [PyStr "INGRESOS"];
                                          [PyStr "02/01/2024"; PyStr "ASU";
                                           PyStr "123456"; PyInt 7] ]]
                            (bare_sheet
                               ([ [PyStr "INGRESOS"] ] ++ [PyStr "Informe de procesos"]
                                  :: [ [PyStr "01/01/2024"; PyStr "ASU";
                                        PyStr "123456"; PyInt 5] ])%list)
                            [ [PyStr "INGRESOS"] ]
                            [ [PyStr "01/01/2024"; PyStr "ASU"; PyStr "123456"; PyInt 5] ]
                            [PyStr "Informe de procesos"] eq_refl eq_refl))).
  vm_compute. reflexivity.
Defined.

Lemma scan_rows_closed_generic (clasif origin : string) (sh : sheet) (rows : list row) :
  forallb (fun r => negb (header_row r)) rows = true ->
  forall st, sc_started st = false ->
             scan_rows (generic_step clasif origin sh) st rows = [].
Proof.
  induction rows as [|r rows IH]; intros H st Hst; [reflexivity|].
  cbn [forallb] in H. apply andb_true_iff in H as [Hr Hrows].
  apply negb_true_iff in Hr. unfold header_row in Hr.
  apply orb_false_iff in Hr as [Hi He].
  cbn [scan_rows]. unfold generic_step. rewrite Hi, He, Hst. cbn [andb].
  destruct (contains "SALDO ANTERIOR" _); [exact (IH Hrows scan0 eq_refl)|].
  destruct (contains "INFORME DE PROCESOS" _ || contains "INFORME DE ERRORES" _);
    [reflexivity|].
  exact (IH Hrows st Hst).
Qed.

Lemma scan_rows_closed_bultos (origin : string) (sh : sheet) (rows : list row) :
  forallb (fun r => negb (header_row r)) rows = true ->
  forall st, sc_started st = false ->
             scan_rows (bultos_step origin sh) st rows = [].
Proof.
  induction rows as [|r rows IH]; intros H st Hst; [reflexivity|].
  cbn [forallb] in H. apply andb_true_iff in H as [Hr Hrows].
  apply negb_true_iff in Hr. unfold header_row in Hr.
  apply orb_false_iff in Hr as [Hi He].
  cbn [scan_rows]. unfold bultos_step. rewrite Hi, He, Hst. cbn [andb].
  destruct (contains "SALDO ANTERIOR" _); [exact (IH Hrows scan0 eq_refl)|].
  destruct (contains "INFORME DE PROCESOS" _ || contains "INFORME DE ERRORES" _);
    [reflexivity|].
  exact (IH Hrows st Hst).
Qed.

(** X11.  Records come from inside a section only: a workbook none of
    whose rows has the word [INGRESOS] or [EGRESOS] gives no record in
    either statement parser of [consolidado_v3.py], however many dated
    rows it holds. *)
Theorem no_section_header_no_record (origin clasif : string) (sheets : list sheet)
    (H : forallb (fun sh => forallb (fun r => negb (header_row r)) (sh_rows sh)) sheets
         = true) :
  parse_ec_efect_xlsx_generic origin clasif sheets = []
  /\ parse_ec_bultos_atm_xlsx origin sheets = [].
Proof.
  unfold parse_ec_efect_xlsx_generic, parse_ec_bultos_atm_xlsx.
  induction sheets as [|sh sheets IH]; [split; reflexivity|].
  cbn [forallb] in H. apply andb_true_iff in H as [Hsh Hrest].
  destruct (IH Hrest) as [IH1 IH2]. cbn [flat_map]. rewrite IH1, IH2.
  rewrite (scan_rows_closed_generic clasif origin sh _ Hsh scan0 eq_refl).
  rewrite (scan_rows_closed_bultos origin sh _ Hsh scan0 eq_refl).
  split; reflexivity.
Qed.

Lemma no_section_header_no_record_witness :
  parse_ec_efect_xlsx_generic "f.xlsx" "ATM"
    [bare_sheet [ [PyStr "01/01/2024"; PyStr "ASU"; PyStr "123456"; PyInt 1000] ]] = [].
Proof.
  exact (proj1 (no_section_header_no_record "f.xlsx" "ATM"
                  [bare_sheet [ [PyStr "01/01/2024"; PyStr "ASU"; PyStr "123456";
                                 PyInt 1000] ]] eq_refl)).
Defined.

(** *** Numbers taken for dates *)

Lemma round_half_even_int (n : Z) : round_half_even (n # 1) = n.
Proof.
  unfold round_half_even. cbn [Qnum Qden]. rewrite Z.div_1_r.
  replace (2 * n - n * (2 * 1))%Z with 0%Z by lia. reflexivity.
Qed.

(** The serial date of a whole number: the day that many days after
    30/12/1899 when that day is in the years 1 to 9999. *)
Lemma excel_serial_int (z : Z) :
  excel_serial_to_ddmmyyyy (z # 1) =
  if ((-693593 <=? z) && (z <=? 2958465))%Z
  then let '(y, m, d) := civil_from_days (z - 25569) in Some (strftime_dmY y m d)
  else None.
Proof.
  unfold excel_serial_to_ddmmyyyy.
  assert (E : ((z # 1) * (us_per_day # 1) = (z * us_per_day # 1))%Q) by reflexivity.
  rewrite E, round_half_even_int.
  rewrite Z.div_mul by (unfold us_per_day; lia).
  destruct ((-693593 <=? z) && (z <=? 2958465))%Z eqn:R.
  - apply andb_true_iff in R as [R1 R2].
    assert ((-999999999 <=? z)%Z = true) as -> by (apply Z.leb_le; apply Z.leb_le in R1; lia).
    assert ((z <=? 999999999)%Z = true) as -> by (apply Z.leb_le; apply Z.leb_le in R2; lia).
    rewrite R1, R2. reflexivity.
  - destruct (-999999999 <=? z)%Z, (z <=? 999999999)%Z; cbn [andb];
      try reflexivity.
    apply andb_false_iff in R as [->| ->]; cbn [andb]; [reflexivity|].
    destruct (-693593 <=? z)%Z; reflexivity.
Qed.

(** An exception met in the rows of a sheet leaves the loop over the
    rows, and the loop over the sheets. *)
Lemma scan_rows_v4_raise_later (clasif origin : string) (sh : sheet)
    (rows : list row) :
  (forall sec started, scan_rows_v4 clasif origin sh sec started rows = Raise) ->
  forall pre sec started,
    scan_rows_v4 clasif origin sh sec started (pre ++ rows) = Raise.
Proof.
  intros H. induction pre as [|p pre IH]; intros sec started; [apply H|].
  cbn [app scan_rows_v4].
  destruct (generic_step_v4 clasif origin sh sec started p) as [[sec' started' out]|];
    [|reflexivity].
  cbn [bind]. rewrite IH. reflexivity.
Qed.

(** Inside a section, rows that neither open nor close one leave it
    open. *)
Lemma scan_rows_v4_raise_plain (clasif origin : string) (sh : sheet)
    (s : section) (rows : list row) :
  scan_rows_v4 clasif origin sh (Some s) true rows = Raise ->
  forall mid,
    forallb plain_row_v4 mid = true ->
    scan_rows_v4 clasif origin sh (Some s) true (mid ++ rows) = Raise.
Proof.
  intros H. induction mid as [|p mid IH]; intros Hmid; [exact H|].
  cbn [forallb] in Hmid. apply andb_true_iff in Hmid as [Hp Hmid].
  unfold plain_row_v4, header_row_v4, reset_row_v4 in Hp.
  apply andb_true_iff in Hp as [Hh Hr].
  apply negb_true_iff in Hh, Hr. apply orb_false_iff in Hh as [Hi He].
  cbn [app scan_rows_v4]. unfold generic_step_v4. rewrite Hr, Hi, He. cbn [andb].
  destruct (data_cells_v4 p) as [[[[[fecha suc] rcb] tail]|]|];
    cbn [bind]; try reflexivity; rewrite (IH Hmid); reflexivity.
Qed.

Lemma mapM_raise_at {A B} (f : A -> result B) (before after : list A) (x : A) :
  f x = Raise -> mapM f (before ++ x :: after) = Raise.
Proof.
  intros H. induction before as [|b before IH].
  - cbn [app mapM]. rewrite H. reflexivity.
  - cbn [app mapM]. destruct (f b); [|reflexivity]. cbn [bind]. rewrite IH.
    reflexivity.
Qed.

(** The search for the date stops with an exception at a number outside
    the calendar, unless a date came before. *)
Lemma find_fecha_v4_raise (front rest : row) (z : Z) :
  excel_serial_to_ddmmyyyy (z # 1) = None ->
  (forall p, find_fecha_v4 front <> Ok (Some p)) ->
  find_fecha_v4 (front ++ PyInt z :: rest)%list = Raise.
Proof.
  intros Hser. induction front as [|c front IH]; intros Hnone.
  - cbn [app find_fecha_v4 to_ddmmyyyy_v4 number]. rewrite Hser. reflexivity.
  - cbn [app find_fecha_v4] in *.
    destruct (to_ddmmyyyy_v4 c) as [f|]; [|reflexivity]. cbn [bind] in *.
    destruct (truthy f) as [d|]; [exfalso; exact (Hnone _ eq_refl)|].
    apply IH, Hnone.
Qed.

(** X12.  In [consolidado_v4.py] a whole number outside the days of the
    calendar, met in a row of an open section before any date of that row,
    makes the statement parser raise, wherever the sheet stands in the
    workbook and the row in its section: the records of the whole workbook
    are lost, those of the rows and sheets read before included.  In
    [consolidado_v3.py] the same cell is simply not a date. *)
Theorem v4_number_beyond_calendar_raises (origin clasif : string)
    (before after : list sheet) (sh : sheet)
    (pre mid post : list row) (h front rest : row) (z : Z)
    (Hrows : sh_rows sh
             = (pre ++ h :: mid ++ (front ++ PyInt z :: rest) :: post)%list)
    (Hh : header_row_v4 h = true) (Hh' : reset_row_v4 h = false)
    (Hmid : forallb plain_row_v4 mid = true)
    (Hr : plain_row_v4 (front ++ PyInt z :: rest)%list = true)
    (Hfront : forall p, find_fecha_v4 front <> Ok (Some p))
    (Hz : (z < -693593 \/ 2958465 < z)%Z) :
  parse_ec_xlsx_generic_v4 origin clasif (before ++ sh :: after) = Raise
  /\ to_ddmmyyyy (PyInt z) = None.
Proof.
  assert (Hser : excel_serial_to_ddmmyyyy (z # 1) = None).
  { rewrite excel_serial_int.
    destruct Hz as [Hz|Hz].
    - assert ((-693593 <=? z)%Z = false) as -> by (apply Z.leb_gt; exact Hz).
      reflexivity.
    - assert ((z <=? 2958465)%Z = false) as -> by (apply Z.leb_gt; exact Hz).
      rewrite andb_false_r. reflexivity. }
  split.
  - unfold parse_ec_xlsx_generic_v4.
    rewrite (mapM_raise_at _ before after sh); [reflexivity|].
    rewrite Hrows. apply scan_rows_v4_raise_later. intros sec started.
    assert (Hstep : exists s,
               generic_step_v4 clasif origin sh sec started h
               = Ok (NextV4 (Some s) true [])).
    { unfold header_row_v4, reset_row_v4 in Hh, Hh'.
      unfold generic_step_v4. rewrite Hh'.
      destruct (contains "INGRESOS" _) eqn:Ei, (contains "EGRESOS" _) eqn:Ee;
        cbn [andb negb orb] in *; try discriminate Hh;
        eexists; reflexivity. }
    destruct Hstep as [s Hstep].
    cbn [scan_rows_v4]. rewrite Hstep. cbn [bind].
    rewrite (scan_rows_v4_raise_plain clasif origin sh s
               ((front ++ PyInt z :: rest)%list :: post)); [reflexivity| |exact Hmid].
    unfold plain_row_v4, header_row_v4, reset_row_v4 in Hr.
    apply andb_true_iff in Hr as [Hrh Hrr].
    apply negb_true_iff in Hrh, Hrr. apply orb_false_iff in Hrh as [Hri Hre].
    cbn [scan_rows_v4]. unfold generic_step_v4. rewrite Hrr, Hri, Hre. cbn [andb].
    unfold data_cells_v4. rewrite (find_fecha_v4_raise front rest z Hser Hfront).
    reflexivity.
  - unfold to_ddmmyyyy, to_ddmmyyyy_with. cbn [number]. rewrite Hser. reflexivity.
Qed.

Lemma v4_number_beyond_calendar_raises_witness :
  parse_ec_xlsx_generic_v4 "f.xlsx" "ATM"
    ([bare_sheet [ [PyStr "INGRESOS"];
                   [PyStr "02/01/2024"; PyStr "ASU"; PyStr "123456"; PyInt 7] ]]
     ++ bare_sheet
          ([ [PyStr "titulo"] ]
           ++ [PyStr "INGRESOS"]
           :: [ [PyStr "01/01/2024"; PyStr "ASU"; PyStr "123456"; PyInt 5] ]
           ++ ([NaN; PyStr "x"] ++ PyInt 20240101
                 :: [PyStr "01/01/2024"; PyStr "ASU"; PyStr "123456"; PyInt 5])
           :: [])
     :: [])%list
  = Raise.
Proof.
  refine (proj1 (v4_number_beyond_calendar_raises "f.xlsx" "ATM"
                   [bare_sheet [ [PyStr "INGRESOS"];
                                 [PyStr "02/01/2024"; PyStr "ASU"; PyStr "123456";
                                  PyInt 7] ]]
                   []
                   (bare_sheet
                      ([ [PyStr "titulo"] ]
                       ++ [PyStr "INGRESOS"]
                       :: [ [PyStr "01/01/2024"; PyStr "ASU"; PyStr "123456"; PyInt 5] ]
                       ++ ([NaN; PyStr "x"] ++ PyInt 20240101
                             :: [PyStr "01/01/2024"; PyStr "ASU"; PyStr "123456";
                                 PyInt 5])
                       :: [])%list)
                   [ [PyStr "titulo"] ]
                   [ [PyStr "01/01/2024"; PyStr "ASU"; PyStr "123456"; PyInt 5] ]
                   []
                   [PyStr "INGRESOS"] [NaN; PyStr "x"]
                   [PyStr "01/01/2024"; PyStr "ASU"; PyStr "123456"; PyInt 5]
                   20240101 eq_refl eq_refl eq_refl eq_refl eq_refl _ _)).
  - intros p H. vm_compute in H. discriminate H.
  - right. lia.
Defined.

(** ** One file through the pipeline *)

Import Pipeline.

(** *** Files without movements *)

Lemma upper_ascii_idem (c : ascii) : upper_ascii (upper_ascii c) = upper_ascii c.
Proof. by_bits c; reflexivity. Qed.

Lemma prefix_ci_app (p b : string) : prefix_ci p (p ++ b) = true.
Proof.
  induction p as [|a p IH]; [reflexivity|].
  cbn [String.append prefix_ci]. rewrite Ascii.eqb_refl, IH. reflexivity.
Qed.

Lemma ws_len_one_space (c : ascii) (y : string) :
  is_space c = false -> Ascii.eqb c xC2 = false ->
  ws_len (String " " (String c y)) = 1%nat /\ lstrip (String " " (String c y)) = String c y.
Proof.
  intros Hs Hc.
  assert (E : lstrip (String " " (String c y)) = String c y).
  { change (lstrip (String " " (String c y))) with (lstrip (String c y)).
    cbn [lstrip]. rewrite Hs, Hc. reflexivity. }
  split; [|exact E]. unfold ws_len. rewrite E. cbn [String.length]. lia.
Qed.

Lemma search_SIN_MOVIMIENTOS_cons (c : ascii) (t : string) :
  search_SIN_MOVIMIENTOS t = true -> search_SIN_MOVIMIENTOS (String c t) = true.
Proof. intros H. cbn [search_SIN_MOVIMIENTOS]. rewrite H. apply orb_true_r. Qed.

Lemma search_SIN_MOVIMIENTOS_at (a b : string) :
  search_SIN_MOVIMIENTOS (a ++ "SIN MOVIMIENTOS" ++ b) = true.
Proof.
  induction a as [|c a IH].
  - change ("" ++ "SIN MOVIMIENTOS" ++ b)
      with (String "S" (String "I" (String "N"
              (String " " (String "M" ("OVIMIENTOS" ++ b)))))).
    cbn [search_SIN_MOVIMIENTOS]. apply orb_true_iff. left.
    change (drop 3 (String "S" (String "I" (String "N"
              (String " " (String "M" ("OVIMIENTOS" ++ b)))))))
      with (String " " (String "M" ("OVIMIENTOS" ++ b))).
    destruct (ws_len_one_space "M" ("OVIMIENTOS" ++ b) eq_refl eq_refl) as [-> ->].
    change (String "M" ("OVIMIENTOS" ++ b)) with ("MOVIMIENTOS" ++ b).
    rewrite prefix_ci_app.
    change (String "S" (String "I" (String "N" (String " " ("MOVIMIENTOS" ++ b)))))
      with ("SIN" ++ String " " ("MOVIMIENTOS" ++ b)).
    rewrite prefix_ci_app. reflexivity.
  - change (String c a ++ "SIN MOVIMIENTOS" ++ b)
      with (String c (a ++ "SIN MOVIMIENTOS" ++ b)).
    apply search_SIN_MOVIMIENTOS_cons, IH.
Qed.

(** X13.  Whatever [britimp_consolidado_v4.py] takes for a file without
    movements, [consolidado_v3.py] does too: the first looks for the words
    [SIN MOVIMIENTOS] one space apart, the second for the same words any
    white space apart.  The converse fails with two spaces or a line
    break between the words. *)
Theorem sin_movimientos_britimp_implies_v3 (preview : string)
    (H : detect_sin_movimientos_britimp preview = true) :
  detect_sin_movimientos preview = true.
Proof.
  unfold detect_sin_movimientos_britimp, detect_sin_movimientos in *.
  apply contains_iff in H as (a & b & ->). apply search_SIN_MOVIMIENTOS_at.
Qed.

Lemma sin_movimientos_britimp_implies_v3_witness :
  detect_sin_movimientos "Planilla sin movimientos" = true
  /\ detect_sin_movimientos "SIN  MOVIMIENTOS" = true
  /\ detect_sin_movimientos_britimp "SIN  MOVIMIENTOS" = false.
Proof.
  split; [|split].
  - exact (sin_movimientos_britimp_implies_v3 "Planilla sin movimientos" eq_refl).
  - vm_compute. reflexivity.
  - vm_compute. reflexivity.
Defined.

(** *** Records and types *)

Lemma empty_no_frame : empty no_frame = true.
Proof. reflexivity. Qed.

Lemma tipo_is_eq (tipo : option string) (tag : string) :
  tipo_is tipo tag = true -> tipo = Some tag.
Proof.
  destruct tipo as [t|]; [|discriminate]. cbn [tipo_is].
  intros H. apply String.eqb_eq in H. congruence.
Qed.

Lemma parse_by_tipo_known (ps : parsers) (tipo : option string) (ext : string)
    (df : dataframe) :
  parse_by_tipo ps tipo ext = Ok df -> empty df = false ->
  known tipo = true /\ exists t, tipo = Some t /\ is_empty t = false.
Proof.
  unfold parse_by_tipo. intros H He.
  assert (Hno : Ok no_frame = Ok df -> False).
  { intros E. inversion E; subst. discriminate He. }
  repeat match type of H with
         | context [tipo_is tipo ?tag] =>
             destruct (tipo_is tipo tag) eqn:?;
             [match goal with
              | E : tipo_is tipo tag = true |- _ =>
                  apply tipo_is_eq in E; subst tipo; split;
                  [reflexivity|eexists; split; reflexivity]
              end|]; cbn [andb orb] in H
         end.
  destruct (Hno H).
Qed.

(** What [process_file] of [consolidado_v3.py] did when it returns
    records: the gate let the file through, a parser was called for its
    type and returned records, and the agency column was set. *)
Lemma process_file_parsed (sx : searches) (f : pending) (df : dataframe)
    (tipo : option string) (agencia : string) (is_itau : bool) :
  process_file sx f = Ok (df, tipo, agencia, is_itau) -> empty df = false ->
  is_itau = true
  /\ exists parsed agencia_norm,
       parse_by_tipo (p_parsers f) tipo (suffix (p_source f)) = Ok parsed
       /\ empty parsed = false
       /\ df = fill_agencia (normalize_agencia_to_cod sx) agencia_norm parsed.
Proof.
  intros H He. unfold process_file in H.
  destruct (file_text_preview (p_source f) 40) as [preview|]; [|discriminate H].
  cbn [bind] in H.
  destruct (detect_cliente_itau_v3 _ None); cbn [negb] in H;
    [|inversion H; subst; discriminate He].
  destruct (detect_sin_movimientos preview);
    [inversion H; subst; discriminate He|].
  inversion H as [[Hdf Htipo Hag Hitau]]. clear H.
  split; [reflexivity|].
  set (tipo' := infer_pdf_tipo _ _ _ _) in *.
  set (ag := or_else (normalize_agencia_to_cod sx _) _) in *.
  destruct (parse_by_tipo (p_parsers f) tipo' (suffix (p_source f))) as [d|] eqn:Hp.
  - destruct (empty d) eqn:Hd; [rewrite Hdf in Hd; congruence|].
    exists d, ag. split; [first [exact Hp|reflexivity]|]. split; [exact Hd|].
    first [reflexivity|symmetry; exact Hdf].
  - cbn [empty no_frame columns data] in Hdf. subst df. discriminate He.
Qed.

(** X14.  In [consolidado_v3.py] [process_file] returns records only for a
    file the gate let through and only with one of the five types that
    have an output file: the update [stats[tipo] += len(df)] of [run],
    which tests no more than that the type is not empty, never meets a
    missing key. *)
Theorem process_file_records_known_type (sx : searches) (f : pending) (df : dataframe)
    (tipo : option string) (agencia : string) (is_itau : bool)
    (H : process_file sx f = Ok (df, tipo, agencia, is_itau))
    (He : empty df = false) :
  is_itau = true /\ known tipo = true
  /\ exists t, tipo = Some t /\ is_empty t = false.
Proof.
  destruct (process_file_parsed sx f df tipo agencia is_itau H He)
    as (Hitau & parsed & ag & Hp & Hd & _).
  split; [exact Hitau|].
  exact (parse_by_tipo_known _ _ _ _ Hp Hd).
Qed.

Lemma process_file_records_known_type_witness :
  process_file no_searches inventory_pdf
  = Ok ({| columns := ["DIVISA"; "AGENCIA"]; data := [["PYG"; "ASU"]] |},
        Some "INV_BILLETES_ATM", "ASU", true)
  /\ known (Some "INV_BILLETES_ATM") = true.
Proof.
  assert (H : process_file no_searches inventory_pdf
              = Ok ({| columns := ["DIVISA"; "AGENCIA"]; data := [["PYG"; "ASU"]] |},
                    Some "INV_BILLETES_ATM", "ASU", true))
    by (vm_compute; reflexivity).
  split; [exact H|].
  exact (proj1 (proj2 (process_file_records_known_type no_searches inventory_pdf
                         _ _ _ _ H eq_refl))).
Defined.

(** X15.  [process_file] of [britimp_consolidado_v4.py] calls a parser for
    two kinds of file only: it returns records for no type but
    [EC_EFECT_BCO], [INV_BILLETES_BCO] and [INV_BILLETES_ATM], so the
    output files of the types [EC_EFECT_ATM] and [EC_BULTO_ATM] are never
    written, whatever lies under [PENDIENTES]. *)
Theorem britimp_records_three_types (sx : searches)
    (xlrd : bool) (f : pending) (df : dataframe)
    (tipo : option string) (agencia : string) (es_itau : bool)
    (H : process_file_britimp sx xlrd f = Ok (df, tipo, agencia, es_itau))
    (He : empty df = false) :
  es_itau = true
  /\ (tipo = Some "EC_EFECT_BCO" \/ tipo = Some "INV_BILLETES_BCO"
      \/ tipo = Some "INV_BILLETES_ATM").
Proof.
  unfold process_file_britimp in H.
  destruct (file_text_preview_britimp xlrd (p_source f) 40) as [preview|];
    [|discriminate H].
  cbn [bind] in H.
  destruct (detect_cliente_itau _ _); cbn [negb] in H;
    [|inversion H; subst; discriminate He].
  destruct (detect_sin_movimientos_britimp preview);
    [inversion H; subst; discriminate He|].
  inversion H as [[Hdf Htipo Hag Hitau]]. clear H. split; [reflexivity|].
  set (tipo' := dispatch_tipo (p_name f) preview) in *.
  unfold parse_by_tipo_britimp in Hdf.
  destruct (tipo_is tipo' "EC_EFECT_BCO") eqn:E1.
  { left. apply tipo_is_eq, E1. }
  destruct (tipo_is tipo' "INV_BILLETES_BCO") eqn:E2.
  { right. left. apply tipo_is_eq, E2. }
  destruct (tipo_is tipo' "INV_BILLETES_ATM") eqn:E3.
  { right. right. apply tipo_is_eq, E3. }
  cbn [andb orb] in Hdf. subst df. discriminate He.
Qed.

Lemma britimp_records_three_types_witness :
  process_file_britimp no_searches true inventory_pdf
  = Ok (one_row, Some "INV_BILLETES_ATM", "ASU", true)
  /\ (Some "INV_BILLETES_ATM" = Some "EC_EFECT_BCO"
      \/ Some "INV_BILLETES_ATM" = Some "INV_BILLETES_BCO"
      \/ Some "INV_BILLETES_ATM" = Some "INV_BILLETES_ATM").
Proof.
  assert (H : process_file_britimp no_searches true inventory_pdf
              = Ok (one_row, Some "INV_BILLETES_ATM", "ASU", true))
    by (vm_compute; reflexivity).
  split; [exact H|].
  exact (proj2 (britimp_records_three_types no_searches true inventory_pdf
                  _ _ _ _ H eq_refl)).
Defined.

(** ** The run *)

Lemma dict_get_set_same {V} (d : list (string * V)) (k : string) (v m : V) :
  dict_get d k = Some m -> dict_get (dict_set d k v) k = Some v.
Proof.
  induction d as [|[k' v'] d IH]; [discriminate|].
  cbn [dict_get dict_set]. destruct (String.eqb k k') eqn:E.
  - intros _. cbn [dict_get]. rewrite E. reflexivity.
  - intros H. cbn [dict_get]. rewrite E. exact (IH H).
Qed.

Lemma dict_get_set_other {V} (d : list (string * V)) (k k' : string) (v : V) :
  k' <> k -> dict_get (dict_set d k v) k' = dict_get d k'.
Proof.
  intros Hne. induction d as [|[k0 v0] d IH]; [reflexivity|].
  cbn [dict_set]. destruct (String.eqb k k0) eqn:E.
  - apply String.eqb_eq in E. subst k0. cbn [dict_get].
    rewrite (proj2 (String.eqb_neq k' k) Hne). reflexivity.
  - cbn [dict_get]. rewrite IH. reflexivity.
Qed.

Lemma stats_add_spec (stats stats' : list (string * nat)) (t : string) (n : nat) :
  stats_add stats t n = Ok stats' ->
  forall t', dict_get stats' t' =
             if String.eqb t' t then option_map (fun m => (m + n)%nat) (dict_get stats t)
             else dict_get stats t'.
Proof.
  unfold stats_add. destruct (dict_get stats t) as [m|] eqn:E; [|discriminate].
  intros H t'. inversion H; subst. destruct (String.eqb_spec t' t) as [->|Hne].
  - rewrite (dict_get_set_same _ _ _ _ E). reflexivity.
  - apply dict_get_set_other, Hne.
Qed.

Lemma stats0_known (t fname : string) :
  dict_get OUTPUT_FILES t = Some fname -> dict_get stats0 t = Some 0%nat.
Proof.
  unfold stats0, OUTPUT_FILES. cbn [map fst dict_get].
  repeat match goal with
         | |- context [String.eqb t ?k] => destruct (String.eqb t k)
         end; try reflexivity; discriminate.
Qed.

Lemma known_some (t : string) :
  known (Some t) = true -> exists fname, dict_get OUTPUT_FILES t = Some fname.
Proof.
  cbn [known]. destruct (dict_get OUTPUT_FILES t) as [f|]; [|discriminate].
  intros _. exists f. reflexivity.
Qed.

Lemma process_file_total (sx : searches) (f : pending) (preview : string) :
  file_text_preview (p_source f) 40 = Ok preview ->
  exists r, process_file sx f = Ok r.
Proof.
  intros H. unfold process_file. rewrite H. cbn [bind].
  destruct (negb _); [eexists; reflexivity|].
  destruct (detect_sin_movimientos preview); eexists; reflexivity.
Qed.

Lemma process_file_raises (sx : searches) (f : pending) :
  file_text_preview (p_source f) 40 = Raise -> process_file sx f = Raise.
Proof. intros H. unfold process_file. rewrite H. reflexivity. Qed.

(** The body of the loop for a file [process_file] returned from: the
    counter of its type is there, so the file is counted and moved. *)
Lemma after_file_ok (sx : searches) (f : pending) (df : dataframe)
    (tipo : option string) (agencia : string) (is_itau : bool)
    (stats : list (string * nat)) (w : world) :
  process_file sx f = Ok (df, tipo, agencia, is_itau) ->
  (forall t, known (Some t) = true -> dict_get stats t <> None) ->
  exists stats' w',
    after_file f df tipo agencia is_itau stats w = (Ok stats', w')
    /\ (forall t, known (Some t) = true -> dict_get stats' t <> None)
    /\ map mv_file (moves w') = (map mv_file (moves w) ++ [p_name f])%list.
Proof.
  intros Hp Hk. unfold after_file.
  destruct (empty df) eqn:He.
  - cbn [negb].
    destruct tipo as [t|]; rewrite ?andb_false_r;
      (eexists _, _; split; [reflexivity|]; split; [exact Hk|];
       cbn [moves]; rewrite map_app; reflexivity).
  - destruct (process_file_parsed sx f df tipo agencia is_itau Hp He)
      as (_ & parsed & ag & Hparse & Hd & _).
    destruct (parse_by_tipo_known _ _ _ _ Hparse Hd) as (Hknown & t & -> & Ht).
    rewrite Ht. cbn [negb andb]. unfold stats_add.
    destruct (dict_get stats t) as [m|] eqn:Em; [|destruct (Hk t Hknown Em)].
    eexists _, _. split; [reflexivity|]. split.
    + intros t' Hk' E. destruct (String.eqb_spec t' t) as [->|Hne].
      * rewrite (dict_get_set_same _ _ _ _ Em) in E. discriminate E.
      * rewrite (dict_get_set_other _ _ _ _ Hne) in E. exact (Hk t' Hk' E).
    + cbn [moves]. rewrite map_app. reflexivity.
Qed.

Lemma run_loop_ok (sx : searches) (pend : list pending) :
  Forall (fun f => raises (file_text_preview (p_source f) 40) = false) pend ->
  forall stats w,
    (forall t, known (Some t) = true -> dict_get stats t <> None) ->
    exists stats' w',
      run_loop sx pend stats w = (Ok stats', w')
      /\ (forall t, known (Some t) = true -> dict_get stats' t <> None)
      /\ map mv_file (moves w') = (map mv_file (moves w) ++ map p_name pend)%list.
Proof.
  induction 1 as [|f pend Hf _ IH]; intros stats w Hk.
  - exists stats, w. split; [reflexivity|]. split; [exact Hk|].
    cbn [map]. rewrite app_nil_r. reflexivity.
  - cbn [run_loop].
    destruct (file_text_preview (p_source f) 40) as [preview|] eqn:Hprev;
      [|discriminate Hf].
    destruct (process_file_total sx f preview Hprev) as [[[[df tipo] ag] itau] Hp].
    rewrite Hp.
    destruct (after_file_ok sx f df tipo ag itau stats w Hp Hk)
      as (stats1 & w1 & -> & Hk1 & Hm1).
    destruct (IH stats1 w1 Hk1) as (stats' & w' & Hrun & Hk' & Hm').
    exists stats', w'. split; [exact Hrun|]. split; [exact Hk'|].
    rewrite Hm', Hm1, <- app_assoc. reflexivity.
Qed.

Lemma stats0_keys (t : string) : known (Some t) = true -> dict_get stats0 t <> None.
Proof.
  intros H. destruct (known_some t H) as [fname Hf].
  rewrite (stats0_known t fname Hf). discriminate.
Qed.

(** A file the loop is done with has been handed to [safe_move], with a
    folder that has a name. *)
Lemma or_else_nonempty (a b : string) : b <> "" -> or_else a b <> "".
Proof.
  intros Hb. unfold or_else. destruct a as [|c t]; cbn [is_empty];
    [exact Hb|discriminate].
Qed.

Lemma after_file_moves (f : pending) (df : dataframe) (tipo : option string)
    (agencia : string) (is_itau : bool) (stats stats' : list (string * nat))
    (w w' : world) :
  after_file f df tipo agencia is_itau stats w = (Ok stats', w') ->
  exists mv,
    moves w' = (moves w ++ [mv])%list
    /\ mv_file mv = p_name f /\ mv_dir mv <> "".
Proof.
  unfold after_file.
  destruct (match tipo with
            | Some t =>
                if negb (is_empty t) && negb (empty df)
                then (stats_add stats t (len df), write_v3 t df (out w))
                else (Ok stats, out w)
            | None => (Ok stats, out w)
            end) as [[st1|] o1]; [|discriminate].
  intros H. inversion H; subst. cbn [moves].
  eexists. split; [reflexivity|]. split; [reflexivity|].
  cbn [move_original mv_dir]. apply or_else_nonempty. discriminate.
Qed.

(** X16.  A run of [consolidado_v3.py] that ends normally has handed every
    file it found to [safe_move], the ones the gate rejects and the ones
    no parser takes included: the moves it made are one for each file
    found, in the order found, each to a folder with a name (the branch
    of the file, [ASU] for want of one), and the moves made before the run
    are as they were. *)
Theorem run_moves_every_file (sx : searches) (pend : list pending) (w w' : world)
    (stats : list (string * nat))
    (Hrun : run sx pend w = (Ok stats, w')) :
  exists new,
    moves w' = (moves w ++ new)%list
    /\ map mv_file new = map p_name pend
    /\ Forall (fun mv => mv_dir mv <> "") new.
Proof.
  unfold run in Hrun. revert w Hrun. generalize stats0.
  induction pend as [|f pend IH]; intros stats1 w H.
  - cbn [run_loop] in H. inversion H; subst. exists [].
    rewrite app_nil_r. repeat split. constructor.
  - cbn [run_loop] in H.
    destruct (process_file sx f) as [[[[df tipo] ag] itau]|]; [|discriminate H].
    destruct (after_file f df tipo ag itau stats1 w) as [[stats2|] w1] eqn:Ea;
      [|discriminate H].
    destruct (after_file_moves _ _ _ _ _ _ _ _ _ Ea) as (mv & Hm1 & Hf1 & Hd1).
    destruct (IH _ _ H) as (new & Hm & Hf & Hd).
    exists (mv :: new). split; [|split].
    + rewrite Hm, Hm1, <- app_assoc. reflexivity.
    + cbn [map]. rewrite Hf1, Hf. reflexivity.
    + constructor; assumption.
Qed.

Lemma run_moves_every_file_witness :
  exists stats w',
    run no_searches [inventory_pdf; inventory_pdf]
      {| out := fresh_run ∅ []; moves := [] |} = (Ok stats, w')
    /\ map mv_file (moves w') = ["INV_BILLETES_ATM.pdf"; "INV_BILLETES_ATM.pdf"].
Proof.
  assert (E : exists stats w',
             run no_searches [inventory_pdf; inventory_pdf]
               {| out := fresh_run ∅ []; moves := [] |} = (Ok stats, w'))
    by (eexists _, _; vm_compute; reflexivity).
  destruct E as (stats & w' & Hrun).
  exists stats, w'. split; [exact Hrun|].
  destruct (run_moves_every_file no_searches [inventory_pdf; inventory_pdf]
              {| out := fresh_run ∅ []; moves := [] |} w' stats Hrun)
    as (new & Hm & Hf & _).
  rewrite Hm. cbn [moves app]. exact Hf.
Defined.

Lemma run_loop_app (sx : searches) (before rest : list pending) :
  forall stats w,
    run_loop sx (before ++ rest) stats w =
    match run_loop sx before stats w with
    | (Ok stats', w') => run_loop sx rest stats' w'
    | (Raise, w') => (Raise, w')
    end.
Proof.
  induction before as [|f before IH]; intros stats w; [reflexivity|].
  cbn [app run_loop].
  destruct (process_file sx f) as [[[[df tipo] ag] itau]|]; [|reflexivity].
  destruct (after_file f df tipo ag itau stats w) as [[stats1|] w1]; [|reflexivity].
  apply IH.
Qed.

(** X17.  One workbook the previewer cannot read stops the run of
    [consolidado_v3.py]: the exception leaves [process_file] and [run],
    and the files that come after it are neither parsed, written nor
    moved; the day's folder and the originals are as the files before it
    left them. *)
Theorem run_stops_at_unreadable_file (sx : searches)
    (before after : list pending) (bad : pending) (w : world)
    (Hbefore : Forall (fun f => raises (file_text_preview (p_source f) 40) = false)
                 before)
    (Hbad : raises (file_text_preview (p_source bad) 40) = true) :
  exists stats w',
    run sx before w = (Ok stats, w')
    /\ run sx (before ++ bad :: after) w = (Raise, w').
Proof.
  destruct (run_loop_ok sx before Hbefore stats0 w stats0_keys)
    as (stats & w' & Hr & _ & _).
  exists stats, w'. split; [exact Hr|].
  unfold run in *. rewrite run_loop_app, Hr. cbn [run_loop].
  destruct (file_text_preview (p_source bad) 40) eqn:E; [discriminate Hbad|].
  rewrite (process_file_raises sx bad E). reflexivity.
Qed.

Lemma run_stops_at_unreadable_file_witness :
  exists stats w',
    run no_searches [inventory_pdf] {| out := fresh_run ∅ []; moves := [] |}
    = (Ok stats, w')
    /\ run no_searches ([inventory_pdf] ++ broken_workbook :: [inventory_pdf])
         {| out := fresh_run ∅ []; moves := [] |} = (Raise, w').
Proof.
  apply (run_stops_at_unreadable_file no_searches [inventory_pdf] [inventory_pdf]
           broken_workbook {| out := fresh_run ∅ []; moves := [] |}).
  - repeat constructor.
  - reflexivity.
Defined.

(** *** What the counters count *)

Lemma run_loop_batches (sx : searches) (pend : list pending) :
  forall stats w stats' w',
    run_loop sx pend stats w = (Ok stats', w') ->
    exists batches,
      out w' = run_writes write_v3 batches (out w)
      /\ forall t, dict_get stats' t =
                   option_map (fun m => (m + list_sum (map len (batches_of t batches)))%nat)
                              (dict_get stats t).
Proof.
  induction pend as [|f pend IH]; intros stats w stats' w' H.
  - cbn [run_loop] in H. inversion H; subst. exists []. split; [reflexivity|].
    intros t. change (batches_of t []) with (@nil dataframe).
    change (list_sum (map len [])) with 0%nat.
    destruct (dict_get stats' t); cbn [option_map]; [f_equal; lia|reflexivity].
  - cbn [run_loop] in H.
    destruct (process_file sx f) as [[[[df tipo] ag] itau]|]; [|discriminate H].
    unfold after_file in H.
    destruct tipo as [t0|].
    + destruct (negb (is_empty t0) && negb (empty df)) eqn:Ew.
      * destruct (stats_add stats t0 (len df)) as [stats1|] eqn:Ea; [|discriminate H].
        destruct (IH _ _ _ _ H) as (batches & Hout & Hst).
        exists ((t0, df) :: batches). split.
        -- rewrite Hout. reflexivity.
        -- intros t. rewrite Hst, (stats_add_spec _ _ _ _ Ea t).
           apply andb_true_iff in Ew as [_ Hne].
           unfold batches_of. cbn [List.filter fst snd].
           rewrite (String.eqb_sym t0 t).
           destruct (String.eqb_spec t t0) as [->|Hneq].
           ++ rewrite Hne. cbn [andb map list_sum snd].
              destruct (dict_get stats t0); cbn [option_map]; [|reflexivity].
              f_equal. unfold list_sum. cbn [fold_right]. lia.
           ++ cbn [andb]. reflexivity.
      * destruct (IH _ _ _ _ H) as (batches & Hout & Hst).
        exists batches. split; [exact Hout|exact Hst].
    + destruct (IH _ _ _ _ H) as (batches & Hout & Hst).
      exists batches. split; [exact Hout|exact Hst].
Qed.

Lemma len_data_lines (cols : list string) (df : dataframe) :
  List.length (data_lines cols df) = len df.
Proof. unfold data_lines, len. apply length_map. Qed.

Lemma length_batches (cols : dataframe -> list string) (dfs : list dataframe) :
  List.length (flat_map (fun df => data_lines (cols df) df) dfs) = list_sum (map len dfs).
Proof.
  induction dfs as [|df dfs IH]; [reflexivity|].
  cbn [flat_map map]. rewrite length_app, len_data_lines, IH. reflexivity.
Qed.

Lemma nonempty_len (df : dataframe) : empty df = false -> (1 <= len df)%nat.
Proof.
  unfold empty, len. destruct (columns df); [discriminate|].
  destruct (data df); [discriminate|]. intros _. cbn [List.length]. lia.
Qed.

Lemma batches_of_head (tipo : string) (batches : list (string * dataframe))
    (df : dataframe) (dfs : list dataframe) :
  batches_of tipo batches = df :: dfs -> empty df = false.
Proof.
  unfold batches_of. induction batches as [|[t d] bs IH]; [discriminate|].
  cbn [List.filter fst snd].
  destruct (String.eqb t tipo && negb (empty d)) eqn:E; [|exact IH].
  cbn [map snd]. intros H. inversion H; subst.
  apply andb_true_iff in E as [_ E]. apply negb_true_iff, E.
Qed.

(** X18.  The counters [run] of [consolidado_v3.py] returns count the
    lines of the day's files.  After a run that ended normally, for every
    type: when its counter is 0 its file is as it was before the run, a
    file left by an earlier run included; otherwise its file is one header
    line followed by as many data lines as the counter says. *)
Theorem run_stats_count_lines (sx : searches) (pend : list pending)
    (fs : gmap string (list csv_line)) (lg : list string) (mv : list move)
    (stats : list (string * nat)) (w' : world) (tipo fname : string)
    (Hrun : run sx pend {| out := fresh_run fs lg; moves := mv |} = (Ok stats, w'))
    (Hf : dict_get OUTPUT_FILES tipo = Some fname) :
  exists n,
    dict_get stats tipo = Some n
    /\ (n = 0%nat -> files (out w') !! fname = fs !! fname)
    /\ ((0 < n)%nat ->
        exists cols rows,
          files (out w') !! fname = Some (HeaderLine cols :: rows)
          /\ List.length rows = n
          /\ List.filter is_header rows = []).
Proof.
  unfold run in Hrun.
  destruct (run_loop_batches sx pend _ _ _ _ Hrun) as (batches & Hout & Hst).
  cbn [out] in Hout.
  exists (list_sum (map len (batches_of tipo batches))).
  split; [rewrite Hst, (stats0_known tipo fname Hf); reflexivity|].
  pose proof (run_writes_from cols_v3 tipo fname batches Hf (fresh_run fs lg)) as Hfile.
  change (write_with cols_v3) with write_v3 in Hfile. rewrite <- Hout in Hfile.
  destruct (batches_of tipo batches) as [|df1 dfs] eqn:Eb.
  - split; [intros _; exact Hfile|]. unfold list_sum. cbn [map fold_right]. lia.
  - pose proof (nonempty_len df1 (batches_of_head _ _ _ _ Eb)) as Hlen.
    split; [unfold list_sum; cbn [map fold_right]; lia|]. intros _.
    cbn [fresh_run RUN_WRITTEN] in Hfile.
    rewrite bool_decide_eq_false_2 in Hfile by set_solver.
    eexists _, _. split; [exact Hfile|]. split.
    + apply (length_batches (cols_for cols_v3 tipo)).
    + apply (no_header_in_batches (cols_for cols_v3 tipo)).
Qed.

Lemma run_stats_count_lines_witness :
  exists stats w',
    run no_searches [inventory_pdf; inventory_pdf]
      {| out := fresh_run ∅ []; moves := [] |} = (Ok stats, w')
    /\ dict_get stats "INV_BILLETES_ATM" = Some 2%nat
    /\ exists cols rows,
         files (out w') !! "BRITIMP_INVENTARIO_ATM.csv" = Some (HeaderLine cols :: rows)
         /\ List.length rows = 2%nat.
Proof.
  assert (E : exists stats w',
             run no_searches [inventory_pdf; inventory_pdf]
               {| out := fresh_run ∅ []; moves := [] |} = (Ok stats, w'))
    by (eexists _, _; vm_compute; reflexivity).
  destruct E as (stats & w' & Hrun).
  exists stats, w'. split; [exact Hrun|].
  destruct (run_stats_count_lines no_searches [inventory_pdf; inventory_pdf] ∅ [] []
              stats w' "INV_BILLETES_ATM" "BRITIMP_INVENTARIO_ATM.csv" Hrun eq_refl)
    as (n & Hn & _ & Hpos).
  assert (E : n = 2%nat).
  { assert (Hs : dict_get stats "INV_BILLETES_ATM" = Some 2%nat).
    { revert Hrun. clear. intros Hrun. vm_compute in Hrun.
      inversion Hrun; subst. reflexivity. }
    congruence. }
  subst n. split; [exact Hn|].
  destruct (Hpos ltac:(lia)) as (cols & rows & Hfile & Hlen & _).
  exists cols, rows. split; [exact Hfile|exact Hlen].
Defined.

(** ** Moving the originals *)

Lemma string_of_Z_inj (a b : Z) : string_of_Z a = string_of_Z b -> a = b.
Proof.
  unfold string_of_Z. intros H. apply DecimalZ.to_int_inj.
  apply (f_equal NilZero.int_of_string) in H.
  assert (Hnil : forall z, Z.to_int z <> Decimal.Pos Decimal.Nil
                           /\ Z.to_int z <> Decimal.Neg Decimal.Nil).
  { intros [|p|p]; cbn [Z.to_int]; split; try discriminate;
      intros E; inversion E as [E'];
      exact (DecimalPos.Unsigned.to_uint_nonnil p E'). }
  rewrite !NilZero.isi in H by apply Hnil. congruence.
Qed.

Lemma append_cancel_l (p a b : string) : p ++ a = p ++ b -> a = b.
Proof.
  induction p as [|c p IH]; [exact (fun H => H)|].
  cbn [String.append]. intros H. inversion H. apply IH. assumption.
Qed.

Lemma append_cancel_r (s : string) :
  forall a b, a ++ s = b ++ s -> a = b.
Proof.
  induction a as [|c a IH]; intros b H.
  - destruct b as [|d b]; [reflexivity|].
    apply (f_equal String.length) in H. rewrite !length_append_s in H.
    cbn [String.append String.length] in H. lia.
  - destruct b as [|d b].
    + apply (f_equal String.length) in H. rewrite !length_append_s in H.
      cbn [String.append String.length] in H. lia.
    + cbn [String.append] in H. inversion H; subst. f_equal. apply IH. assumption.
Qed.

Lemma numbered_inj (base : string) (i j : nat) :
  numbered base i = numbered base j -> i = j.
Proof.
  unfold numbered. intros H.
  apply append_cancel_l, append_cancel_l, append_cancel_r in H.
  apply string_of_Z_inj in H. lia.
Qed.

(** Among the numbered names one is free, and the loop finds the first:
    the names of the folder that can still be in the way are fewer than
    the passes left. *)
Lemma first_free_spec (dir : gset string) (base : string) :
  forall fuel i (D : gset string),
    (size D < fuel)%nat ->
    (forall j, (i <= j)%nat -> numbered base j ∈ dir -> numbered base j ∈ D) ->
    exists k, first_free fuel dir base i = Some (numbered base k)
              /\ numbered base k ∉ dir.
Proof.
  induction fuel as [|fuel IH]; intros i D Hsize HD; [lia|].
  cbn [first_free]. destruct (decide (numbered base i ∈ dir)) as [Hin|Hnin].
  - rewrite bool_decide_eq_true_2 by exact Hin.
    apply (IH (S i) (D ∖ {[numbered base i]})).
    + assert (HiD : numbered base i ∈ D) by (apply HD; [lia|exact Hin]).
      assert (Hs : size D = (size (D ∖ {[numbered base i]}) + 1)%nat).
      { rewrite <- (size_singleton (numbered base i) (C := gset string)).
        rewrite <- size_union
          by (apply disjoint_difference_l1; reflexivity).
        f_equal. apply set_eq. intros x. rewrite elem_of_union, elem_of_difference,
          elem_of_singleton.
        destruct (decide (x = numbered base i)) as [->|]; tauto. }
      lia.
    + intros j Hj Hjd. apply elem_of_difference. split; [apply HD; [lia|exact Hjd]|].
      rewrite elem_of_singleton. intros E. apply numbered_inj in E. lia.
  - rewrite bool_decide_eq_false_2 by exact Hnin.
    exists i. split; [reflexivity|exact Hnin].
Qed.

(** X19.  [safe_move] never replaces a file: whatever the destination
    folder holds, the loop over the numbered names ends, within one pass
    more than the folder has files, on a name that is not taken there, and
    the folder after the move has every file it had and the one moved. *)
Theorem safe_move_never_overwrites (fuel : nat) (dir : gset string)
    (src_name : string) (rename_processed : bool)
    (Hfuel : (size dir < fuel)%nat) :
  exists dst,
    safe_move fuel dir src_name rename_processed = Some (dst, dir ∪ {[dst]})
    /\ (dst ∉ dir)
    /\ size (dir ∪ {[dst]}) = S (size dir).
Proof.
  unfold safe_move.
  set (base := if rename_processed then _ else _).
  assert (Hdst : exists dst,
             (if bool_decide (base ∈ dir) then first_free fuel dir base 1 else Some base)
             = Some dst /\ dst ∉ dir).
  { destruct (decide (base ∈ dir)) as [Hin|Hnin].
    - rewrite bool_decide_eq_true_2 by exact Hin.
      destruct (first_free_spec dir base fuel 1 dir Hfuel (fun _ _ H => H))
        as (k & Hk & Hfree).
      exists (numbered base k). split; [exact Hk|exact Hfree].
    - rewrite bool_decide_eq_false_2 by exact Hnin.
      exists base. split; [reflexivity|exact Hnin]. }
  destruct Hdst as (dst & -> & Hfree). exists dst.
  split; [reflexivity|]. split; [exact Hfree|].
  rewrite size_union, size_singleton; [lia|].
  apply disjoint_singleton_r, Hfree.
Qed.

Lemma safe_move_never_overwrites_witness :
  exists dst,
    safe_move 3 {["informe.pdf"; "informe (1).pdf"]} "informe.pdf" false
    = Some (dst, {["informe.pdf"; "informe (1).pdf"]} ∪ {[dst]})
    /\ dst ∉ ({["informe.pdf"; "informe (1).pdf"]} : gset string).
Proof.
  destruct (safe_move_never_overwrites 3 {["informe.pdf"; "informe (1).pdf"]}
              "informe.pdf" false) as (dst & H & Hfree & _).
  - vm_compute. lia.
  - exists dst. split; [exact H|exact Hfree].
Defined.

(** ** The columns written *)

Lemma mem_In (c : string) (l : list string) : mem c l = true <-> In c l.
Proof.
  unfold mem. rewrite existsb_exists. split.
  - intros (x & Hx & E). apply String.eqb_eq in E. subst. exact Hx.
  - intros H. exists c. split; [exact H|apply String.eqb_refl].
Qed.

Lemma NoDup_filter_s (p : string -> bool) (l : list string) :
  List.NoDup l -> List.NoDup (List.filter p l).
Proof.
  induction 1 as [|x l Hx Hl IH]; cbn [List.filter]; [constructor|].
  destruct (p x); [|exact IH]. constructor; [|exact IH].
  intros Hin. apply List.filter_In in Hin as [Hin _]. exact (Hx Hin).
Qed.

Lemma wanted_NoDup (tipo : string) :
  List.NoDup (default [] (dict_get wanted_cols_by_tipo tipo)).
Proof.
  assert (HE : List.NoDup EC_COLS).
  { unfold EC_COLS. repeat (constructor; [cbn [In]; intuition discriminate|]).
    constructor. }
  assert (HI : List.NoDup INV_COLS).
  { unfold INV_COLS. repeat (constructor; [cbn [In]; intuition discriminate|]).
    constructor. }
  unfold wanted_cols_by_tipo. cbn [dict_get].
  repeat match goal with
         | |- context [String.eqb tipo ?k] => destruct (String.eqb tipo k)
         end; cbv [from_option id]; try assumption. constructor.
Qed.

(** X20.  The writer of [consolidado_v3.py] writes every column of the
    frame once: its column list is a rearrangement of the columns of the
    frame, the wanted ones first, whatever the type. *)
Theorem cols_v3_rearranges_columns (tipo : string) (df : dataframe)
    (Hcols : List.NoDup (columns df)) :
  Permutation (cols_for cols_v3 tipo df) (columns df).
Proof.
  unfold cols_for, cols_v3.
  set (wanted := default [] (dict_get wanted_cols_by_tipo tipo)).
  pose proof (wanted_NoDup tipo) as Hw. fold wanted in Hw.
  apply Permutation.NoDup_Permutation.
  - apply List.NoDup_app; [apply NoDup_filter_s, Hw|apply NoDup_filter_s, Hcols|].
    intros x H1 H2. apply List.filter_In in H1 as [H1 _].
    apply List.filter_In in H2 as [_ H2].
    apply negb_true_iff in H2. apply mem_In in H1. congruence.
  - exact Hcols.
  - intros x. rewrite in_app_iff, !List.filter_In, negb_true_iff. split.
    + intros [[_ H]|[H _]]; [apply mem_In, H|exact H].
    + intros H. destruct (mem x wanted) eqn:E.
      * left. split; [apply mem_In, E|apply mem_In, H].
      * right. split; [exact H|reflexivity].
Qed.

Lemma cols_v3_rearranges_columns_witness :
  Permutation (cols_for cols_v3 "INV_BILLETES_ATM" one_row) ["DIVISA"].
Proof.
  apply (cols_v3_rearranges_columns "INV_BILLETES_ATM" one_row).
  repeat constructor. intros [].
Defined.

(** X21.  The writer of [consolidado_v4.py] writes the column
    [ARCHIVO_ORIGEN] twice: for a type with an output file and a frame
    that has the column, its column list is a rearrangement of the columns
    of the frame and one more [ARCHIVO_ORIGEN]. *)
Theorem cols_v4_repeats_ARCHIVO_ORIGEN (tipo fname : string) (df : dataframe)
    (Hf : dict_get OUTPUT_FILES tipo = Some fname)
    (Hcols : List.NoDup (columns df))
    (Hhas : In "ARCHIVO_ORIGEN" (columns df)) :
  Permutation (cols_for cols_v4 tipo df) (columns df ++ ["ARCHIVO_ORIGEN"]).
Proof.
  unfold cols_for, cols_v4.
  set (base := default [] (dict_get wanted_cols_by_tipo tipo)).
  pose proof (wanted_NoDup tipo) as Hw. fold base in Hw.
  assert (Hbase : mem "ARCHIVO_ORIGEN" base = true).
  { unfold base, wanted_cols_by_tipo. revert Hf. unfold OUTPUT_FILES. cbn [dict_get].
    repeat match goal with
           | |- context [String.eqb tipo ?k] => destruct (String.eqb tipo k)
           end; intros Hf; try discriminate Hf; reflexivity. }
  rewrite (proj2 (mem_In _ _) Hhas). rewrite app_assoc.
  apply Permutation_app_tail. apply Permutation.NoDup_Permutation.
  - apply List.NoDup_app; [apply NoDup_filter_s, Hw|apply NoDup_filter_s, Hcols|].
    intros x H1 H2. apply List.filter_In in H1 as [H1 _].
    apply List.filter_In in H2 as [_ H2].
    apply andb_true_iff in H2 as [H2 _].
    apply negb_true_iff in H2. apply mem_In in H1. congruence.
  - exact Hcols.
  - intros x. rewrite in_app_iff, !List.filter_In. split.
    + intros [[_ H]|[H _]]; [apply mem_In, H|exact H].
    + intros H. destruct (mem x base) eqn:E.
      * left. split; [apply mem_In, E|apply mem_In, H].
      * right. split; [exact H|]. cbn [negb andb]. apply negb_true_iff.
        apply String.eqb_neq. intros ->. congruence.
Qed.

Lemma cols_v4_repeats_ARCHIVO_ORIGEN_witness :
  cols_for cols_v4 "INV_BILLETES_ATM"
    {| columns := ["DIVISA"; "ARCHIVO_ORIGEN"]; data := [["PYG"; "f.pdf"]] |}
  = ["DIVISA"; "ARCHIVO_ORIGEN"; "ARCHIVO_ORIGEN"]
  /\ Permutation ["DIVISA"; "ARCHIVO_ORIGEN"; "ARCHIVO_ORIGEN"]
       (["DIVISA"; "ARCHIVO_ORIGEN"] ++ ["ARCHIVO_ORIGEN"]).
Proof.
  split; [vm_compute; reflexivity|].
  apply (cols_v4_repeats_ARCHIVO_ORIGEN "INV_BILLETES_ATM" "BRITIMP_INVENTARIO_ATM.csv"
           {| columns := ["DIVISA"; "ARCHIVO_ORIGEN"]; data := [["PYG"; "f.pdf"]] |}).
  - reflexivity.
  - repeat constructor; cbn [In]; intuition discriminate.
  - right. left. reflexivity.
Defined.

(** ** The gates and the rows of [consolidado_v4.py] *)

(** X22.  The gate of [consolidado_v3.py] called without hint is the gate
    of [consolidado_v4.py] with one more test: the two agree on every
    document, except that the first also rejects a document whose file
    name has a competing name when its text does not name the institution
    explicitly. *)
Theorem gate_v3_is_v4_and_name_check (doc : document) :
  detect_cliente_itau_v3 doc None
  = detect_itau_v4 doc
    && (explicit_itau_text doc
        || negb (mentions_bank (upper (remove_accents (name doc))))).
Proof.
  rewrite detect_cliente_itau_v3_chain. unfold detect_itau_v4, explicit_itau_text.
  rewrite pipeline_looks.
  destruct (mentions_bank (upper (unir_letras_separadas (preview doc))));
    [reflexivity|].
  destruct (search_CLIENTE_ITAU _); [reflexivity|].
  destruct (contains "BANCO ITAU" _); [reflexivity|].
  destruct (contains "CLIENTE: BANCO ITAU" _); [reflexivity|].
  cbn [orb]. reflexivity.
Qed.

(** A whole number is its own rounding. *)
Lemma exact_whole_round (q : Q) :
  exact_whole q = true -> (inject_Z (round_half_even q) == q)%Q.
Proof.
  unfold exact_whole, is_integer. intros H. apply andb_true_iff in H as [H _].
  apply Z.eqb_eq in H. destruct q as [n d]. cbn [Qnum Qden] in *.
  unfold round_half_even, Qeq, inject_Z. cbn [Qnum Qden].
  pose proof (Z.div_mod n (Zpos d) ltac:(lia)) as Hdm. rewrite H in Hdm.
  assert (Hr : (2 * n - n / Zpos d * (2 * Zpos d) = 0)%Z) by lia.
  rewrite Hr.
  assert ((0 <? Zpos d)%Z = true) as -> by (apply Z.ltb_lt; lia).
  lia.
Qed.

Lemma find_sucursal_none (r : row) :
  find_sucursal r = None <-> forallb blank r = true.
Proof.
  induction r as [|c r IH]; [split; reflexivity|].
  cbn [find_sucursal forallb]. unfold blank at 1.
  destruct (is_empty (strip (str c))); cbn [andb]; [exact IH|].
  split; discriminate.
Qed.

Lemma find_recibo_v4_spec (r : row) :
  fst (find_recibo_v4 r) = ""
  \/ (all_chars is_digit (fst (find_recibo_v4 r)) = true
      /\ (5 <= String.length (fst (find_recibo_v4 r)))%nat).
Proof.
  induction r as [|c r IH]; [left; reflexivity|].
  cbn [find_recibo_v4].
  destruct (5 <=? String.length (only_digits (str c)))%nat eqn:E; [|exact IH].
  right. cbn [fst]. split; [apply only_digits_digits|apply Nat.leb_le, E].
Qed.

(** What [consolidado_v4.py] makes of the numbers of a row when they are
    whole: the last is the amount and the one before it the bundle
    count. *)
Lemma v4_numbers_exact (nums : list Q) :
  forallb exact_whole nums = true ->
  (inject_Z (as_int (last_or_zero nums)) == List.last nums 0)%Q
  /\ (forall front bn m,
        nums = (front ++ [bn; m])%list ->
        exists b,
          Some (match rev nums with
                | _ :: bn :: _ => as_int bn
                | _ => 0%Z
                end) = Some b
          /\ (inject_Z b == bn)%Q)
  /\ ((List.length nums < 2)%nat ->
      Some (match rev nums with
            | _ :: bn :: _ => as_int bn
            | _ => 0%Z
            end) = Some 0%Z).
Proof.
  intros H. rewrite forallb_forall in H. unfold last_or_zero, as_int.
  split; [|split].
  - destruct nums as [|a l]; [vm_compute; reflexivity|].
    apply exact_whole_round, H.
    assert (Hne : a :: l <> []) by discriminate.
    destruct (exists_last Hne) as (l' & x & E). rewrite E, last_last.
    apply in_or_app. right. left. reflexivity.
  - intros front bn m E. rewrite E, rev_app_distr. cbn [rev app].
    eexists. split; [reflexivity|].
    apply exact_whole_round, H. rewrite E. apply in_or_app. right. left. reflexivity.
  - intros L. destruct nums as [|a [|b l]];
      [reflexivity|reflexivity|cbn [List.length] in L; lia].
Qed.

(** X23.  In [consolidado_v4.py] a date is all a row needs.  Inside a
    section, a row that is not a header and has a date gives one record,
    provided the numbers after its receipt are whole numbers below 2^53 in
    size, which binary64 holds as they are.  The branch is empty only when
    every cell after the date is blank text (a missing cell reads [nan]
    and is taken for the branch); the receipt is empty or has five digits
    or more; the currency is [PYG]; the amount is the last of the numbers,
    0 when there is none, and the bundle count the one before it, 0 when
    there is none. *)
Theorem v4_dated_row_gives_record (clasif origin : string) (sh : sheet) (s : section)
    (r rest : row) (fecha : string)
    (Hh : header_row_v4 r = false) (Hr : reset_row_v4 r = false)
    (Hf : find_fecha_v4 r = Ok (Some (fecha, rest)))
    (Hnums : forallb exact_whole
               (collect_nums parse_numeric_v4 (cells_after_receipt_v4 rest)) = true) :
  exists rec,
    generic_step_v4 clasif origin sh (Some s) true r = Ok (NextV4 (Some s) true [rec])
    /\ FECHA_OPERACION rec = fecha
    /\ (SUCURSAL rec = "" <-> forallb blank rest = true)
    /\ (RECIBO rec = ""
        \/ (all_chars is_digit (RECIBO rec) = true
            /\ (5 <= String.length (RECIBO rec))%nat))
    /\ MONEDA rec = "PYG"
    /\ MOTIVO_MOVIMIENTO rec = section_name s
    /\ (MONTO rec
        == List.last (collect_nums parse_numeric_v4 (cells_after_receipt_v4 rest)) 0)%Q
    /\ (forall front bn m,
          collect_nums parse_numeric_v4 (cells_after_receipt_v4 rest)
          = (front ++ [bn; m])%list ->
          exists b, BULTOS rec = Some b /\ (inject_Z b == bn)%Q)
    /\ ((List.length (collect_nums parse_numeric_v4 (cells_after_receipt_v4 rest)) < 2)%nat
        -> BULTOS rec = Some 0%Z).
Proof.
  unfold header_row_v4, reset_row_v4 in *.
  apply orb_false_iff in Hh as [Hi He].
  unfold generic_step_v4. rewrite Hr, Hi, He. cbn [andb].
  unfold data_cells_v4. rewrite Hf. cbn [bind].
  unfold cells_after_receipt_v4 in *.
  pose proof (find_sucursal_none rest) as Hnone.
  pose proof (fun sv r2 => find_sucursal_spec rest r2 sv) as Hsome.
  destruct (find_sucursal rest) as [[suc r2]|].
  - cbn [snd] in *.
    pose proof (find_recibo_v4_spec r2) as Hrec.
    destruct (find_recibo_v4 r2) as [rcb r3]. cbn [fst snd bind] in *.
    eexists. split; [reflexivity|].
    cbn [generic_record_v4 FECHA_OPERACION SUCURSAL RECIBO MONEDA MOTIVO_MOVIMIENTO
         BULTOS MONTO].
    split; [reflexivity|]. split.
    { split; intros E.
      - exfalso. exact (Hsome suc r2 eq_refl E).
      - apply Hnone in E. discriminate E. }
    split; [exact Hrec|]. split; [reflexivity|]. split; [reflexivity|].
    set (nums := collect_nums parse_numeric_v4 r3) in *.
    exact (v4_numbers_exact nums Hnums).
  - cbn [snd find_recibo_v4 collect_nums omap fst bind] in *.
    eexists. split; [reflexivity|].
    cbn [generic_record_v4 FECHA_OPERACION SUCURSAL RECIBO MONEDA MOTIVO_MOVIMIENTO
         BULTOS MONTO collect_nums omap rev last_or_zero List.last as_int].
    split; [reflexivity|]. split; [split; [intros _; apply Hnone; reflexivity|reflexivity]|].
    split; [left; reflexivity|]. split; [reflexivity|]. split; [reflexivity|].
    split; [vm_compute; reflexivity|]. split.
    + intros front bn m E. destruct front; discriminate E.
    + reflexivity.
Qed.

Lemma v4_dated_row_gives_record_witness :
  exists rec,
    generic_step_v4 "ATM" "f.xlsx" (bare_sheet []) (Some INGRESOS) true
      [PyStr "01/01/2024"; NaN; PyStr "123456"; PyInt 3; PyStr "1,000"]
    = Ok (NextV4 (Some INGRESOS) true [rec])
    /\ FECHA_OPERACION rec = "01/01/2024".
Proof.
  destruct (v4_dated_row_gives_record "ATM" "f.xlsx" (bare_sheet []) INGRESOS
              [PyStr "01/01/2024"; NaN; PyStr "123456"; PyInt 3; PyStr "1,000"]
              [NaN; PyStr "123456"; PyInt 3; PyStr "1,000"]
              "01/01/2024" eq_refl eq_refl eq_refl eq_refl)
    as (rec & Hstep & Hfecha & _).
  exists rec. split; [exact Hstep|exact Hfecha].
Defined.

(** ** When the previewer raises *)

Lemma mapM_raises {A B} (f : A -> result B) (l : list A) :
  raises (mapM f l) = existsb (fun a => raises (f a)) l.
Proof.
  induction l as [|a l IH]; [reflexivity|].
  cbn [mapM existsb]. destruct (f a) as [b|]; cbn [bind raises orb]; [|reflexivity].
  rewrite <- IH. destruct (mapM f l); reflexivity.
Qed.

Lemma mapM_raises_ext {A B C} (f : A -> result B) (g : A -> result C) (l : list A) :
  (forall a, raises (f a) = raises (g a)) ->
  existsb (fun a => raises (f a)) l = existsb (fun a => raises (g a)) l.
Proof.
  intros H. induction l as [|a l IH]; [reflexivity|].
  cbn [existsb]. rewrite H, IH. reflexivity.
Qed.

(** X24.  The previewers raise for a spreadsheet and for nothing else, and
    for a spreadsheet exactly in two cases: no engine opens the workbook
    (not in [britimp_consolidado_v4.py], which then returns the empty
    string), or the workbook opens and reading one of its sheets raises.
    A PDF, a file of another kind, a missing PDF library never make them
    raise. *)
Theorem file_text_preview_raises_iff (xlrd : bool) (src : source) (n : nat) :
  let sheet_fails xl := existsb (fun sh => raises (read_excel xl sh n)) (sheet_names xl) in
  let second := ExcelFile src (Some (if String.eqb (suffix src) ".xlsx"
                                     then "openpyxl" else "xlrd")) in
  let opened := try_except (ExcelFile src None) second in
  raises (file_text_preview src n)
  = is_excel (suffix src)
    && match opened with Ok xl => sheet_fails xl | Raise => true end
  /\ raises (file_text_preview_v4 src n)
     = is_excel (suffix src)
       && match opened with Ok xl => sheet_fails xl | Raise => true end
  /\ raises (file_text_preview_britimp xlrd src n)
     = is_excel (suffix src)
       && match read_excel_any_version xlrd src with
          | Some xl => sheet_fails xl
          | None => false
          end.
Proof.
  cbv zeta.
  assert (Hx : forall line_of xl,
             raises (excel_preview line_of xl n)
             = existsb (fun sh => raises (read_excel xl sh n)) (sheet_names xl)).
  { intros line_of xl. unfold excel_preview.
    transitivity
      (raises (mapM (fun sh => let! df := read_excel xl sh n in Ok (line_of df))
                    (sheet_names xl))).
    - destruct (mapM _ (sheet_names xl)); reflexivity.
    - rewrite mapM_raises. apply mapM_raises_ext.
      intros sh. destruct (read_excel xl sh n); reflexivity. }
  destruct (is_excel (suffix src)) eqn:Hex; cbn [andb].
  - unfold file_text_preview, file_text_preview_v4, file_text_preview_britimp.
    rewrite Hex. repeat split.
    + destruct (try_except _ _) as [xl|]; cbn [bind]; [apply Hx|reflexivity].
    + destruct (try_except _ _) as [xl|]; cbn [bind]; [apply Hx|reflexivity].
    + destruct (read_excel_any_version xlrd src) as [xl|]; [apply Hx|reflexivity].
  - destruct (file_text_preview_soft_outside_excel src n Hex)
      as ((s1 & ->) & (s2 & ->) & (s3 & H3)).
    clear H3. repeat split. unfold file_text_preview_britimp. rewrite Hex.
    destruct (if String.eqb (suffix src) ".pdf" then PdfReader src else None) as [rd|].
    + destruct (pdf_preview_total "" rd) as (s & -> & _). reflexivity.
    + reflexivity.
Qed.

(** ** Dates are fixed points *)

Lemma civil_from_days_range (z : Z) :
  (-719162 <= z <= 2932896)%Z ->
  let '(y, m, d) := civil_from_days z in
  (1 <= y <= 9999 /\ 1 <= m <= 12 /\ 1 <= d <= 31)%Z.
Proof.
  intros H. unfold civil_from_days. cbv zeta.
  match goal with |- context [if ?b then (_ + 3)%Z else _] => destruct b eqn:E1 end;
    match goal with |- context [if ?b then 1%Z else 0%Z] => destruct b eqn:E2 end;
    rewrite ?Z.ltb_lt, ?Z.ltb_ge, ?Z.leb_le, ?Z.leb_gt in *;
    Z.div_mod_to_equations; lia.
Qed.

Lemma range_check (f : Z -> bool) (lo : Z) (n : nat) :
  forallb f (map (fun i => (lo + Z.of_nat i)%Z) (seq 0 n)) = true ->
  forall z, (lo <= z < lo + Z.of_nat n)%Z -> f z = true.
Proof.
  intros H z Hz. rewrite forallb_forall in H. apply H.
  apply in_map_iff. exists (Z.to_nat (z - lo)). split; [lia|].
  apply in_seq. lia.
Qed.

Lemma two_digits (z : Z) :
  (1 <= z <= 31)%Z -> digits_n 2 (zfill 2 (string_of_Z z)) = true.
Proof.
  intros H.
  apply (range_check (fun z => digits_n 2 (zfill 2 (string_of_Z z))) 1 31);
    [vm_compute; reflexivity|lia].
Qed.

(** The year as the C library prints it: four digits from the year 1000
    on, fewer before. *)
Lemma year_digits (z : Z) :
  (1000 <= z <= 9999)%Z -> digits_n 4 (string_of_Z z) = true.
Proof.
  intros H.
  apply (range_check (fun z => digits_n 4 (string_of_Z z)) 1000 (Z.to_nat 9000));
    [vm_compute; reflexivity|lia].
Qed.

Lemma year_short (z : Z) :
  (1 <= z <= 999)%Z -> (String.length (string_of_Z z) <? 4)%nat = true.
Proof.
  intros H.
  apply (range_check (fun z => (String.length (string_of_Z z) <? 4)%nat) 1
           (Z.to_nat 999));
    [vm_compute; reflexivity|lia].
Qed.

Lemma digits_n_facts (n : nat) (s : string) :
  digits_n n s = true -> String.length s = n /\ all_chars is_digit s = true.
Proof.
  unfold digits_n. intros H. apply andb_true_iff in H as [H1 H2].
  apply Nat.eqb_eq in H1. split; assumption.
Qed.

Lemma date_shape_joined (a b c : string) :
  digits_n 2 a = true -> digits_n 2 b = true -> digits_n 4 c = true ->
  date_shape 2 2 (a ++ "/" ++ b ++ "/" ++ c) = true.
Proof.
  intros Ha Hb Hc.
  destruct (digits_n_facts _ _ Ha) as [La Da].
  destruct (digits_n_facts _ _ Hb) as [Lb Db].
  destruct (digits_n_facts _ _ Hc) as [Lc Dc].
  unfold date_shape.
  change ("/" ++ b ++ "/" ++ c) with (String "/" (b ++ String "/" c)).
  rewrite split_at_sep by (apply digits_have_no; [reflexivity|exact Da]).
  rewrite split_at_sep by (apply digits_have_no; [reflexivity|exact Db]).
  rewrite split_no_sep by (apply digits_have_no; [reflexivity|exact Dc]).
  rewrite La, Lb, Da, Db, Hc. reflexivity.
Qed.

(** The characters of a text: those of its parts and one separator between
    two parts. *)
Lemma split_lengths (sep : ascii) (s : string) :
  S (String.length s)
  = fold_right (fun p n => (S (String.length p) + n)%nat) 0%nat (split sep s).
Proof.
  induction s as [|c t IH]; [reflexivity|].
  cbn [split]. destruct (Ascii.eqb c sep).
  - cbn [fold_right String.length]. rewrite <- IH. reflexivity.
  - destruct (split sep t) as [|p ps].
    + cbn [fold_right] in IH. discriminate IH.
    + cbn [fold_right String.length] in *. lia.
Qed.

Lemma date_shape_length (s : string) :
  date_shape 2 2 s = true -> String.length s = 10%nat.
Proof.
  intros H.
  destruct (date_shape_parts 2 2 s H) as (d & m & y & E & _ & _ & _ & Ld & Lm & Ly).
  pose proof (split_lengths "/" s) as L. rewrite E in L.
  cbn [fold_right] in L. lia.
Qed.

Lemma strftime_length (y m d : Z) :
  (1 <= m <= 12)%Z -> (1 <= d <= 31)%Z ->
  String.length (strftime_dmY y m d) = (6 + String.length (string_of_Z y))%nat.
Proof.
  intros Hm Hd. unfold strftime_dmY.
  destruct (digits_n_facts _ _ (two_digits d Hd)) as [Ld _].
  destruct (digits_n_facts _ _ (two_digits m ltac:(lia))) as [Lm _].
  change ("/" ++ zfill 2 (string_of_Z m) ++ "/" ++ string_of_Z y)
    with (String "/" (zfill 2 (string_of_Z m) ++ String "/" (string_of_Z y))).
  rewrite length_append_s. cbn [String.length].
  rewrite length_append_s. cbn [String.length]. rewrite Ld, Lm. lia.
Qed.

Lemma strftime_shape (y m d : Z) :
  (1000 <= y <= 9999)%Z -> (1 <= m <= 12)%Z -> (1 <= d <= 31)%Z ->
  date_shape 2 2 (strftime_dmY y m d) = true.
Proof.
  intros Hy Hm Hd. unfold strftime_dmY.
  apply date_shape_joined; [apply two_digits, Hd|apply two_digits; lia|apply year_digits, Hy].
Qed.

(** A date printed on ten characters has its year on four digits. *)
Lemma strftime_ten (y m d : Z) :
  (1 <= y <= 9999)%Z -> (1 <= m <= 12)%Z -> (1 <= d <= 31)%Z ->
  String.length (strftime_dmY y m d) = 10%nat ->
  date_shape 2 2 (strftime_dmY y m d) = true.
Proof.
  intros Hy Hm Hd L. rewrite (strftime_length y m d Hm Hd) in L.
  destruct (Z_lt_le_dec y 1000) as [Hlt|Hge].
  - pose proof (year_short y ltac:(lia)) as Hs. apply Nat.ltb_lt in Hs. lia.
  - apply strftime_shape; lia.
Qed.

Lemma days_in_month_le (y m : Z) : (days_in_month y m <= 31)%Z.
Proof.
  unfold days_in_month.
  destruct (m =? 2)%Z; [destruct (is_leap y); lia|].
  destruct ((m =? 4) || (m =? 6) || (m =? 9) || (m =? 11))%Z; lia.
Qed.

Lemma valid_date_range (y m d : Z) :
  valid_date y m d = true -> (1 <= y <= 9999 /\ 1 <= m <= 12 /\ 1 <= d <= 31)%Z.
Proof.
  unfold valid_date. intros H.
  repeat match goal with
         | H : _ && _ = true |- _ => apply andb_true_iff in H as [? ?]
         | H : (_ <=? _)%Z = true |- _ => apply Z.leb_le in H
         end.
  pose proof (days_in_month_le y m). lia.
Qed.

Lemma valid_date_ten (y m d : Z) :
  valid_date y m d = true ->
  String.length (strftime_dmY y m d) = 10%nat ->
  date_shape 2 2 (strftime_dmY y m d) = true.
Proof.
  intros H. destruct (valid_date_range y m d H) as (Hy & Hm & Hd).
  apply strftime_ten; assumption.
Qed.

Lemma checked_date_ten (y m d : option Z) (s : string) :
  checked_date y m d = Some s -> String.length s = 10%nat -> date_shape 2 2 s = true.
Proof.
  unfold checked_date. destruct y as [y|], m as [m|], d as [d|]; try discriminate.
  destruct (valid_date y m d) eqn:E; [|discriminate].
  intros H. inversion H; subst. apply valid_date_ten, E.
Qed.

Lemma strptime_ten (s d : string) :
  first_some (strptime_Ymd s) (first_some (strptime_dmY_dash s) (strptime_dmy_slash s))
  = Some d -> String.length d = 10%nat -> date_shape 2 2 d = true.
Proof.
  unfold first_some, strptime_Ymd, strptime_dmY_dash, strptime_dmy_slash.
  intros H.
  repeat match type of H with
         | context [match split ?c s with _ => _ end] =>
             destruct (split c s) as [|? [|? [|? [|? ?]]]]
         end;
    repeat match type of H with
           | context [match checked_date ?a ?b ?c with _ => _ end] =>
               destruct (checked_date a b c) eqn:?
           end;
    try discriminate H;
    match goal with
    | E : checked_date _ _ _ = Some ?x |- _ =>
        inversion H; subst; exact (checked_date_ten _ _ _ _ E)
    end.
Qed.

Lemma excel_serial_ten (q : Q) (d : string) :
  excel_serial_to_ddmmyyyy q = Some d ->
  String.length d = 10%nat -> date_shape 2 2 d = true.
Proof.
  unfold excel_serial_to_ddmmyyyy.
  set (days := (round_half_even (q * (us_per_day # 1)) / us_per_day)%Z).
  destruct ((-999999999 <=? days) && (days <=? 999999999)
            && (-693593 <=? days) && (days <=? 2958465))%Z eqn:E; [|discriminate].
  repeat match goal with
         | H : _ && _ = true |- _ => apply andb_true_iff in H as [? ?]
         | H : (_ <=? _)%Z = true |- _ => apply Z.leb_le in H
         end.
  pose proof (civil_from_days_range (days - 25569) ltac:(lia)) as Hr.
  destruct (civil_from_days (days - 25569)) as [[y m] dd].
  intros Hsome. inversion Hsome; subst d. apply strftime_ten; lia.
Qed.

(** From the first day of the year 1000 on, serial -328716, the year has
    four digits. *)
Lemma civil_from_days_year (z : Z) :
  (-354285 <= z <= 2932896)%Z ->
  let '(y, m, d) := civil_from_days z in
  (1000 <= y <= 9999 /\ 1 <= m <= 12 /\ 1 <= d <= 31)%Z.
Proof.
  intros H. unfold civil_from_days. cbv zeta.
  match goal with |- context [if ?b then (_ + 3)%Z else _] => destruct b eqn:E1 end;
    match goal with |- context [if ?b then 1%Z else 0%Z] => destruct b eqn:E2 end;
    rewrite ?Z.ltb_lt, ?Z.ltb_ge, ?Z.leb_le, ?Z.leb_gt in *;
    Z.div_mod_to_equations; lia.
Qed.

Lemma round_half_even_ge (q : Q) (k : Z) :
  (inject_Z k <= q)%Q -> (k <= round_half_even q)%Z.
Proof.
  unfold Qle, inject_Z. cbn [Qnum Qden]. intros H. rewrite Z.mul_1_r in H.
  assert (Hf : (k <= Qnum q / Zpos (Qden q))%Z)
    by (apply Z.div_le_lower_bound; lia).
  unfold round_half_even.
  repeat match goal with |- context [if ?b then _ else _] => destruct b end; lia.
Qed.

Lemma excel_serial_from_1000 (q : Q) (d : string) :
  (inject_Z (-328716) <= q)%Q ->
  excel_serial_to_ddmmyyyy q = Some d -> String.length d = 10%nat.
Proof.
  intros Hq. unfold excel_serial_to_ddmmyyyy.
  set (us := round_half_even (q * (us_per_day # 1))).
  assert (Hus : (-328716 * us_per_day <= us)%Z).
  { apply round_half_even_ge. revert Hq. unfold Qle, inject_Z, Qmult, us_per_day.
    cbn [Qnum Qden]. destruct q as [a b]. cbn [Qnum Qden]. lia. }
  assert (Hdays : (-328716 <= us / us_per_day)%Z).
  { apply Z.div_le_lower_bound; [reflexivity|]. lia. }
  set (days := (us / us_per_day)%Z) in *.
  destruct ((-999999999 <=? days) && (days <=? 999999999)
            && (-693593 <=? days) && (days <=? 2958465))%Z eqn:E; [|discriminate].
  repeat match goal with
         | H : _ && _ = true |- _ => apply andb_true_iff in H as [? ?]
         | H : (_ <=? _)%Z = true |- _ => apply Z.leb_le in H
         end.
  pose proof (civil_from_days_year (days - 25569) ltac:(lia)) as Hr.
  destruct (civil_from_days (days - 25569)) as [[y m] dd].
  intros Hsome. inversion Hsome; subst d.
  apply date_shape_length, strftime_shape; lia.
Qed.

Lemma truthy_some (o : option string) (d : string) : truthy o = Some d -> o = Some d.
Proof.
  destruct o as [e|]; [|discriminate]. cbn [truthy].
  destruct (is_empty e); [discriminate|]. exact (fun H => H).
Qed.

(** White space is taken off once and for all. *)
Lemma lstrip_cons (c : ascii) (t : string) :
  lstrip (String c t) =
  if is_space c then lstrip t
  else if Ascii.eqb c xC2 then
    match t with
    | String d t' => if Ascii.eqb d xA0 || Ascii.eqb d x85 then lstrip t' else String c t
    | "" => String c t
    end
  else String c t.
Proof. reflexivity. Qed.

Lemma rstrip_cons (c : ascii) (t : string) :
  rstrip (String c t) = if all_space (String c t) then "" else String c (rstrip t).
Proof. reflexivity. Qed.

Lemma space_byte_facts (d : ascii) :
  Ascii.eqb d xA0 || Ascii.eqb d x85 = true ->
  is_space d = false /\ Ascii.eqb d xC2 = false.
Proof.
  intros H. apply orb_true_iff in H as [H|H]; apply Ascii.eqb_eq in H; subst d;
    split; reflexivity.
Qed.

Lemma lstrip_length (s : string) : (String.length (lstrip s) <= String.length s)%nat.
Proof.
  induction s as [| c | c d t IH1 IH2] using string_ind2.
  - reflexivity.
  - rewrite lstrip_cons. destruct (is_space c); [cbn [lstrip String.length]; lia|].
    destruct (Ascii.eqb c xC2); reflexivity.
  - rewrite lstrip_cons. destruct (is_space c); [cbn [String.length] in *; lia|].
    destruct (Ascii.eqb c xC2); [|reflexivity].
    destruct (Ascii.eqb d xA0 || Ascii.eqb d x85);
      [cbn [String.length] in *; lia|reflexivity].
Qed.

Lemma all_space_rstrip (x : string) : all_space (rstrip x) = all_space x.
Proof.
  induction x as [| c | c d t IH1 IH2] using string_ind2.
  - reflexivity.
  - rewrite rstrip_cons. destruct (all_space (String c "")) eqn:E; [reflexivity|exact E].
  - rewrite (rstrip_cons c (String d t)).
    destruct (all_space (String c (String d t))) eqn:E; [reflexivity|].
    unfold all_space in E |- *. rewrite lstrip_cons in E. rewrite lstrip_cons.
    destruct (is_space c) eqn:Es.
    + fold (all_space (rstrip (String d t))). rewrite IH2. exact E.
    + destruct (Ascii.eqb c xC2) eqn:Ec; [|reflexivity].
      destruct (Ascii.eqb d xA0 || Ascii.eqb d x85) eqn:Ed.
      * destruct (space_byte_facts d Ed) as [Hsd Hcd].
        rewrite (rstrip_cons d t).
        assert (all_space (String d t) = false) as ->.
        { unfold all_space. rewrite lstrip_cons, Hsd, Hcd. reflexivity. }
        rewrite Ed. fold (all_space (rstrip t)). rewrite IH1. exact E.
      * rewrite (rstrip_cons d t). destruct (all_space (String d t)); [reflexivity|].
        rewrite Ed. reflexivity.
Qed.

Lemma rstrip_idem (x : string) : rstrip (rstrip x) = rstrip x.
Proof.
  induction x as [|c t IH]; [reflexivity|].
  rewrite rstrip_cons. destruct (all_space (String c t)) eqn:E; [reflexivity|].
  pose proof (all_space_rstrip (String c t)) as H. rewrite rstrip_cons, E in H.
  rewrite rstrip_cons, H, IH. reflexivity.
Qed.

Lemma lstrip_idem (x : string) : lstrip (lstrip x) = lstrip x.
Proof.
  induction x as [| c | c d t IH1 IH2] using string_ind2.
  - reflexivity.
  - rewrite lstrip_cons. destruct (is_space c) eqn:Es; [reflexivity|].
    destruct (Ascii.eqb c xC2) eqn:Ec; rewrite lstrip_cons, Es, Ec; reflexivity.
  - rewrite (lstrip_cons c). destruct (is_space c) eqn:Es; [exact IH2|].
    destruct (Ascii.eqb c xC2) eqn:Ec.
    + destruct (Ascii.eqb d xA0 || Ascii.eqb d x85) eqn:Ed; [exact IH1|].
      rewrite (lstrip_cons c), Es, Ec, Ed. reflexivity.
    + rewrite (lstrip_cons c), Es, Ec. reflexivity.
Qed.

Lemma lstrip_rstrip (t : string) : lstrip t = t -> lstrip (rstrip t) = rstrip t.
Proof.
  destruct t as [|c t]; [reflexivity|]. intros H.
  rewrite rstrip_cons. destruct (all_space (String c t)); [reflexivity|].
  rewrite lstrip_cons in H. rewrite lstrip_cons.
  destruct (is_space c) eqn:Es.
  - apply (f_equal String.length) in H. cbn [String.length] in H.
    pose proof (lstrip_length t). lia.
  - destruct (Ascii.eqb c xC2) eqn:Ec; [|reflexivity].
    destruct t as [|d t']; [reflexivity|].
    destruct (Ascii.eqb d xA0 || Ascii.eqb d x85) eqn:Ed.
    + apply (f_equal String.length) in H. cbn [String.length] in H.
      pose proof (lstrip_length t'). lia.
    + rewrite (rstrip_cons d t'). destruct (all_space (String d t')); [reflexivity|].
      rewrite Ed. reflexivity.
Qed.

Lemma strip_idem (s : string) : strip (strip s) = strip s.
Proof.
  unfold strip. rewrite (lstrip_rstrip (lstrip s) (lstrip_idem s)).
  apply rstrip_idem.
Qed.

Lemma number_serial (b : bool) (d : string) :
  truthy (excel_serial_to_ddmmyyyy (if b then 1 else 0)%Q) = Some d ->
  excel_serial_to_ddmmyyyy 1 = Some d \/ excel_serial_to_ddmmyyyy 0 = Some d.
Proof. intros H. apply truthy_some in H. destruct b; [left|right]; exact H. Qed.

(** X25.  A date [to_ddmmyyyy] of [consolidado_v3.py] returns, from a
    string, a number or a time stamp of the calendar, is written
    [dd/mm/yyyy] exactly when it has ten characters, that is when its year
    has four digits; such a date the three scripts leave as it is:
    normalising a normalised date changes nothing.  A number from -328716
    on (the first day of the year 1000) and a time stamp from the year
    1000 on give such a date; before that the year is printed on fewer
    digits. *)
Theorem to_ddmmyyyy_fixed_point (x : cell) (d : string)
    (Hx : match x with
          | PyDatetime y m dd _ => valid_date y m dd = true
          | _ => True
          end)
    (H : to_ddmmyyyy x = Some d) :
  (String.length d = 10%nat <-> date_shape 2 2 d = true)
  /\ (String.length d = 10%nat ->
      to_ddmmyyyy (PyStr d) = Some d
      /\ to_ddmmyyyy_britimp (PyStr d) = Some d
      /\ to_ddmmyyyy_v4 (PyStr d) = Ok (Some d))
  /\ match x with
     | PyBool _ => String.length d = 10%nat
     | PyInt n => (-328716 <= n)%Z -> String.length d = 10%nat
     | PyFloat q _ => (inject_Z (-328716) <= q)%Q -> String.length d = 10%nat
     | PyDatetime y _ _ _ => (1000 <= y)%Z -> String.length d = 10%nat
     | _ => True
     end.
Proof.
  assert (Hten : String.length d = 10%nat -> date_shape 2 2 d = true).
  { unfold to_ddmmyyyy, to_ddmmyyyy_with in H. destruct x as [|b|z|q r|s|y m dd r].
    - discriminate H.
    - cbn [number] in H. destruct (number_serial _ _ H) as [E|E];
        exact (excel_serial_ten _ _ E).
    - cbn [number] in H. exact (excel_serial_ten _ _ (truthy_some _ _ H)).
    - cbn [number] in H. exact (excel_serial_ten _ _ (truthy_some _ _ H)).
    - unfold date_of_str, DATE_RE_match in H. rewrite strip_idem in H.
      destruct (date_shape 2 2 (strip s)) eqn:E.
      + inversion H; subst. intros _. exact E.
      + exact (strptime_ten _ _ H).
    - inversion H; subst. apply valid_date_ten, Hx. }
  split; [split; [exact Hten|apply date_shape_length]|]. split.
  - intros L. pose proof (Hten L) as Hshape.
    destruct (date_shape_strip 2 2 d Hshape) as [Hstrip Hne].
    unfold to_ddmmyyyy, to_ddmmyyyy_britimp, to_ddmmyyyy_with, to_ddmmyyyy_v4,
      date_of_str, DATE_RE_match, DATE_RE_match_britimp.
    rewrite !Hstrip, Hshape, (date_shape_weaken d Hshape), Hne. repeat split.
  - unfold to_ddmmyyyy, to_ddmmyyyy_with in H. destruct x as [|b|z|q r|s|y m dd r].
    + exact I.
    + cbn [number] in H. destruct (number_serial _ _ H) as [E|E];
        refine (excel_serial_from_1000 _ _ _ E); vm_compute; discriminate.
    + cbn [number] in H. intros Hz.
      refine (excel_serial_from_1000 _ _ _ (truthy_some _ _ H)).
      unfold Qle, inject_Z. cbn [Qnum Qden]. lia.
    + cbn [number] in H. intros Hq.
      exact (excel_serial_from_1000 _ _ Hq (truthy_some _ _ H)).
    + exact I.
    + inversion H; subst. intros Hy.
      destruct (valid_date_range y m dd Hx) as (Hy' & Hm & Hd).
      apply date_shape_length, strftime_shape; lia.
Qed.

Lemma to_ddmmyyyy_fixed_point_witness :
  to_ddmmyyyy (PyInt 45292) = Some "01/01/2024"
  /\ to_ddmmyyyy (PyStr "01/01/2024") = Some "01/01/2024".
Proof.
  assert (H : to_ddmmyyyy (PyInt 45292) = Some "01/01/2024") by (vm_compute; reflexivity).
  split; [exact H|].
  exact (proj1 (proj1 (proj2 (to_ddmmyyyy_fixed_point (PyInt 45292) "01/01/2024" I H))
                  eq_refl)).
Defined.

(** ** The inventory extractor *)

Import Inventory.

Lemma item_Ok (r : row) (i : nat) (c : cell) :
  item r i = Ok c -> (i < List.length r)%nat /\ nth i r NaN = c.
Proof.
  unfold item. destruct (nth_error r i) as [x|] eqn:E; [|discriminate].
  intros H. inversion H; subst. split.
  - apply nth_error_Some. congruence.
  - apply nth_error_nth, E.
Qed.

Lemma inv_row_narrow (origin : string) (sh : inv_sheet) (r : row) :
  (List.length r < 9)%nat ->
  inv_row origin sh r = Raise \/ inv_row origin sh r = Ok None.
Proof.
  intros Hlen. destruct (inv_row origin sh r) as [[rec|]|] eqn:E.
  - unfold inv_row in E.
    repeat match type of E with
           | context [bind (item r ?i) _] => destruct (item r i); cbn [bind] in E
           | context [if ?b then _ else _] => destruct b eqn:?
           | context [match parse_numeric ?c with _ => _ end] =>
               destruct (parse_numeric c)
           end; try discriminate E.
    match goal with H : (8 <? List.length r)%nat = true |- _ =>
      apply Nat.ltb_lt in H; lia end.
  - right. reflexivity.
  - left. reflexivity.
Qed.

Lemma inv_rows_narrow (origin : string) (sh : inv_sheet) (rows : list row) :
  Forall (fun r => (List.length r < 9)%nat) rows ->
  inv_rows origin sh rows = Raise \/ inv_rows origin sh rows = Ok [].
Proof.
  induction 1 as [|r rows Hr _ IH]; [right; reflexivity|].
  cbn [inv_rows].
  destruct (inv_row_narrow origin sh r Hr) as [-> | ->]; [left; reflexivity|].
  cbn [bind]. destruct IH as [-> | ->]; [left|right]; reflexivity.
Qed.

(** X26.  [parse_inv_billetes_xlsx_atm] of [consolidado_v3.py] takes
    nothing from a sheet of fewer than nine columns: the amount is read
    from the ninth cell and a row without it is passed over, after the
    cells before it have been read, which raises when they are not there
    either.  For a workbook of such sheets the parser returns no record or
    raises. *)
Theorem inventory_needs_nine_columns (origin : string) (sheets : list inv_sheet)
    (H : Forall (fun sh => Forall (fun r => (List.length r < 9)%nat) (ish_rows sh))
           sheets) :
  parse_inv_billetes_xlsx_atm origin sheets = Raise
  \/ parse_inv_billetes_xlsx_atm origin sheets = Ok [].
Proof.
  unfold parse_inv_billetes_xlsx_atm.
  assert (Hm : mapM (fun sh => inv_rows origin sh (ish_rows sh)) sheets = Raise
               \/ exists per, mapM (fun sh => inv_rows origin sh (ish_rows sh)) sheets
                              = Ok per /\ concat per = []).
  { induction H as [|sh sheets Hsh _ IH]; [right; exists []; split; reflexivity|].
    cbn [mapM].
    destruct (inv_rows_narrow origin sh (ish_rows sh) Hsh) as [-> | ->];
      [left; reflexivity|].
    cbn [bind]. destruct IH as [-> | (per & -> & Hper)]; [left; reflexivity|].
    right. exists ([] :: per). split; [reflexivity|exact Hper]. }
  destruct Hm as [-> | (per & -> & Hper)]; [left; reflexivity|].
  right. cbn [bind]. rewrite Hper. reflexivity.
Qed.

Lemma inventory_needs_nine_columns_witness :
  parse_inv_billetes_xlsx_atm "f.xlsx"
    [inv_bare [[PyStr "Gs"; PyStr "TESORO"; PyStr "BILLETES"; PyInt 100000;
                PyInt 10; PyInt 0; PyInt 0; PyInt 0]]] = Ok []
  /\ parse_inv_billetes_xlsx_atm "f.xlsx"
       [inv_bare [[PyStr "Gs"; PyStr "TESORO"; PyStr "BILLETES"; PyInt 100000]]]
     = Raise.
Proof.
  split.
  - destruct (inventory_needs_nine_columns "f.xlsx"
                [inv_bare [[PyStr "Gs"; PyStr "TESORO"; PyStr "BILLETES"; PyInt 100000;
                            PyInt 10; PyInt 0; PyInt 0; PyInt 0]]]) as [H|H].
    + repeat constructor.
    + vm_compute in H. discriminate H.
    + exact H.
  - destruct (inventory_needs_nine_columns "f.xlsx"
                [inv_bare [[PyStr "Gs"; PyStr "TESORO"; PyStr "BILLETES";
                            PyInt 100000]]]) as [H|H].
    + repeat constructor.
    + exact H.
    + vm_compute in H. discriminate H.
Defined.

Lemma inv_rows_records (origin : string) (sh : inv_sheet) (rows : list row) :
  forall recs rec,
    inv_rows origin sh rows = Ok recs -> In rec recs ->
    exists r, In r rows /\ inv_row origin sh r = Ok (Some rec).
Proof.
  induction rows as [|r rows IH]; intros recs rec H Hin.
  - cbn [inv_rows] in H. inversion H; subst. destruct Hin.
  - cbn [inv_rows] in H.
    destruct (inv_row origin sh r) as [x|] eqn:Er; [|discriminate H]. cbn [bind] in H.
    destruct (inv_rows origin sh rows) as [more|] eqn:Em; [|discriminate H].
    cbn [bind] in H. inversion H; subst. clear H.
    destruct x as [x|].
    + destruct Hin as [<-|Hin].
      * exists r. split; [left; reflexivity|exact Er].
      * destruct (IH more rec eq_refl Hin) as (r' & Hr' & Hrow).
        exists r'. split; [right; exact Hr'|exact Hrow].
    + destruct (IH more rec eq_refl Hin) as (r' & Hr' & Hrow).
      exists r'. split; [right; exact Hr'|exact Hrow].
Qed.

Lemma mapM_Ok_in {A B} (f : A -> result (list B)) (l : list A) (per : list (list B))
    (b : B) :
  mapM f l = Ok per -> In b (concat per) ->
  exists a bs, In a l /\ f a = Ok bs /\ In b bs.
Proof.
  revert per. induction l as [|a l IH]; intros per H Hin.
  - cbn [mapM] in H. inversion H; subst. destruct Hin.
  - cbn [mapM] in H. destruct (f a) as [bs|] eqn:Ea; [|discriminate H].
    cbn [bind] in H. destruct (mapM f l) as [rest|] eqn:El; [|discriminate H].
    cbn [bind] in H. inversion H; subst. cbn [concat] in Hin.
    apply in_app_or in Hin as [Hin|Hin].
    + exists a, bs. split; [left; reflexivity|]. split; assumption.
    + destruct (IH rest eq_refl Hin) as (a' & bs' & Ha' & Hf & Hb).
      exists a', bs'. split; [right; exact Ha'|]. split; assumption.
Qed.

(** X27.  Every record [parse_inv_billetes_xlsx_atm] of
    [consolidado_v3.py] returns comes from a row of nine cells or more
    whose first cell names the currency, [PYG] or [USD], and whose ninth
    cell is the amount of the record, read by [parse_numeric]: a row whose
    amount that function does not read, such as a text with the thousands
    marked by points, gives no record. *)
Theorem inventory_record_origin (origin : string) (sheets : list inv_sheet)
    (recs : list inventario) (rec : inventario)
    (H : parse_inv_billetes_xlsx_atm origin sheets = Ok recs)
    (Hin : In rec recs) :
  exists sh r,
    In sh sheets /\ In r (ish_rows sh)
    /\ (9 <= List.length r)%nat
    /\ (DIVISA rec = "PYG" \/ DIVISA rec = "USD")
    /\ DIVISA rec = normalize_divisa_to_iso (str (nth 0 r NaN))
    /\ parse_numeric (nth 8 r NaN) = Some (IMPORTE_TOTAL rec)
    /\ inv_ARCHIVO_ORIGEN rec = origin
    /\ inv_AGENCIA rec = ish_agencia sh
    /\ FECHA_INVENTARIO rec = ish_fecha sh.
Proof.
  unfold parse_inv_billetes_xlsx_atm in H.
  destruct (mapM _ sheets) as [per|] eqn:Em; [|discriminate H].
  cbn [bind] in H. inversion H; subst. clear H.
  destruct (mapM_Ok_in _ _ _ _ Em Hin) as (sh & bs & Hsh & Hrows & Hb).
  destruct (inv_rows_records origin sh _ _ _ Hrows Hb) as (r & Hr & Hrow).
  exists sh, r. split; [exact Hsh|]. split; [exact Hr|].
  unfold inv_row in Hrow.
  destruct (item r 0) as [c0|] eqn:E0; [|discriminate Hrow]. cbn [bind] in Hrow.
  destruct (String.eqb (normalize_divisa_to_iso (str c0)) "PYG") eqn:Ep;
    destruct (String.eqb (normalize_divisa_to_iso (str c0)) "USD") eqn:Eu;
    cbn [orb negb] in Hrow; try discriminate Hrow.
  all: destruct (item r 1) as [c1|]; [|discriminate Hrow]; cbn [bind] in Hrow;
    destruct (item r 2) as [c2|]; [|discriminate Hrow]; cbn [bind] in Hrow;
    destruct (item r 3) as [c3|]; [|discriminate Hrow]; cbn [bind] in Hrow;
    destruct (parse_numeric c3) as [denom|]; [|discriminate Hrow];
    destruct (item r 4) as [c4|]; [|discriminate Hrow]; cbn [bind] in Hrow;
    destruct (item r 5) as [c5|]; [|discriminate Hrow]; cbn [bind] in Hrow;
    destruct (item r 6) as [c6|]; [|discriminate Hrow]; cbn [bind] in Hrow;
    destruct (item r 7) as [c7|]; [|discriminate Hrow]; cbn [bind] in Hrow;
    destruct (8 <? List.length r)%nat eqn:E8; [|discriminate Hrow];
    destruct (parse_numeric (nth 8 r NaN)) as [imp|] eqn:Ei; [|discriminate Hrow];
    inversion Hrow; subst;
    cbn [DIVISA IMPORTE_TOTAL inv_ARCHIVO_ORIGEN inv_AGENCIA FECHA_INVENTARIO];
    destruct (item_Ok _ _ _ E0) as [_ <-];
    apply Nat.ltb_lt in E8; apply String.eqb_eq in Ep || apply String.eqb_eq in Eu.
  all: repeat split; try lia; auto.
Qed.

Lemma inventory_record_origin_witness :
  (exists rec,
     parse_inv_billetes_xlsx_atm "f.xlsx" [inv_bare [nine_cells (PyInt 1000000)]]
     = Ok [rec]
     /\ DIVISA rec = "PYG" /\ TIPO_VALOR rec = "BILLETES"
     /\ AGRUPACION_EFECTIVO rec = "TESORO ATM")
  /\ parse_inv_billetes_xlsx_atm "f.xlsx" [inv_bare [nine_cells (PyStr "1.000.000")]]
     = Ok [].
Proof.
  split; [|vm_compute; reflexivity].
  assert (E : exists rec,
             parse_inv_billetes_xlsx_atm "f.xlsx" [inv_bare [nine_cells (PyInt 1000000)]]
             = Ok [rec] /\ TIPO_VALOR rec = "BILLETES"
             /\ AGRUPACION_EFECTIVO rec = "TESORO ATM").
  { eexists. split; [vm_compute; reflexivity|]. split; reflexivity. }
  destruct E as (rec & E & Ht & Ha). exists rec. split; [exact E|].
  destruct (inventory_record_origin "f.xlsx" _ _ rec E (or_introl eq_refl))
    as (sh & r & _ & _ & _ & [Hd|Hd] & Hiso & _).
  - split; [exact Hd|]. split; assumption.
  - exfalso.
    assert (Hp : DIVISA rec = "PYG").
    { revert E. clear. intros E. vm_compute in E. inversion E; subst. reflexivity. }
    congruence.
Defined.

(** ** The bank statement parser of [britimp_consolidado_v4.py] *)

Lemma bco_step_record (origin : string) (sh : sheet_bco) (st st' : scan_bco)
    (r : row) (out : list registro_bco) (rec : registro_bco) :
  bco_step origin sh st r = NextBco st' out -> In rec out ->
  exists sec,
    current_section st = Some sec
    /\ bco_CLASIFICACION rec = "BCO" /\ bco_BULTOS rec = None
    /\ bco_ARCHIVO_ORIGEN rec = origin
    /\ bco_MONEDA rec = shb_moneda sh /\ bco_AGENCIA rec = shb_agencia sh
    /\ bco_FECHA_ARCHIVO rec = shb_fecha_archivo sh
    /\ bco_ING_EGR rec = ing_egr sec
    /\ bco_MOTIVO_MOVIMIENTO rec
       = motivo_or_section (current_motivo st) sec ++ shb_extra_cliente sh
    /\ bco_FECHA_OPERACION rec <> "" /\ bco_SUCURSAL rec <> "".
Proof.
  unfold bco_step. intros H Hin.
  split_cases H; try discriminate H; inversion H; subst;
    try (destruct Hin; fail).
  destruct Hin as [<-|[]].
  eexists. split; [reflexivity|].
  cbn [bco_CLASIFICACION bco_BULTOS bco_ARCHIVO_ORIGEN bco_MONEDA bco_AGENCIA
       bco_FECHA_ARCHIVO bco_ING_EGR bco_MOTIVO_MOVIMIENTO bco_FECHA_OPERACION
       bco_SUCURSAL].
  repeat split.
  - eapply find_fecha_spec. eassumption.
  - eapply find_sucursal_spec. eassumption.
Qed.

Lemma scan_rows_bco_records (origin : string) (sh : sheet_bco) (rows : list row) :
  forall st rec,
    In rec (scan_rows_bco (bco_step origin sh) st rows) ->
    exists st0 st1 r out,
      In r rows /\ bco_step origin sh st0 r = NextBco st1 out /\ In rec out.
Proof.
  induction rows as [|r rows IH]; intros st rec Hin; [destruct Hin|].
  cbn [scan_rows_bco] in Hin.
  destruct (bco_step origin sh st r) as [st' out|] eqn:Hstep; [|destruct Hin].
  apply in_app_or in Hin as [Hin|Hin].
  - exists st, st', r, out. split; [left; reflexivity|]. split; assumption.
  - destruct (IH st' rec Hin) as (st0 & st1 & r' & out' & Hr & Hs & Ho).
    exists st0, st1, r', out'. split; [right; exact Hr|]. split; assumption.
Qed.

(** X28.  Every record of [parse_ec_efect_bco_xlsx], whatever the sheets
    hold: the classification is [BCO] and the bundles are left empty, the
    currency, the agency and the file date are those read off its sheet,
    the direction is [IN] or [OUT], the reason ends with the client suffix
    of the sheet, and date and branch are not empty. *)
Theorem bco_parser_record_invariants (origin : string) (sheets : list sheet_bco)
    (rec : registro_bco)
    (Hin : In rec (parse_ec_efect_bco_xlsx origin sheets)) :
  bco_CLASIFICACION rec = "BCO" /\ bco_BULTOS rec = None
  /\ bco_ARCHIVO_ORIGEN rec = origin
  /\ (bco_ING_EGR rec = "IN" \/ bco_ING_EGR rec = "OUT")
  /\ bco_FECHA_OPERACION rec <> "" /\ bco_SUCURSAL rec <> ""
  /\ exists sh base,
       In sh sheets
       /\ bco_MONEDA rec = shb_moneda sh /\ bco_AGENCIA rec = shb_agencia sh
       /\ bco_FECHA_ARCHIVO rec = shb_fecha_archivo sh
       /\ bco_MOTIVO_MOVIMIENTO rec = base ++ shb_extra_cliente sh.
Proof.
  unfold parse_ec_efect_bco_xlsx in Hin.
  apply in_flat_map in Hin as (sh & Hsh & Hin).
  destruct (scan_rows_bco_records origin sh _ _ _ Hin)
    as (st0 & st1 & r & out & _ & Hstep & Hout).
  destruct (bco_step_record origin sh st0 st1 r out rec Hstep Hout)
    as (sec & _ & Hc & Hb & Ho & Hm & Ha & Hf & Hie & Hmot & Hfe & Hsu).
  split; [exact Hc|]. split; [exact Hb|]. split; [exact Ho|].
  split; [rewrite Hie; destruct sec; [left|right]; reflexivity|].
  split; [exact Hfe|]. split; [exact Hsu|].
  exists sh, (motivo_or_section (current_motivo st0) sec).
  repeat split; assumption.
Qed.

Lemma bco_parser_record_invariants_witness :
  exists rec,
    In rec (parse_ec_efect_bco_xlsx "f.xlsx"
              [{| shb_moneda := "PYG"; shb_agencia := "ASU"; shb_fecha_archivo := None;
                  shb_extra_cliente := ""; shb_rows := five_rows_numeric |}])
    /\ bco_CLASIFICACION rec = "BCO".
Proof.
  eexists. split; [left; reflexivity|].
  refine (proj1 (bco_parser_record_invariants "f.xlsx"
                   [{| shb_moneda := "PYG"; shb_agencia := "ASU";
                       shb_fecha_archivo := None; shb_extra_cliente := "";
                       shb_rows := five_rows_numeric |}] _ _)).
  left. vm_compute. reflexivity.
Defined.

(** ** The frame [process_file] returns *)

Lemma index_of_In (c : string) (cols : list string) :
  index_of c cols <> None <-> In c cols.
Proof.
  induction cols as [|c' cols IH]; [cbn; tauto|].
  cbn [index_of In]. destruct (String.eqb_spec c c') as [->|Hne].
  - split; [intros _; left; reflexivity|discriminate].
  - split.
    + intros H. right. apply IH. destruct (index_of c cols); [discriminate|].
      exact H.
    + intros [E|Hin]; [congruence|]. apply IH in Hin.
      destruct (index_of c cols); [discriminate|exact Hin].
Qed.

Lemma fill_agencia_spec (normalize : string -> string) (agencia_norm : string)
    (df : dataframe) :
  In "AGENCIA" (columns (fill_agencia normalize agencia_norm df))
  /\ len (fill_agencia normalize agencia_norm df) = len df
  /\ (forall c, In c (columns df) ->
                In c (columns (fill_agencia normalize agencia_norm df))).
Proof.
  unfold fill_agencia, len.
  destruct (index_of "AGENCIA" (columns df)) as [i|] eqn:E; cbn [columns data].
  - split; [apply index_of_In; congruence|].
    split; [apply length_map|auto].
  - split; [apply in_or_app; right; left; reflexivity|].
    split; [apply length_map|]. intros c Hc. apply in_or_app. left. exact Hc.
Qed.

(** X29.  A frame with records that [process_file] of [consolidado_v3.py]
    returns always has the column [AGENCIA], added when the parser gave
    none, and has the rows of the frame the parser returned, neither more
    nor fewer. *)
Theorem process_file_frame_has_agencia (sx : searches) (f : pending) (df : dataframe)
    (tipo : option string) (agencia : string) (is_itau : bool)
    (H : process_file sx f = Ok (df, tipo, agencia, is_itau))
    (He : empty df = false) :
  In "AGENCIA" (columns df)
  /\ exists parsed,
       parse_by_tipo (p_parsers f) tipo (suffix (p_source f)) = Ok parsed
       /\ len df = len parsed
       /\ forall c, In c (columns parsed) -> In c (columns df).
Proof.
  destruct (process_file_parsed sx f df tipo agencia is_itau H He)
    as (_ & parsed & ag & Hp & _ & ->).
  destruct (fill_agencia_spec (normalize_agencia_to_cod sx) ag parsed) as (H1 & H2 & H3).
  split; [exact H1|].
  exists parsed. split; [exact Hp|]. split; [exact H2|exact H3].
Qed.

Lemma process_file_frame_has_agencia_witness :
  parse_by_tipo (p_parsers inventory_pdf) (Some "INV_BILLETES_ATM") ".pdf" = Ok one_row
  /\ process_file no_searches inventory_pdf
     = Ok ({| columns := ["DIVISA"; "AGENCIA"]; data := [["PYG"; "ASU"]] |},
           Some "INV_BILLETES_ATM", "ASU", true)
  /\ In "AGENCIA" ["DIVISA"; "AGENCIA"].
Proof.
  assert (H : process_file no_searches inventory_pdf
              = Ok ({| columns := ["DIVISA"; "AGENCIA"]; data := [["PYG"; "ASU"]] |},
                    Some "INV_BILLETES_ATM", "ASU", true))
    by (vm_compute; reflexivity).
  split; [reflexivity|]. split; [exact H|].
  exact (proj1 (process_file_frame_has_agencia no_searches inventory_pdf _ _ _ _
                  H eq_refl)).
Defined.
